(** * PhotoShutterInspector: metadata extraction and comparison engine

    A shallow embedding of [photoshutterinspector.py] (class
    [PhotoShutterInspector]) and the properties of its tag resolver,
    shutter-count heuristic, file analyzer, directory analyzer and two-file
    comparator.

    Conventions of the embedding.
    - Python [str] is [string]; the characters are ASCII (case mapping and
      the digit class are the ASCII ones).
    - A metadata value is a JSON scalar as [json.loads] delivers it: [None],
      [bool], [int], [float] or [str] (type [value]).  A [float] is an IEEE
      value in the [spec_float] presentation of the Standard Library: a
      zero, an infinity, NaN, or a sign, a mantissa and a binary exponent.
    - The metadata mapping is a Python [dict]: an association list in
      insertion order (the order [exif.items()] iterates in); a lookup takes
      the first entry of a key.
    - A Python exception is the [Raise] outcome of the [pyresult] monad.
    - A directory is the list of its entries in the order [iterdir] yields
      them, each with what the backend answers for it.
    - Text produced by f-strings is kept symbolic: every message is a
      constructor carrying the interpolated values. *)

From Stdlib Require Import ZArith List String Ascii Bool Lia.
From Stdlib Require Import Floats.SpecFloat.
From Stdlib Require Import Sorting.Permutation Sorting.Sorted.
Import ListNotations.

Local Open Scope string_scope.
Local Open Scope Z_scope.

(** ** Python exceptions and the error monad *)

Inductive exn : Type :=
| TypeError
| AttributeError
| ValueError
| OverflowError
| OSError
| RuntimeError (msg : string).

Inductive pyresult (A : Type) : Type :=
| Ok (a : A)
| Raise (e : exn).

Arguments Ok {A} a.
Arguments Raise {A} e.

Definition bind {A B : Type} (m : pyresult A) (k : A -> pyresult B) : pyresult B :=
  match m with
  | Ok a => k a
  | Raise e => Raise e
  end.

Notation "'let*' x ':=' m 'in' k" := (bind m (fun x => k))
  (at level 10, x pattern, m at level 100, k at level 200).

Definition returns {A : Type} (m : pyresult A) : Prop := exists a, m = Ok a.

(** ** Strings *)

Module PyStr.

Definition is_digit (c : ascii) : bool :=
  let n := nat_of_ascii c in (48 <=? n)%nat && (n <=? 57)%nat.

(** The blanks of [\s] and [str.isspace]: tab to carriage return, the four
    separators, the space. *)
Definition is_space (c : ascii) : bool :=
  let n := nat_of_ascii c in
  ((9 <=? n)%nat && (n <=? 13)%nat) || ((28 <=? n)%nat && (n <=? 32)%nat).

Definition lower_char (c : ascii) : ascii :=
  let n := nat_of_ascii c in
  if (65 <=? n)%nat && (n <=? 90)%nat then ascii_of_nat (n + 32) else c.

Definition upper_char (c : ascii) : ascii :=
  let n := nat_of_ascii c in
  if (97 <=? n)%nat && (n <=? 122)%nat then ascii_of_nat (n - 32) else c.

(** [s.lower()] and [s.upper()] *)
Fixpoint lower (s : string) : string :=
  match s with
  | EmptyString => EmptyString
  | String c s' => String (lower_char c) (lower s')
  end.

Fixpoint upper (s : string) : string :=
  match s with
  | EmptyString => EmptyString
  | String c s' => String (upper_char c) (upper s')
  end.

(** [s.endswith(suf)]: [suf] is one of the tails of [s]. *)
Fixpoint endswith (suf s : string) : bool :=
  String.eqb suf s ||
  match s with
  | EmptyString => false
  | String _ s' => endswith suf s'
  end.

(** [sub in s] *)
Fixpoint contains (sub s : string) : bool :=
  String.prefix sub s ||
  match s with
  | EmptyString => false
  | String _ s' => contains sub s'
  end.

(** [s.split(sep)[0]]: the text before the first [sep]. *)
Fixpoint split_head (sep : ascii) (s : string) : string :=
  match s with
  | EmptyString => EmptyString
  | String c s' => if Ascii.eqb c sep then EmptyString else String c (split_head sep s')
  end.

(** [s.split(sep)[-1]]: the text after the last [sep]. *)
Fixpoint split_last_from (sep : ascii) (acc s : string) : string :=
  match s with
  | EmptyString => acc
  | String c s' =>
      if Ascii.eqb c sep then split_last_from sep s' s' else split_last_from sep acc s'
  end.

Definition split_last (sep : ascii) (s : string) : string := split_last_from sep s s.

(** [s.lstrip(c)] for a one-character set *)
Fixpoint lstrip (c : ascii) (s : string) : string :=
  match s with
  | String c' s' => if Ascii.eqb c' c then lstrip c s' else s
  | EmptyString => EmptyString
  end.

Fixpoint all_digits (s : string) : bool :=
  match s with
  | EmptyString => true
  | String c s' => is_digit c && all_digits s'
  end.

(** [s.isdigit()]: non-empty and made of digits only. *)
Definition isdigit (s : string) : bool :=
  match s with
  | EmptyString => false
  | _ => all_digits s
  end.

Definition digit_val (c : ascii) : Z := Z.of_nat (nat_of_ascii c) - 48.

Fixpoint int_of_digits_from (acc : Z) (s : string) : Z :=
  match s with
  | EmptyString => acc
  | String c s' => int_of_digits_from (10 * acc + digit_val c) s'
  end.

(** [int(s)] for a string of decimal digits. *)
Definition int_of_digits (s : string) : Z := int_of_digits_from 0 s.

(** The longest run of digits at the head of [s], and what follows it. *)
Fixpoint span_digits (s : string) : string * string :=
  match s with
  | String c s' =>
      if is_digit c then let (d, r) := span_digits s' in (String c d, r)
      else (EmptyString, s)
  | EmptyString => (EmptyString, EmptyString)
  end.

(** [s[n:]] *)
Fixpoint drop (n : nat) (s : string) : string :=
  match n, s with
  | O, _ => s
  | S n', String _ s' => drop n' s'
  | S _, EmptyString => EmptyString
  end.

(** Prefix test under [re.IGNORECASE]. *)
Definition startswith_ci (p s : string) : bool := String.prefix (lower p) (lower s).

(** [s.rfind(c)] *)
Fixpoint rfind_from (c : ascii) (i : Z) (best : Z) (s : string) : Z :=
  match s with
  | EmptyString => best
  | String c' s' => rfind_from c (i + 1) (if Ascii.eqb c' c then i else best) s'
  end.

Definition rfind (c : ascii) (s : string) : Z := rfind_from c 0 (-1) s.

End PyStr.

(** ** Loosely-typed scalar values *)

Inductive value : Type :=
| VNone
| VBool (b : bool)
| VInt (n : Z)
| VFloat (f : spec_float)
| VStr (s : string).

Module PyVal.

(** [bool(v)], the test of [if v:], [v and w], [v or w], [filter(None, ...)]. *)
Definition truthy (v : value) : bool :=
  match v with
  | VNone => false
  | VBool b => b
  | VInt n => negb (n =? 0)
  | VFloat (S754_zero _) => false
  | VFloat _ => true
  | VStr s => negb (String.eqb s "")
  end.

(** [v is not None] *)
Definition is_not_none (v : value) : bool :=
  match v with
  | VNone => false
  | _ => true
  end.

(** [isinstance(v, (int, float))]; [bool] is a subclass of [int]. *)
Definition is_number (v : value) : bool :=
  match v with
  | VBool _ | VInt _ | VFloat _ => true
  | _ => false
  end.

Definition cond_opp (neg : bool) (z : Z) : Z := if neg then - z else z.

(** The integer part of a finite float, rounding towards zero. *)
Definition float_trunc (neg : bool) (m : positive) (e : Z) : Z :=
  cond_opp neg (Z.shiftl (Zpos m) e).

(** [int(v)] for a number. *)
Definition int_of_number (v : value) : pyresult Z :=
  match v with
  | VBool b => Ok (if b then 1 else 0)
  | VInt n => Ok n
  | VFloat (S754_zero _) => Ok 0
  | VFloat (S754_finite neg m e) => Ok (float_trunc neg m e)
  | VFloat (S754_infinity _) => Raise OverflowError
  | VFloat S754_nan => Raise ValueError
  | _ => Raise TypeError
  end.

(** [v > 0] for a number. *)
Definition gt_zero (v : value) : bool :=
  match v with
  | VBool b => b
  | VInt n => 0 <? n
  | VFloat (S754_finite false _ _) => true
  | VFloat (S754_infinity false) => true
  | _ => false
  end.

(** Exact comparison of the float [(-1)^neg * m * 2^e] with an integer. *)
Definition float_eq_int (neg : bool) (m : positive) (e : Z) (n : Z) : bool :=
  if 0 <=? e then cond_opp neg (Zpos m * 2 ^ e) =? n
  else cond_opp neg (Zpos m) =? n * 2 ^ (- e).

Definition num_eq_int (v : value) (n : Z) : bool :=
  match v with
  | VBool b => (if b then 1 else 0) =? n
  | VInt k => k =? n
  | VFloat (S754_zero _) => n =? 0
  | VFloat (S754_finite neg m e) => float_eq_int neg m e n
  | _ => false
  end.

(** [f == g] on floats: NaN differs from everything, both zeros are equal,
    finite values are compared exactly. *)
Definition float_eq (f g : spec_float) : bool :=
  match f, g with
  | S754_zero _, S754_zero _ => true
  | S754_infinity s, S754_infinity t => Bool.eqb s t
  | S754_finite s m e, S754_finite t n k =>
      let low := Z.min e k in
      Bool.eqb s t && (Zpos m * 2 ^ (e - low) =? Zpos n * 2 ^ (k - low))
  | _, _ => false
  end.

(** [v == w] *)
Definition eq (v w : value) : bool :=
  match v, w with
  | VNone, VNone => true
  | VStr s, VStr t => String.eqb s t
  | VFloat f, VFloat g => float_eq f g
  | VBool b, _ => num_eq_int w (if b then 1 else 0)
  | VInt n, _ => num_eq_int w n
  | _, VBool b => num_eq_int v (if b then 1 else 0)
  | _, VInt n => num_eq_int v n
  | _, _ => false
  end.

End PyVal.

(** ** The metadata mapping *)

(** [Dict[str, Any]] as the backend's JSON object, in insertion order. *)
Definition exif_dict : Type := list (string * value).

(** [exif[tag]] when [tag in exif]. *)
Fixpoint dict_get (exif : exif_dict) (tag : string) : option value :=
  match exif with
  | [] => None
  | (key, v) :: rest => if String.eqb key tag then Some v else dict_get rest tag
  end.

Definition keys (exif : exif_dict) : list string := map fst exif.

(** ** Messages *)

(** Entries of [FileAnalysis.exif_integrity_notes] and the editing warning. *)
Inductive note : Type :=
| NoteTypeMismatch (ext : string) (real_type mime : value)
| NoteShutterCountAbsent
| NoteEditorDetected (editor : string)
| NoteResized
| NoteXmpCreatorTool (tool : value).

(** Entries of [FileAnalysis.errors]. *)
Inductive error_entry : Type :=
| ErrUnsupportedType (suffix : string)
| ErrExifRead (e : exn)
| ErrTypeMismatch (ext : string) (real_type : value).

(** Entries of [ComparisonResult.reasons]. *)
Inductive reason : Type :=
| SameModel (make model : value)
| DifferentModels (model1 model2 : value)
| SameSerial (serial : value)
| DifferentSerials (serial1 serial2 : value)
| SerialNotFound
| SameFirmware (firmware : value)
| DifferentFirmware (firmware1 firmware2 : value)
| TimeOrderOk (seconds : Z)
| TimeOrderReversed (seconds : Z)
| DateUnparseable
| FileNumberIncreases (n1 n2 : Z)
| FileNumberEqual (n : Z)
| FileNumberDecreases (n1 n2 : Z)
| EditedFiles
| NoSerialCaveat.

(** ** The inspector *)

Definition KNOWN_EDITORS : list string :=
  [ "lightroom"; "photoshop"; "adobe"; "camera raw";
    "capture one"; "dxo"; "luminar"; "affinity";
    "gimp"; "darktable"; "rawtherapee";
    "snapseed"; "vsco"; "instagram"; "telegram";
    "whatsapp"; "facebook"; "vkontakte"; "vk";
    "messenger"; "viber"; "signal" ].

Definition SHUTTER_COUNT_TAGS : list string :=
  [ "ShutterCount"; "ImageCount"; "ShutterCounter";
    "Canon:ShutterCount"; "Canon:ImageCount";
    "MakerNotes:ShutterCount"; "MakerNotes:ImageCount";
    "ShutterCount"; "Nikon:ShutterCount";
    "ImageCount"; "ReleaseMode2"; "Sony:ImageCount";
    "ShutterCount"; "Pentax:ShutterCount";
    "ActuationCount"; "ImageNumber" ].

Definition SUPPORTED_EXTENSIONS : list string :=
  [ ".jpg"; ".jpeg"; ".cr2"; ".cr3"; ".nef"; ".arw"; ".orf"; ".rw2"; ".dng" ].

Definition mem_str (s : string) (l : list string) : bool :=
  existsb (String.eqb s) l.

(** *** [_get_tag_value] *)

(** The test of the inner loop: [key.endswith(':' + tag) or key == tag]. *)
Definition group_match (tag key : string) : bool :=
  PyStr.endswith (":" ++ tag) key || String.eqb key tag.

(** The inner loop over [exif.items()]: the value of the first key that passes. *)
Fixpoint scan_groups (tag : string) (items : exif_dict) : option value :=
  match items with
  | [] => None
  | (key, v) :: rest => if group_match tag key then Some v else scan_groups tag rest
  end.

(** One round of the outer loop, for one candidate name. *)
Definition lookup_tag (exif : exif_dict) (tag : string) : option value :=
  match dict_get exif tag with
  | Some v => Some v
  | None => scan_groups tag exif
  end.

Fixpoint _get_tag_value (exif : exif_dict) (tag_names : list string) : value :=
  match tag_names with
  | [] => VNone
  | tag :: rest =>
      match lookup_tag exif tag with
      | Some v => v
      | None => _get_tag_value exif rest
      end
  end.

(** *** [_extract_file_number] *)

(** [(?:IMG|DSC|_MG|_DSC)] *)
Definition NAME_PREFIXES : list string := [ "IMG"; "DSC"; "_MG"; "_DSC" ].

(** [(?:jpg|jpeg|cr2|cr3|nef|arw)] *)
Definition NUMBER_EXTENSIONS : list string := [ "jpg"; "jpeg"; "cr2"; "cr3"; "nef"; "arw" ].

(** [(\d+)] at the head of [s]: the digits captured, if there is one at least. *)
Definition digits_plus (s : string) : option string :=
  match PyStr.span_digits s with
  | (EmptyString, _) => None
  | (d, _) => Some d
  end.

(** [_?(\d+)] at the head of [s]: the underscore is taken when it is there,
    and given back when no digit follows it. *)
Definition underscore_digits (s : string) : option string :=
  match s with
  | String "_" s' =>
      match digits_plus s' with
      | Some d => Some d
      | None => digits_plus s
      end
  | _ => digits_plus s
  end.

(** The first pattern anchored at the head of [s], alternatives in order. *)
Fixpoint match_prefixed (alts : list string) (s : string) : option string :=
  match alts with
  | [] => None
  | alt :: rest =>
      if PyStr.startswith_ci alt s then
        match underscore_digits (PyStr.drop (String.length alt) s) with
        | Some d => Some d
        | None => match_prefixed rest s
        end
      else match_prefixed rest s
  end.

(** The second pattern anchored at the head of [s]: [(\d{4,})], a dot, and one
    of the extensions.  The digit run is taken whole: with fewer digits the
    next character is a digit and not the dot. *)
Definition match_bare (s : string) : option string :=
  let (d, r) := PyStr.span_digits s in
  if (4 <=? String.length d)%nat then
    match r with
    | String "." r' =>
        if existsb (fun e => PyStr.startswith_ci e r') NUMBER_EXTENSIONS then Some d else None
    | _ => None
    end
  else None.

(** [re.search]: the match at the leftmost position that has one. *)
Fixpoint re_search (at_head : string -> option string) (s : string) : option string :=
  match at_head s with
  | Some d => Some d
  | None =>
      match s with
      | EmptyString => None
      | String _ s' => re_search at_head s'
      end
  end.

Definition file_number_patterns : list (string -> option string) :=
  [ match_prefixed NAME_PREFIXES; match_bare ].

Fixpoint first_pattern (patterns : list (string -> option string)) (filename : string)
  : option Z :=
  match patterns with
  | [] => None
  | pattern :: rest =>
      match re_search pattern filename with
      | Some d => Some (PyStr.int_of_digits d)
      | None => first_pattern rest filename
      end
  end.

Definition _extract_file_number (filename : string) : option Z :=
  first_pattern file_number_patterns filename.

(** *** [_check_editing_software] *)

(** [' '.join(items)]: every item has to be a [str]. *)
Fixpoint join_space (items : list value) : pyresult string :=
  match items with
  | [] => Ok ""
  | [VStr s] => Ok s
  | VStr s :: rest => let* t := join_space rest in Ok (s ++ " " ++ t)
  | _ :: _ => Raise TypeError
  end.

(** The loop over [KNOWN_EDITORS]: the first editor found in the text. *)
Fixpoint first_editor (editors : list string) (all_software : string) : option string :=
  match editors with
  | [] => None
  | editor :: rest =>
      if PyStr.contains editor all_software then Some editor
      else first_editor rest all_software
  end.

Definition _check_editing_software (software processing : value)
  : pyresult (bool * option note) :=
  let* joined := join_space (filter PyVal.truthy [software; processing]) in
  let all_software := PyStr.lower joined in
  match first_editor KNOWN_EDITORS all_software with
  | Some editor => Ok (true, Some (NoteEditorDetected editor))
  | None => Ok (false, None)
  end.

(** *** [_find_shutter_count] *)

(** The key test of the inner loop. *)
Definition shutter_key_match (tag_pattern key : string) : bool :=
  let key_lower := PyStr.lower key in
  let tag_lower := PyStr.lower tag_pattern in
  PyStr.contains tag_lower key_lower
  || PyStr.endswith (":" ++ PyStr.split_last ":" tag_lower) key_lower.

(** The value test of the inner loop: [Some] is a [return] (or an exception
    of [int]), [None] lets the loop go on. *)
Definition accept_count (v : value) : option (pyresult Z) :=
  if PyVal.is_number v && PyVal.gt_zero v then Some (PyVal.int_of_number v)
  else
    match v with
    | VStr s => if PyStr.isdigit s then Some (Ok (PyStr.int_of_digits s)) else None
    | _ => None
    end.

Fixpoint scan_items (tag_pattern : string) (items : exif_dict)
  : option (pyresult (Z * string)) :=
  match items with
  | [] => None
  | (key, v) :: rest =>
      if shutter_key_match tag_pattern key then
        match accept_count v with
        | Some r => Some (let* n := r in Ok (n, key))
        | None => scan_items tag_pattern rest
        end
      else scan_items tag_pattern rest
  end.

Fixpoint scan_tags (tags : list string) (exif : exif_dict)
  : pyresult (option Z * string) :=
  match tags with
  | [] => Ok (None, "none")
  | tag_pattern :: rest =>
      match scan_items tag_pattern exif with
      | Some r => let* (n, key) := r in Ok (Some n, key)
      | None => scan_tags rest exif
      end
  end.

Definition _find_shutter_count (exif : exif_dict) : pyresult (option Z * string) :=
  scan_tags SHUTTER_COUNT_TAGS exif.

(** *** [_run_exiftool] *)

(** What [result.stdout] holds.  The documents modelled are the ones the
    backend's contract names: a JSON array of flat objects with scalar values. *)
Inductive stdout_payload : Type :=
| StdoutEmpty
| StdoutNotJson
| StdoutJson (data : list exif_dict).

(** What [subprocess.run] does. *)
Inductive process_outcome : Type :=
| TimeoutExpired
| LaunchError
| Completed (returncode : Z) (stdout : stdout_payload) (stderr : string).

Definition _run_exiftool (run : process_outcome) : pyresult exif_dict :=
  match run with
  | Completed returncode stdout stderr =>
      match stdout with
      | StdoutEmpty =>
          if negb (returncode =? 0) then Raise (RuntimeError ("ExifTool error: " ++ stderr))
          else Raise (RuntimeError "Failed to parse ExifTool JSON")
      | StdoutNotJson => Raise (RuntimeError "Failed to parse ExifTool JSON")
      | StdoutJson data =>
          match data with
          | first :: _ => Ok first
          | [] => Ok []
          end
      end
  | TimeoutExpired => Raise (RuntimeError "ExifTool timeout")
  | LaunchError => Raise OSError
  end.

(** ** [FileAnalysis] *)

(** The text [str(v)]. *)
Inductive text : Type :=
| py_str (v : value).

Record FileAnalysis : Type := mkFileAnalysis {
  file_name : string;
  file_path : string;
  file_type : string;
  file_size_bytes : Z;
  real_file_type : value;
  mime_type : value;
  file_type_mismatch : bool;
  camera_make : value;
  camera_model : value;
  lens_model : value;
  serial_number : value;
  internal_serial : value;
  firmware : value;
  datetime_original : value;
  datetime_digitized : value;
  file_modify_date : value;
  shutter_count : option Z;
  shutter_count_source : string;
  shutter_count_present : bool;
  file_number_hint : option Z;
  directory_number : value;
  image_unique_id : value;
  software : value;
  processing_software : value;
  not_out_of_camera : bool;
  editing_detected_warning : option note;
  iso : value;
  aperture : option text;
  shutter_speed : option text;
  focal_length : option text;
  image_width : value;
  image_height : value;
  exif_integrity_notes : list note;
  errors : list error_entry;
  raw_exif : option exif_dict
}.

(** The dataclass with its defaults (and [errors] as given). *)
Definition new_analysis (name path type : string) (size : Z) (errs : list error_entry)
  : FileAnalysis :=
  {| file_name := name; file_path := path; file_type := type; file_size_bytes := size;
     real_file_type := VNone; mime_type := VNone; file_type_mismatch := false;
     camera_make := VNone; camera_model := VNone; lens_model := VNone;
     serial_number := VNone; internal_serial := VNone; firmware := VNone;
     datetime_original := VNone; datetime_digitized := VNone; file_modify_date := VNone;
     shutter_count := None; shutter_count_source := "none"; shutter_count_present := false;
     file_number_hint := None; directory_number := VNone; image_unique_id := VNone;
     software := VNone; processing_software := VNone;
     not_out_of_camera := false; editing_detected_warning := None;
     iso := VNone; aperture := None; shutter_speed := None; focal_length := None;
     image_width := VNone; image_height := VNone;
     exif_integrity_notes := []; errors := errs; raw_exif := None |}.

(** ** [analyze_file] *)

(** What [Path(file_path)] answers: [path.name], [str(path.absolute())] and
    [path.stat().st_size] ([None] when [path.exists()] is false). *)
Record path_facts : Type := {
  name : string;
  absolute : string;
  st_size : option Z
}.

(** [path.suffix]: from the last dot of the name, unless that dot is the
    first or the last character. *)
Definition suffix (filename : string) : string :=
  let i := PyStr.rfind "." filename in
  if (0 <? i) && (i <? Z.of_nat (String.length filename) - 1)
  then PyStr.drop (Z.to_nat i) filename
  else "".

Definition expected_types : list (string * list string) :=
  [ ("cr2", ["CR2"]);
    ("cr3", ["CR3"]);
    ("jpg", ["JPEG"; "JPG"]);
    ("jpeg", ["JPEG"; "JPG"]);
    ("nef", ["NEF"]);
    ("arw", ["ARW"]);
    ("orf", ["ORF"]);
    ("rw2", ["RW2"]);
    ("dng", ["DNG"]) ].

Fixpoint table_get {A : Type} (table : list (string * A)) (key : string) : option A :=
  match table with
  | [] => None
  | (k, a) :: rest => if String.eqb k key then Some a else table_get rest key
  end.

(** [v.upper()]: a method of [str] only. *)
Definition py_upper (v : value) : pyresult string :=
  match v with
  | VStr s => Ok (PyStr.upper s)
  | _ => Raise AttributeError
  end.

(** [v or w] *)
Definition py_or (v w : value) : value := if PyVal.truthy v then v else w.

(** The extension against the detected type: the mismatch flag, and what is
    appended to [errors] and to [exif_integrity_notes]. *)
Definition check_file_type (file_type : string) (real_type mime : value)
  : pyresult (bool * list error_entry * list note) :=
  let ext := PyStr.lower file_type in
  match table_get expected_types ext with
  | Some expected =>
      if PyVal.truthy real_type then
        let* shown := py_upper real_type in
        if negb (mem_str shown expected)
        then Ok (true, [ErrTypeMismatch ext real_type], [NoteTypeMismatch ext real_type mime])
        else Ok (false, [], [])
      else Ok (false, [], [])
  | None => Ok (false, [], [])
  end.

Definition FILE_NUMBER_TAGS : list string := [ "FileNumber"; "Canon:FileNumber"; "FileIndex" ].

(** The file-number hint: the filename's number, replaced by the metadata
    counter under the guard of the source. *)
Definition derive_file_number (filename : string) (exif : exif_dict) : pyresult (option Z) :=
  let from_name := _extract_file_number filename in
  let exif_file_num := _get_tag_value exif FILE_NUMBER_TAGS in
  if PyVal.truthy exif_file_num && PyVal.is_number exif_file_num
  then let* n := PyVal.int_of_number exif_file_num in Ok (Some n)
  else Ok from_name.

(** The resize check. *)
Definition check_resize (exif : exif_dict) (width height : value) : list note :=
  let orig_width := _get_tag_value exif ["OriginalImageWidth"] in
  let orig_height := _get_tag_value exif ["OriginalImageHeight"] in
  if PyVal.truthy orig_width && PyVal.truthy orig_height then
    if PyVal.truthy width
       && (negb (PyVal.eq orig_width width) || negb (PyVal.eq orig_height height))
    then [NoteResized]
    else []
  else [].

(** The body of [analyze_file] once the backend has answered. *)
Definition analyze_exif (path : path_facts) (ftype : string) (size : Z)
  (exif : exif_dict) (include_raw_exif : bool) : pyresult FileAnalysis :=
  let real_type := _get_tag_value exif ["FileType"; "File:FileType"] in
  let mime := _get_tag_value exif ["MIMEType"; "File:MIMEType"] in
  let* (mismatch, type_errors, type_notes) := check_file_type ftype real_type mime in
  let* (shutter, source) := _find_shutter_count exif in
  let present := match shutter with Some _ => true | None => false end in
  let shutter_notes := if negb present then [NoteShutterCountAbsent] else [] in
  let* hint := derive_file_number (name path) exif in
  let soft := _get_tag_value exif ["Software"; "EXIF:Software"] in
  let processing := _get_tag_value exif ["ProcessingSoftware"; "EXIF:ProcessingSoftware"] in
  let* (edited, warning) := _check_editing_software soft processing in
  let editing_notes :=
    match edited, warning with
    | true, Some w => [w]
    | _, _ => []
    end in
  let width := _get_tag_value exif ["ImageWidth"; "ExifImageWidth"] in
  let height := _get_tag_value exif ["ImageHeight"; "ExifImageHeight"] in
  let resize_notes := check_resize exif width height in
  let xmp_creator := _get_tag_value exif ["XMP:CreatorTool"; "CreatorTool"] in
  let xmp_notes := if PyVal.truthy xmp_creator then [NoteXmpCreatorTool xmp_creator] else [] in
  Ok {| file_name := name path;
        file_path := absolute path;
        file_type := ftype;
        file_size_bytes := size;
        real_file_type := real_type;
        mime_type := mime;
        file_type_mismatch := mismatch;
        camera_make := _get_tag_value exif ["Make"; "EXIF:Make"];
        camera_model := _get_tag_value exif ["Model"; "EXIF:Model"; "Camera Model Name"];
        lens_model := _get_tag_value exif ["LensModel"; "Lens"; "LensType"; "EXIF:LensModel"];
        serial_number :=
          _get_tag_value exif ["SerialNumber"; "CameraSerialNumber"; "InternalSerialNumber";
                               "Canon:SerialNumber"; "EXIF:SerialNumber"];
        internal_serial :=
          _get_tag_value exif ["InternalSerialNumber"; "Canon:InternalSerialNumber"];
        firmware := _get_tag_value exif ["Firmware"; "FirmwareVersion"; "Software"];
        datetime_original :=
          _get_tag_value exif ["DateTimeOriginal"; "EXIF:DateTimeOriginal"; "CreateDate"];
        datetime_digitized :=
          _get_tag_value exif ["DateTimeDigitized"; "EXIF:DateTimeDigitized"];
        file_modify_date := _get_tag_value exif ["FileModifyDate"; "File:FileModifyDate"];
        shutter_count := shutter;
        shutter_count_source := source;
        shutter_count_present := present;
        file_number_hint := hint;
        directory_number := _get_tag_value exif ["DirectoryIndex"; "Canon:DirectoryIndex"];
        image_unique_id := _get_tag_value exif ["ImageUniqueID"; "EXIF:ImageUniqueID"];
        software := soft;
        processing_software := processing;
        not_out_of_camera := edited;
        editing_detected_warning := warning;
        iso := _get_tag_value exif ["ISO"; "EXIF:ISO"];
        aperture :=
          Some (py_str (py_or (_get_tag_value exif ["FNumber"; "Aperture"; "ApertureValue"])
                              (VStr "")));
        shutter_speed :=
          Some (py_str (py_or (_get_tag_value exif ["ExposureTime"; "ShutterSpeed";
                                                    "ShutterSpeedValue"])
                              (VStr "")));
        focal_length :=
          Some (py_str (py_or (_get_tag_value exif ["FocalLength"; "EXIF:FocalLength"])
                              (VStr "")));
        image_width := width;
        image_height := height;
        exif_integrity_notes :=
          type_notes ++ shutter_notes ++ editing_notes ++ resize_notes ++ xmp_notes;
        errors := type_errors;
        raw_exif := if include_raw_exif then Some exif else None |}.

Definition analyze_file (path : path_facts) (run : process_outcome) (include_raw_exif : bool)
  : pyresult FileAnalysis :=
  let sfx := suffix (name path) in
  let ftype := PyStr.lstrip "." (PyStr.lower sfx) in
  let size := match st_size path with Some n => n | None => 0 end in
  if negb (mem_str (PyStr.lower sfx) SUPPORTED_EXTENSIONS)
  then Ok (new_analysis (name path) (absolute path) ftype size [ErrUnsupportedType sfx])
  else
    match _run_exiftool run with
    | Raise e => Ok (new_analysis (name path) (absolute path) ftype size [ErrExifRead e])
    | Ok exif => analyze_exif path ftype size exif include_raw_exif
    end.

(** ** [datetime.strptime] with the format ["%Y:%m:%d %H:%M:%S"] *)

(** The standard library's [strptime] turns the format into a regular
    expression, one alternation of digit classes per directive, matches it at
    the head of the text with the usual backtracking, rejects text left over,
    and hands the six numbers to the [datetime] constructor, which checks
    their ranges.  Every failure is a [ValueError]. *)
Module Strptime.

Record datetime : Type := {
  year : Z; month : Z; day : Z; hour : Z; minute : Z; second : Z
}.

Definition char_class : Type := ascii -> bool.

Definition digit : char_class := PyStr.is_digit.

Definition between (lo hi : ascii) : char_class :=
  fun c => (nat_of_ascii lo <=? nat_of_ascii c)%nat && (nat_of_ascii c <=? nat_of_ascii hi)%nat.

Definition exactly (a : ascii) : char_class := fun c => Ascii.eqb c a.

(** A sequence of character classes at the head of [s]: the text matched
    and the rest. *)
Fixpoint match_classes (classes : list char_class) (s : string) : option (string * string) :=
  match classes with
  | [] => Some (EmptyString, s)
  | cls :: more =>
      match s with
      | String c s' =>
          if cls c then
            match match_classes more s' with
            | Some (m, r) => Some (String c m, r)
            | None => None
            end
          else None
      | EmptyString => None
      end
  end.

(** An alternation followed by the rest of the expression [k]: the
    alternatives are tried in order, the next one when [k] fails. *)
Fixpoint alternation {R : Type} (alts : list (list char_class)) (s : string)
  (k : string -> string -> option R) : option R :=
  match alts with
  | [] => None
  | alt :: rest =>
      match match_classes alt s with
      | Some (m, r) =>
          match k m r with
          | Some x => Some x
          | None => alternation rest s k
          end
      | None => alternation rest s k
      end
  end.

(** A literal character followed by [k]. *)
Definition literal {R : Type} (a : ascii) (s : string) (k : string -> option R) : option R :=
  match s with
  | String c s' => if Ascii.eqb c a then k s' else None
  | EmptyString => None
  end.

(** [\s+] followed by [k]: as many blanks as possible, fewer when [k] fails. *)
Fixpoint blanks {R : Type} (s : string) (k : string -> option R) : option R :=
  match s with
  | String c s' =>
      if PyStr.is_space c then
        match blanks s' k with
        | Some x => Some x
        | None => k s'
        end
      else None
  | EmptyString => None
  end.

(** [%Y]: [\d\d\d\d] *)
Definition re_Y : list (list char_class) := [ [digit; digit; digit; digit] ].

(** [%m]: [1[0-2]|0[1-9]|[1-9]] *)
Definition re_m : list (list char_class) :=
  [ [exactly "1"; between "0" "2"]; [exactly "0"; between "1" "9"]; [between "1" "9"] ].

(** [%d]: [3[0-1]|[1-2]\d|0[1-9]|[1-9]| [1-9]] *)
Definition re_d : list (list char_class) :=
  [ [exactly "3"; between "0" "1"]; [between "1" "2"; digit]; [exactly "0"; between "1" "9"];
    [between "1" "9"]; [exactly " "; between "1" "9"] ].

(** [%H]: [2[0-3]|[0-1]\d|\d] *)
Definition re_H : list (list char_class) :=
  [ [exactly "2"; between "0" "3"]; [between "0" "1"; digit]; [digit] ].

(** [%M]: [[0-5]\d|\d] *)
Definition re_M : list (list char_class) := [ [between "0" "5"; digit]; [digit] ].

(** [%S]: [6[0-1]|[0-5]\d|\d] *)
Definition re_S : list (list char_class) :=
  [ [exactly "6"; between "0" "1"]; [between "0" "5"; digit]; [digit] ].

(** [int] of a captured group; the day may carry a leading blank. *)
Definition group_int (g : string) : Z :=
  match g with
  | String " " g' => PyStr.int_of_digits g'
  | _ => PyStr.int_of_digits g
  end.

(** The match of the whole expression: the six groups and the text left over. *)
Definition match_format (s : string) : option (datetime * string) :=
  alternation re_Y s (fun Y s1 =>
  literal ":" s1 (fun s2 =>
  alternation re_m s2 (fun m s3 =>
  literal ":" s3 (fun s4 =>
  alternation re_d s4 (fun d s5 =>
  blanks s5 (fun s6 =>
  alternation re_H s6 (fun H s7 =>
  literal ":" s7 (fun s8 =>
  alternation re_M s8 (fun M s9 =>
  literal ":" s9 (fun s10 =>
  alternation re_S s10 (fun S rest =>
    Some ({| year := group_int Y; month := group_int m; day := group_int d;
             hour := group_int H; minute := group_int M; second := group_int S |},
          rest)))))))))))).

Definition is_leap (y : Z) : bool :=
  (y mod 4 =? 0) && (negb (y mod 100 =? 0) || (y mod 400 =? 0)).

Definition days_in_month (y m : Z) : Z :=
  if m =? 2 then (if is_leap y then 29 else 28)
  else if (m =? 4) || (m =? 6) || (m =? 9) || (m =? 11) then 30
  else 31.

(** The checks of the [datetime] constructor. *)
Definition valid (dt : datetime) : bool :=
  (1 <=? year dt) && (year dt <=? 9999)
  && (1 <=? month dt) && (month dt <=? 12)
  && (1 <=? day dt) && (day dt <=? days_in_month (year dt) (month dt))
  && (0 <=? hour dt) && (hour dt <=? 23)
  && (0 <=? minute dt) && (minute dt <=? 59)
  && (0 <=? second dt) && (second dt <=? 59).

Definition strptime (s : string) : pyresult datetime :=
  match match_format s with
  | Some (dt, EmptyString) => if valid dt then Ok dt else Raise ValueError
  | Some (_, String _ _) => Raise ValueError
  | None => Raise ValueError
  end.

Definition days_before_year (y : Z) : Z :=
  let p := y - 1 in p * 365 + p / 4 - p / 100 + p / 400.

Definition days_before_month (y m : Z) : Z :=
  nth (Z.to_nat m) [0; 0; 31; 59; 90; 120; 151; 181; 212; 243; 273; 304; 334] 0
  + (if (2 <? m) && is_leap y then 1 else 0).

(** The proleptic Gregorian ordinal of the date. *)
Definition ordinal (dt : datetime) : Z :=
  days_before_year (year dt) + days_before_month (year dt) (month dt) + day dt.

Definition seconds_of (dt : datetime) : Z :=
  ordinal dt * 86400 + hour dt * 3600 + minute dt * 60 + second dt.

(** [(dt2 - dt1).total_seconds()]: a float holding a whole number of
    seconds, given as that number. *)
Definition total_seconds_between (dt1 dt2 : datetime) : Z := seconds_of dt2 - seconds_of dt1.

End Strptime.

(** ** [compare_files] *)

Inductive VerificationResult : Type :=
| LIKELY_SAME_CAMERA
| INCONCLUSIVE
| SUSPICIOUS.

Record ComparisonResult : Type := {
  file1 : string;
  file2 : string;
  verdict : VerificationResult;
  reasons : list reason;
  same_camera_model : bool;
  same_serial_number : option bool;
  same_firmware : option bool;
  time_sequence_valid : option bool;
  file_number_sequence_valid : option bool;
  time_difference_seconds : option Z
}.

Definition is_suspicious (v : VerificationResult) : bool :=
  match v with
  | SUSPICIOUS => true
  | _ => false
  end.

(** [v.split('.')[0].split('+')[0]]: [split] is a method of [str] only. *)
Definition strip_timestamp (v : value) : pyresult string :=
  match v with
  | VStr s => Ok (PyStr.split_head "+" (PyStr.split_head "." s))
  | _ => Raise AttributeError
  end.

Definition parse_timestamp (v : value) : pyresult Strptime.datetime :=
  let* s := strip_timestamp v in Strptime.strptime s.

(** The model check: [same_model], the verdict so far, the evidence. *)
Definition check_model (a1 a2 : FileAnalysis) : bool * VerificationResult * list reason :=
  let same_model :=
    PyVal.eq (camera_make a1) (camera_make a2)
    && PyVal.eq (camera_model a1) (camera_model a2)
    && PyVal.is_not_none (camera_make a1) in
  if same_model then (same_model, INCONCLUSIVE, [SameModel (camera_make a1) (camera_model a1)])
  else if PyVal.truthy (camera_model a1) && PyVal.truthy (camera_model a2)
  then (same_model, SUSPICIOUS, [DifferentModels (camera_model a1) (camera_model a2)])
  else (same_model, INCONCLUSIVE, []).

(** The serial check: [same_serial], the verdict after it, the evidence. *)
Definition check_serial (a1 a2 : FileAnalysis) (verdict0 : VerificationResult)
  : option bool * VerificationResult * list reason :=
  if PyVal.truthy (serial_number a1) && PyVal.truthy (serial_number a2) then
    if PyVal.eq (serial_number a1) (serial_number a2)
    then (Some true, verdict0, [SameSerial (serial_number a1)])
    else (Some false, SUSPICIOUS, [DifferentSerials (serial_number a1) (serial_number a2)])
  else (None, verdict0, [SerialNotFound]).

Definition check_firmware (a1 a2 : FileAnalysis) : option bool * list reason :=
  if PyVal.truthy (firmware a1) && PyVal.truthy (firmware a2) then
    if PyVal.eq (firmware a1) (firmware a2)
    then (Some true, [SameFirmware (firmware a1)])
    else (Some false, [DifferentFirmware (firmware a1) (firmware a2)])
  else (None, []).

(** The [try] block with its [except ValueError]: [time_diff],
    [time_seq_valid], the evidence. *)
Definition check_time (a1 a2 : FileAnalysis) : pyresult (option Z * option bool * list reason) :=
  if PyVal.truthy (datetime_original a1) && PyVal.truthy (datetime_original a2) then
    let attempt :=
      let* dt1 := parse_timestamp (datetime_original a1) in
      let* dt2 := parse_timestamp (datetime_original a2) in
      let time_diff := Strptime.total_seconds_between dt1 dt2 in
      if 0 <=? time_diff
      then Ok (Some time_diff, Some true, [TimeOrderOk (Z.abs time_diff)])
      else Ok (Some time_diff, Some false, [TimeOrderReversed (Z.abs time_diff)]) in
    match attempt with
    | Raise ValueError => Ok (None, None, [DateUnparseable])
    | other => other
    end
  else Ok (None, None, []).

(** [if n:] on an [Optional[int]] *)
Definition hint_truthy (h : option Z) : bool :=
  match h with
  | Some n => negb (n =? 0)
  | None => false
  end.

Definition check_file_number (a1 a2 : FileAnalysis) : option bool * list reason :=
  match file_number_hint a1, file_number_hint a2 with
  | Some n1, Some n2 =>
      if hint_truthy (Some n1) && hint_truthy (Some n2) then
        if n1 <? n2 then (Some true, [FileNumberIncreases n1 n2])
        else if n2 =? n1 then (None, [FileNumberEqual n1])
        else (Some false, [FileNumberDecreases n1 n2])
      else (None, [])
  | _, _ => (None, [])
  end.

Definition check_editing (a1 a2 : FileAnalysis) : list reason :=
  if not_out_of_camera a1 || not_out_of_camera a2 then [EditedFiles] else [].

Definition is_true (b : option bool) : bool :=
  match b with
  | Some true => true
  | _ => false
  end.

(** The final resolution: the verdict and the caveat it may add. *)
Definition resolve_verdict (verdict0 : VerificationResult) (same_model : bool)
  (same_serial time_seq_valid file_seq_valid : option bool)
  : VerificationResult * list reason :=
  if negb (is_suspicious verdict0) then
    if is_true same_serial && same_model then (LIKELY_SAME_CAMERA, [])
    else if same_model && is_true time_seq_valid && is_true file_seq_valid
    then (LIKELY_SAME_CAMERA, [NoSerialCaveat])
    else (INCONCLUSIVE, [])
  else (verdict0, []).

(** The body of [compare_files] after the two analyses. *)
Definition compare_analyses (analysis1 analysis2 : FileAnalysis) : pyresult ComparisonResult :=
  let '(same_model, verdict1, model_reasons) := check_model analysis1 analysis2 in
  let '(same_serial, verdict2, serial_reasons) := check_serial analysis1 analysis2 verdict1 in
  let '(same_fw, firmware_reasons) := check_firmware analysis1 analysis2 in
  let* (time_diff, time_seq_valid, time_reasons) := check_time analysis1 analysis2 in
  let '(file_seq_valid, number_reasons) := check_file_number analysis1 analysis2 in
  let editing_reasons := check_editing analysis1 analysis2 in
  let '(final, caveat) :=
    resolve_verdict verdict2 same_model same_serial time_seq_valid file_seq_valid in
  Ok {| file1 := file_name analysis1;
        file2 := file_name analysis2;
        verdict := final;
        reasons := model_reasons ++ serial_reasons ++ firmware_reasons ++ time_reasons
                   ++ number_reasons ++ editing_reasons ++ caveat;
        same_camera_model := same_model;
        same_serial_number := same_serial;
        same_firmware := same_fw;
        time_sequence_valid := time_seq_valid;
        file_number_sequence_valid := file_seq_valid;
        time_difference_seconds := time_diff |}.

Definition compare_files (path1 : path_facts) (run1 : process_outcome)
  (path2 : path_facts) (run2 : process_outcome) : pyresult ComparisonResult :=
  let* analysis1 := analyze_file path1 run1 false in
  let* analysis2 := analyze_file path2 run2 false in
  compare_analyses analysis1 analysis2.

(** ** [analyze_directory] *)

(** An entry of the directory as [iterdir] yields it: its path, whether it
    is a regular file, and what the backend answers when asked about it. *)
Record dir_entry : Type := {
  entry_path : path_facts;
  entry_is_file : bool;
  entry_run : process_outcome
}.

(** [file_path.is_file() and file_path.suffix.lower() in SUPPORTED_EXTENSIONS] *)
Definition selected (e : dir_entry) : bool :=
  entry_is_file e
  && mem_str (PyStr.lower (suffix (name (entry_path e)))) SUPPORTED_EXTENSIONS.

(** The loop that fills [results]. *)
Fixpoint analyze_entries (entries : list dir_entry) (include_raw_exif : bool)
  : pyresult (list FileAnalysis) :=
  match entries with
  | [] => Ok []
  | e :: rest =>
      if selected e then
        let* a := analyze_file (entry_path e) (entry_run e) include_raw_exif in
        let* results := analyze_entries rest include_raw_exif in
        Ok (a :: results)
      else analyze_entries rest include_raw_exif
  end.

(** [lambda x: x.datetime_original or ''] *)
Definition sort_key (a : FileAnalysis) : value := py_or (datetime_original a) (VStr "").

(** A number as [m * 2^e], an infinity, or NaN. *)
Inductive extended : Type :=
| Finite (m e : Z)
| Infinite (neg : bool)
| NotANumber.

Definition number_of (v : value) : option extended :=
  match v with
  | VBool b => Some (Finite (if b then 1 else 0) 0)
  | VInt n => Some (Finite n 0)
  | VFloat (S754_zero _) => Some (Finite 0 0)
  | VFloat (S754_finite neg m e) => Some (Finite (PyVal.cond_opp neg (Zpos m)) e)
  | VFloat (S754_infinity neg) => Some (Infinite neg)
  | VFloat S754_nan => Some NotANumber
  | _ => None
  end.

Definition extended_lt (x y : extended) : bool :=
  match x, y with
  | Finite m e, Finite n k =>
      let low := Z.min e k in
      m * 2 ^ (e - low) <? n * 2 ^ (k - low)
  | Finite _ _, Infinite neg => negb neg
  | Infinite neg, Finite _ _ => neg
  | Infinite neg, Infinite neg' => neg && negb neg'
  | _, _ => false
  end.

(** [v < w]: text against text by code points, number against number by
    value; [TypeError] for anything else. *)
Definition py_lt (v w : value) : pyresult bool :=
  match v, w with
  | VStr s, VStr t => Ok (String.ltb s t)
  | _, _ =>
      match number_of v, number_of w with
      | Some x, Some y => Ok (extended_lt x y)
      | _, _ => Raise TypeError
      end
  end.

(** [sorted(results, key=...)]: the library's sort is stable and compares
    keys with [<] only; here as an insertion sort that places each record
    before the first one whose key is not smaller. *)
Fixpoint insert_by_key (x : FileAnalysis) (sorted : list FileAnalysis)
  : pyresult (list FileAnalysis) :=
  match sorted with
  | [] => Ok [x]
  | y :: rest =>
      let* smaller := py_lt (sort_key y) (sort_key x) in
      if smaller
      then let* placed := insert_by_key x rest in Ok (y :: placed)
      else Ok (x :: y :: rest)
  end.

Fixpoint sorted_by_key (results : list FileAnalysis) : pyresult (list FileAnalysis) :=
  match results with
  | [] => Ok []
  | x :: rest => let* sorted := sorted_by_key rest in insert_by_key x sorted
  end.

Definition analyze_directory (entries : list dir_entry) (include_raw_exif : bool)
  : pyresult (list FileAnalysis) :=
  let* results := analyze_entries entries include_raw_exif in
  sorted_by_key results.

(** * Vocabulary of the properties *)

(** A candidate matches a key: the key is the candidate, or its
    namespace-qualified form ends with [":" ++ tag], compared as written. *)
Definition key_matches (tag key : string) : Prop :=
  key = tag \/ PyStr.endswith (":" ++ tag) key = true.

Definition candidate_matches (exif : exif_dict) (tag : string) : Prop :=
  exists key, In key (keys exif) /\ key_matches tag key.

(** The value a matching candidate stands for: the one under the exact key,
    else the one under the first key, in mapping order, with the suffix. *)
Definition candidate_value (exif : exif_dict) (tag : string) (v : value) : Prop :=
  dict_get exif tag = Some v
  \/ (dict_get exif tag = None
      /\ exists pre key post,
           exif = (pre ++ (key, v) :: post)%list
           /\ PyStr.endswith (":" ++ tag) key = true
           /\ forall k, In k (keys pre) -> PyStr.endswith (":" ++ tag) k = false).

(** The resolver as the specification words it: the namespace test is made
    on the lower-cased key and candidate. *)
Module ResolverSpec.

Definition group_match (tag key : string) : bool :=
  PyStr.endswith (PyStr.lower (":" ++ tag)) (PyStr.lower key) || String.eqb key tag.

Fixpoint scan_groups (tag : string) (items : exif_dict) : option value :=
  match items with
  | [] => None
  | (key, v) :: rest => if group_match tag key then Some v else scan_groups tag rest
  end.

Fixpoint resolve (exif : exif_dict) (candidates : list string) : value :=
  match candidates with
  | [] => VNone
  | tag :: rest =>
      match dict_get exif tag with
      | Some v => v
      | None =>
          match scan_groups tag exif with
          | Some v => v
          | None => resolve exif rest
          end
      end
  end.

End ResolverSpec.

(** The text of a field; a field that is absent, or holds no text, has none. *)
Definition field_text (v : value) : string :=
  match v with
  | VStr s => s
  | _ => ""
  end.

(** The text in which editor names are looked for: each field in lower
    case, the two separated by one space when neither is empty, a field
    without text left out. *)
Definition searched_text (soft processing : value) : string :=
  match field_text soft, field_text processing with
  | "", t => PyStr.lower t
  | s, "" => PyStr.lower s
  | s, t => PyStr.lower s ++ " " ++ PyStr.lower t
  end.

(** Some known editor occurs in the searched text. *)
Definition editor_found (soft processing : value) : Prop :=
  exists editor,
    In editor KNOWN_EDITORS
    /\ PyStr.contains editor (searched_text soft processing) = true.

(** The specification's words: the lower-cased concatenation of the two
    fields, and a known editor name that occurs in it. *)
Definition spec_concatenation (soft processing : value) : string :=
  PyStr.lower (field_text soft ++ field_text processing).

Definition spec_editor_found (soft processing : value) : Prop :=
  exists editor,
    In editor KNOWN_EDITORS
    /\ PyStr.contains editor (spec_concatenation soft processing) = true.

(** A timestamp field typed as [FileAnalysis] declares it: [Optional[str]]. *)
Definition text_or_absent (v : value) : Prop :=
  match v with
  | VNone | VStr _ => True
  | _ => False
  end.

(** The record with its serial number removed. *)
Definition without_serial (a : FileAnalysis) : FileAnalysis :=
  {| file_name := file_name a; file_path := file_path a; file_type := file_type a;
     file_size_bytes := file_size_bytes a; real_file_type := real_file_type a;
     mime_type := mime_type a; file_type_mismatch := file_type_mismatch a;
     camera_make := camera_make a; camera_model := camera_model a;
     lens_model := lens_model a;
     serial_number := VNone;
     internal_serial := internal_serial a; firmware := firmware a;
     datetime_original := datetime_original a; datetime_digitized := datetime_digitized a;
     file_modify_date := file_modify_date a; shutter_count := shutter_count a;
     shutter_count_source := shutter_count_source a;
     shutter_count_present := shutter_count_present a;
     file_number_hint := file_number_hint a; directory_number := directory_number a;
     image_unique_id := image_unique_id a; software := software a;
     processing_software := processing_software a;
     not_out_of_camera := not_out_of_camera a;
     editing_detected_warning := editing_detected_warning a;
     iso := iso a; aperture := aperture a; shutter_speed := shutter_speed a;
     focal_length := focal_length a; image_width := image_width a;
     image_height := image_height a; exif_integrity_notes := exif_integrity_notes a;
     errors := errors a; raw_exif := raw_exif a |}.

(** [rest] does not begin with a digit. *)
Definition no_leading_digit (rest : string) : Prop :=
  match rest with
  | String c _ => PyStr.is_digit c = false
  | EmptyString => True
  end.

(** A value that [' '.join] accepts after [filter(None, ...)]: a string, or
    a value Python takes as false. *)
Definition text_or_falsy (v : value) : bool :=
  match v with
  | VStr _ => true
  | _ => negb (PyVal.truthy v)
  end.

(** Two values that differ in letter case at most. *)
Definition same_up_to_case (v w : value) : Prop :=
  match v, w with
  | VStr s, VStr t => PyStr.lower s = PyStr.lower t
  | _, _ => v = w
  end.

(** The record without the raw metadata. *)
Definition without_raw_exif (a : FileAnalysis) : FileAnalysis :=
  {| file_name := file_name a; file_path := file_path a; file_type := file_type a;
     file_size_bytes := file_size_bytes a; real_file_type := real_file_type a;
     mime_type := mime_type a; file_type_mismatch := file_type_mismatch a;
     camera_make := camera_make a; camera_model := camera_model a;
     lens_model := lens_model a; serial_number := serial_number a;
     internal_serial := internal_serial a; firmware := firmware a;
     datetime_original := datetime_original a; datetime_digitized := datetime_digitized a;
     file_modify_date := file_modify_date a; shutter_count := shutter_count a;
     shutter_count_source := shutter_count_source a;
     shutter_count_present := shutter_count_present a;
     file_number_hint := file_number_hint a; directory_number := directory_number a;
     image_unique_id := image_unique_id a; software := software a;
     processing_software := processing_software a;
     not_out_of_camera := not_out_of_camera a;
     editing_detected_warning := editing_detected_warning a;
     iso := iso a; aperture := aperture a; shutter_speed := shutter_speed a;
     focal_length := focal_length a; image_width := image_width a;
     image_height := image_height a; exif_integrity_notes := exif_integrity_notes a;
     errors := errors a;
     raw_exif := None |}.

(** The longest text of digits that [int] converts, as the interpreter has
    it by default; a value that is absent or a text within it. *)
Definition INT_MAX_STR_DIGITS : nat := 4300.


(** Two records that agree on the fields the verdict is drawn from. *)
Definition same_compared_fields (a b : FileAnalysis) : Prop :=
  camera_make a = camera_make b
  /\ camera_model a = camera_model b
  /\ serial_number a = serial_number b
  /\ datetime_original a = datetime_original b
  /\ file_number_hint a = file_number_hint b.

(** The text a record is sorted by: its original timestamp, empty when the
    record has none. *)
Definition timestamp_text (a : FileAnalysis) : string := field_text (datetime_original a).

(** [a] does not come after [b] in the order of the timestamps. *)
Definition not_after (a b : FileAnalysis) : Prop :=
  String.leb (timestamp_text a) (timestamp_text b) = true.

(** The record does not carry the error of an unsupported extension. *)
Definition extension_accepted (a : FileAnalysis) : Prop :=
  forall sfx, ~ In (ErrUnsupportedType sfx) (errors a).



(** * Sample files *)

(** The float [0.5]. *)
Definition float_half : spec_float := S754_finite false 4503599627370496 (-53).

Definition path_img_1234 : path_facts :=
  {| name := "IMG_1234.CR2"; absolute := "/photos/IMG_1234.CR2"; st_size := Some 24000000 |}.

Definition path_img_1235 : path_facts :=
  {| name := "IMG_1235.CR2"; absolute := "/photos/IMG_1235.CR2"; st_size := Some 24100000 |}.

(** The backend succeeds with one flat object. *)
Definition backend_ok (exif : exif_dict) : process_outcome :=
  Completed 0 (StdoutJson [exif]) "".

(** The record [analyze_file] returns for [path] when the backend delivers
    [exif] (the empty record when [analyze_file] raises). *)
Definition analysis_of (path : path_facts) (exif : exif_dict) : FileAnalysis :=
  match analyze_file path (backend_ok exif) false with
  | Ok a => a
  | Raise _ => new_analysis "" "" "" 0 []
  end.

Definition exif_canon_grouped : exif_dict :=
  [ ("File:FileType", VStr "CR2"); ("EXIF:Make", VStr "Canon");
    ("EXIF:Model", VStr "Canon EOS 200D") ].

Definition exif_lightroom : exif_dict :=
  [ ("EXIF:Make", VStr "Canon"); ("EXIF:Software", VStr "Adobe Photoshop Lightroom 6.0") ].

Definition analysis_lightroom : FileAnalysis :=
  Eval vm_compute in analysis_of path_img_1234 exif_lightroom.

(** An editor name that the two fields spell only when joined by a space,
    and one that they spell only when joined without it. *)
Definition exif_camera_raw : exif_dict :=
  [ ("EXIF:Make", VStr "Canon"); ("EXIF:Software", VStr "Camera");
    ("EXIF:ProcessingSoftware", VStr "RAW 9") ].

Definition analysis_camera_raw : FileAnalysis :=
  Eval vm_compute in analysis_of path_img_1234 exif_camera_raw.

Definition exif_light_room : exif_dict :=
  [ ("EXIF:Make", VStr "Canon"); ("EXIF:Software", VStr "Light");
    ("EXIF:ProcessingSoftware", VStr "room") ].

Definition analysis_light_room : FileAnalysis :=
  Eval vm_compute in analysis_of path_img_1234 exif_light_room.

Definition exif_file_index : exif_dict :=
  [ ("EXIF:Make", VStr "Canon"); ("Canon:FileIndex", VInt 5678) ].

Definition analysis_file_index : FileAnalysis :=
  Eval vm_compute in analysis_of path_img_1234 exif_file_index.

(** The metadata of a shot: make, model, serial number, capture time. *)
Definition shot (make model serial taken : value) : exif_dict :=
  [ ("File:FileType", VStr "CR2"); ("EXIF:Make", make); ("EXIF:Model", model);
    ("EXIF:SerialNumber", serial); ("EXIF:DateTimeOriginal", taken) ].

(** [IMG_1234.CR2] with metadata [m1] against [IMG_1235.CR2] with [m2]. *)
Definition compare_shots (m1 m2 : exif_dict) : pyresult ComparisonResult :=
  compare_files path_img_1234 (backend_ok m1) path_img_1235 (backend_ok m2).

Definition shot_200d_first : exif_dict :=
  shot (VStr "Canon") (VStr "Canon EOS 200D") (VStr "032021001234")
       (VStr "2024:01:15 14:30:00").

Definition shot_200d_second : exif_dict :=
  shot (VStr "Canon") (VStr "Canon EOS 200D") (VStr "032021001234")
       (VStr "2024:01:15 14:35:00").

Definition shot_250d_second : exif_dict :=
  shot (VStr "Canon") (VStr "Canon EOS 250D") (VStr "032021001234")
       (VStr "2024:01:15 14:35:00").

Definition shot_200d_other_body : exif_dict :=
  shot (VStr "Canon") (VStr "Canon EOS 200D") (VStr "032021009999")
       (VStr "2024:01:15 14:35:00").

Definition shot_200d_no_serial : exif_dict :=
  [ ("File:FileType", VStr "CR2"); ("EXIF:Make", VStr "Canon");
    ("EXIF:Model", VStr "Canon EOS 200D");
    ("EXIF:DateTimeOriginal", VStr "2024:01:15 14:35:00") ].

(** The same body, photographed in the reverse order, with an older file
    number on the second file and an editor in its metadata. *)
Definition shot_200d_edited_earlier : exif_dict :=
  [ ("File:FileType", VStr "CR2"); ("EXIF:Make", VStr "Canon");
    ("EXIF:Model", VStr "Canon EOS 200D"); ("EXIF:SerialNumber", VStr "032021001234");
    ("EXIF:DateTimeOriginal", VStr "2023:12:31 23:59:59");
    ("Canon:FileIndex", VInt 17); ("EXIF:Software", VStr "GIMP 2.10") ].

Definition analysis_200d_first : FileAnalysis :=
  Eval vm_compute in analysis_of path_img_1234 shot_200d_first.

Definition analysis_250d_second : FileAnalysis :=
  Eval vm_compute in analysis_of path_img_1235 shot_250d_second.

Definition analysis_200d_other_body : FileAnalysis :=
  Eval vm_compute in analysis_of path_img_1235 shot_200d_other_body.

Definition analysis_200d_no_serial : FileAnalysis :=
  Eval vm_compute in analysis_of path_img_1235 shot_200d_no_serial.

Definition analysis_200d_edited_earlier : FileAnalysis :=
  Eval vm_compute in analysis_of path_img_1235 shot_200d_edited_earlier.

Definition exif_nikon_counted : exif_dict :=
  [ ("File:FileType", VStr "NEF"); ("EXIF:Make", VStr "NIKON CORPORATION");
    ("EXIF:Model", VStr "NIKON D750"); ("MakerNotes:ShutterCount", VInt 48213) ].

Definition path_dsc_0007 : path_facts :=
  {| name := "DSC_0007.NEF"; absolute := "/photos/DSC_0007.NEF"; st_size := Some 27000000 |}.

Definition analysis_nikon_counted : FileAnalysis :=
  Eval vm_compute in analysis_of path_dsc_0007 exif_nikon_counted.

(** A JPEG under the name of a Canon raw file. *)
Definition exif_renamed_jpeg : exif_dict :=
  [ ("File:FileType", VStr "JPEG"); ("File:MIMEType", VStr "image/jpeg");
    ("EXIF:Make", VStr "Canon") ].

Definition analysis_renamed_jpeg : FileAnalysis :=
  Eval vm_compute in analysis_of path_img_1234 exif_renamed_jpeg.

Definition analysis_renamed_jpeg_raw : FileAnalysis :=
  Eval vm_compute in
    match analyze_file path_img_1234 (backend_ok exif_renamed_jpeg) true with
    | Ok a => a
    | Raise _ => new_analysis "" "" "" 0 []
    end.

(** The result [compare_files] returns for two metadata mappings (the empty
    result when it raises). *)
Definition comparison_of (m1 m2 : exif_dict) : ComparisonResult :=
  match compare_shots m1 m2 with
  | Ok r => r
  | Raise _ =>
      {| file1 := ""; file2 := ""; verdict := INCONCLUSIVE; reasons := [];
         same_camera_model := false; same_serial_number := None; same_firmware := None;
         time_sequence_valid := None; file_number_sequence_valid := None;
         time_difference_seconds := None |}
  end.

Definition comparison_no_serial : ComparisonResult :=
  Eval vm_compute in comparison_of shot_200d_first shot_200d_no_serial.

(** The first shot again, exported by an editor, with a firmware text. *)
Definition shot_200d_first_exported : exif_dict :=
  (shot_200d_first
   ++ [ ("EXIF:Software", VStr "Adobe Photoshop Lightroom 6.0");
        ("EXIF:LensModel", VStr "EF-S18-55mm f/4-5.6 IS STM") ])%list.

Definition analysis_200d_first_exported : FileAnalysis :=
  Eval vm_compute in analysis_of path_img_1234 shot_200d_first_exported.

Definition comparison_exported_no_serial : ComparisonResult :=
  Eval vm_compute in comparison_of shot_200d_first_exported shot_200d_no_serial.

(** A file that names its model and not its maker. *)
Definition shot_model_only : exif_dict :=
  [ ("File:FileType", VStr "CR2"); ("EXIF:Model", VStr "Canon EOS 200D");
    ("EXIF:SerialNumber", VStr "032021001234");
    ("EXIF:DateTimeOriginal", VStr "2024:01:15 14:30:00") ].

Definition analysis_model_only : FileAnalysis :=
  Eval vm_compute in analysis_of path_img_1234 shot_model_only.

Definition comparison_model_only_itself : ComparisonResult :=
  Eval vm_compute in
    match compare_files path_img_1234 (backend_ok shot_model_only)
            path_img_1234 (backend_ok shot_model_only) with
    | Ok r => r
    | Raise _ => comparison_of [] []
    end.

(** A directory as [iterdir] may list it: the later shot first, a text
    file, a sub-directory with the name of a raw file, the earlier shot. *)
Definition directory_two_shots : list dir_entry :=
  [ {| entry_path := path_img_1235; entry_is_file := true;
       entry_run := backend_ok shot_200d_second |};
    {| entry_path := {| name := "notes.txt"; absolute := "/photos/notes.txt";
                        st_size := Some 120 |};
       entry_is_file := true; entry_run := backend_ok [] |};
    {| entry_path := {| name := "old.cr2"; absolute := "/photos/old.cr2";
                        st_size := Some 4096 |};
       entry_is_file := false; entry_run := backend_ok [] |};
    {| entry_path := path_img_1234; entry_is_file := true;
       entry_run := backend_ok shot_200d_first |} ].

Definition analysis_200d_second : FileAnalysis :=
  Eval vm_compute in analysis_of path_img_1235 shot_200d_second.

(** The same directory with one more file, whose [Software] is a number. *)
Definition directory_numeric_software : list dir_entry :=
  (directory_two_shots
   ++ [ {| entry_path := path_dsc_0007; entry_is_file := true;
           entry_run := backend_ok [("EXIF:Software", VInt 2)] |} ])%list.

(** The first shot with a zone offset after its seconds. *)
Definition shot_200d_first_zoned : exif_dict :=
  shot (VStr "Canon") (VStr "Canon EOS 200D") (VStr "032021001234")
       (VStr "2024:01:15 14:30:00+03:00").

Definition analysis_200d_first_zoned : FileAnalysis :=
  Eval vm_compute in analysis_of path_img_1234 shot_200d_first_zoned.

(** * Properties *)

(** ** The tag resolver *)

Section Resolver.

Variable exif : exif_dict.

Lemma group_match_true (tag key : string) :
  group_match tag key = true <-> key_matches tag key.
Proof.
  unfold group_match, key_matches.
  rewrite orb_true_iff, String.eqb_eq. tauto.
Qed.

Lemma dict_get_in (d : exif_dict) (tag : string) (v : value) :
  dict_get d tag = Some v -> In tag (keys d).
Proof.
  induction d as [| [k w] d IH]; simpl; [discriminate |].
  destruct (String.eqb k tag) eqn:E.
  - apply String.eqb_eq in E. auto.
  - auto.
Qed.

Lemma dict_get_none (d : exif_dict) (tag : string) :
  dict_get d tag = None -> forall k, In k (keys d) -> String.eqb k tag = false.
Proof.
  induction d as [| [k w] d IH]; simpl; intros Hget k' Hin; [contradiction |].
  destruct (String.eqb k tag) eqn:E; [discriminate |].
  destruct Hin as [<- | Hin]; auto.
Qed.

Lemma scan_groups_none (tag : string) (d : exif_dict) :
  scan_groups tag d = None <-> (forall k, In k (keys d) -> group_match tag k = false).
Proof.
  induction d as [| [k w] d IH]; simpl.
  - split; [intros _ k [] | reflexivity].
  - destruct (group_match tag k) eqn:E.
    + split; [discriminate |].
      intros H. rewrite (H k) in E by auto. discriminate.
    + rewrite IH. split.
      * intros H k' [<- | Hin]; auto.
      * intros H k' Hin. apply H. auto.
Qed.

Lemma scan_groups_first (tag : string) (pre post : exif_dict) (key : string) (v : value) :
  (forall k, In k (keys pre) -> group_match tag k = false) ->
  group_match tag key = true ->
  scan_groups tag (pre ++ (key, v) :: post)%list = Some v.
Proof.
  induction pre as [| [k w] pre IH]; simpl; intros Hpre Hkey.
  - rewrite Hkey. reflexivity.
  - rewrite (Hpre k) by auto. apply IH; auto.
Qed.

Lemma lookup_tag_none (tag : string) :
  lookup_tag exif tag = None <-> ~ candidate_matches exif tag.
Proof.
  unfold lookup_tag, candidate_matches. split.
  - destruct (dict_get exif tag) eqn:Hget; [discriminate |].
    intros Hscan [key [Hin Hm]].
    apply group_match_true in Hm.
    rewrite scan_groups_none in Hscan.
    rewrite (Hscan key Hin) in Hm. discriminate.
  - intros Hno.
    destruct (dict_get exif tag) eqn:Hget.
    + exfalso. apply Hno. exists tag. split.
      * eapply dict_get_in; eauto.
      * left; reflexivity.
    + apply scan_groups_none. intros k Hin.
      destruct (group_match tag k) eqn:E; [| reflexivity].
      exfalso. apply Hno. exists k. split; [assumption |].
      apply group_match_true; assumption.
Qed.

Lemma lookup_tag_value (tag : string) (v : value) :
  candidate_value exif tag v -> lookup_tag exif tag = Some v.
Proof.
  unfold candidate_value, lookup_tag.
  intros [Hget | [Hget [pre [key [post [Hsplit [Hsuf Hpre]]]]]]].
  - rewrite Hget. reflexivity.
  - rewrite Hget. rewrite Hsplit. apply scan_groups_first.
    + intros k Hin. unfold group_match.
      rewrite (Hpre k Hin). simpl.
      apply (dict_get_none exif tag Hget).
      rewrite Hsplit. unfold keys. rewrite map_app. apply in_or_app. left. exact Hin.
    + unfold group_match. rewrite Hsuf. reflexivity.
Qed.

Lemma get_tag_value_skips (before : list string) (rest : list string) :
  (forall t, In t before -> ~ candidate_matches exif t) ->
  _get_tag_value exif (before ++ rest)%list = _get_tag_value exif rest.
Proof.
  induction before as [| t before IH]; simpl; intros Hno; [reflexivity |].
  assert (Ht : lookup_tag exif t = None) by (apply lookup_tag_none; apply Hno; auto).
  rewrite Ht. apply IH. intros t' Hin. apply Hno. auto.
Qed.

End Resolver.

(** C6 (as amended).  For every mapping and every candidate list,
    [_get_tag_value] returns the value of the first candidate, in list order,
    that matches a key exactly or matches a key whose namespace-qualified form
    ends with [":" ++ candidate], the comparison being case-sensitive; when no
    candidate matches it returns [None].  It is a total function: there is no
    error outcome. *)
Theorem get_tag_value_first_match (exif : exif_dict) (tag_names : list string) :
  (forall before tag after v,
      tag_names = (before ++ tag :: after)%list ->
      (forall t, In t before -> ~ candidate_matches exif t) ->
      candidate_value exif tag v ->
      _get_tag_value exif tag_names = v)
  /\ ((forall t, In t tag_names -> ~ candidate_matches exif t) ->
      _get_tag_value exif tag_names = VNone).
Proof.
  split.
  - intros before tag after v -> Hbefore Hval.
    rewrite get_tag_value_skips by assumption.
    simpl. rewrite (lookup_tag_value exif tag v Hval). reflexivity.
  - intros Hno.
    rewrite <- (app_nil_r tag_names).
    rewrite get_tag_value_skips by assumption.
    reflexivity.
Qed.

Lemma get_tag_value_first_match_witness :
  _get_tag_value exif_canon_grouped ["Model"; "EXIF:Model"; "Camera Model Name"]
  = VStr "Canon EOS 200D"
  /\ _get_tag_value exif_canon_grouped ["Lens"; "LensType"] = VNone.
Proof.
  split.
  - apply (proj1 (get_tag_value_first_match exif_canon_grouped
                    ["Model"; "EXIF:Model"; "Camera Model Name"])
             [] "Model" ["EXIF:Model"; "Camera Model Name"] (VStr "Canon EOS 200D")).
    + reflexivity.
    + intros t [].
    + right. split; [reflexivity |].
      exists [("File:FileType", VStr "CR2"); ("EXIF:Make", VStr "Canon")],
             "EXIF:Model", [].
      split; [reflexivity |]. split; [reflexivity |].
      intros k [<- | [<- | []]]; reflexivity.
  - apply (proj2 (get_tag_value_first_match exif_canon_grouped ["Lens"; "LensType"])).
    intros t Hin. apply lookup_tag_none.
    destruct Hin as [<- | [<- | []]]; reflexivity.
Defined.

(** The statement of C6 fails where case matters: the key ["exif:make"] ends
    with [":make"], which is [":Make"] up to case, so the resolver of the
    specification answers ["Canon"]; the code answers [None]. *)
Lemma get_tag_value_is_case_sensitive :
  ResolverSpec.resolve [("exif:make", VStr "Canon")] ["Make"] = VStr "Canon"
  /\ _get_tag_value [("exif:make", VStr "Canon")] ["Make"] = VNone.
Proof.
  split; reflexivity.
Qed.

(** ** The shutter-count heuristic *)

Example find_shutter_count_numeric_zero :
  _find_shutter_count [("ShutterCount", VInt 0)] = Ok (None, "none").
Proof. reflexivity. Qed.

Example find_shutter_count_digit_string :
  _find_shutter_count [("ShutterCount", VStr "1234")] = Ok (Some 1234, "ShutterCount").
Proof. reflexivity. Qed.

Example find_shutter_count_small_float :
  _find_shutter_count [("MakerNotes:ShutterCount", VFloat float_half)]
  = Ok (Some 0, "MakerNotes:ShutterCount").
Proof. reflexivity. Qed.

(** An integer count that is accepted is strictly positive: the guard
    [value > 0] of the numeric branch. *)
Lemma accept_count_int_positive (n k : Z) :
  accept_count (VInt n) = Some (Ok k) -> 0 < k.
Proof.
  unfold accept_count. simpl.
  destruct (0 <? n) eqn:E; [| discriminate].
  intros H. injection H as <-. apply Z.ltb_lt. exact E.
Qed.

(** C1 (failing input).  The claim: no mapping makes the heuristic yield
    zero, and the digit string ["0"] under a matching key gives the absent
    outcome.  The code: the string branch tests [isdigit] only, without the
    [> 0] of the numeric branch, and returns the count 0 with the key as its
    source. *)
Theorem find_shutter_count_zero_string :
  _find_shutter_count [("ShutterCount", VStr "0")] = Ok (Some 0, "ShutterCount").
Proof. reflexivity. Qed.

(** ** The file-number hint of a filename *)

Example extract_file_number_img : _extract_file_number "IMG_1234.CR2" = Some 1234.
Proof. reflexivity. Qed.

Example extract_file_number_dsc : _extract_file_number "DSC_0007.JPG" = Some 7.
Proof. reflexivity. Qed.

Example extract_file_number_lower_case : _extract_file_number "_dsc0042.nef" = Some 42.
Proof. reflexivity. Qed.

Example extract_file_number_none : _extract_file_number "holiday.jpg" = None.
Proof. reflexivity. Qed.

Example extract_file_number_bare_jpg : _extract_file_number "P1000123.JPG" = Some 1000123.
Proof. reflexivity. Qed.

(** C8 (failing input).  The claim: a bare run of four or more digits before
    any supported extension gives the hint.  The code: the second pattern
    lists six of the nine supported extensions, and a run of digits before
    [.rw2], [.orf] or [.dng] gives nothing. *)
Theorem extract_file_number_misses_extensions :
  mem_str ".rw2" SUPPORTED_EXTENSIONS = true
  /\ _extract_file_number "P1000123.RW2" = None
  /\ _extract_file_number "P1011234.ORF" = None
  /\ _extract_file_number "20240115.dng" = None.
Proof. repeat split; reflexivity. Qed.

(** ** The file analyzer *)

(** A failure of the backend is kept in the record. *)
Lemma analyze_file_backend_failure (path : path_facts) (run : process_outcome)
  (raw : bool) (e : exn) :
  mem_str (PyStr.lower (suffix (name path))) SUPPORTED_EXTENSIONS = true ->
  _run_exiftool run = Raise e ->
  exists a, analyze_file path run raw = Ok a /\ errors a = [ErrExifRead e].
Proof.
  intros Hext Hrun. unfold analyze_file. rewrite Hext, Hrun. simpl.
  eexists. split; reflexivity.
Qed.

(** An unsupported extension is kept in the record, whatever the backend. *)
Lemma analyze_file_unsupported (path : path_facts) (run : process_outcome) (raw : bool) :
  mem_str (PyStr.lower (suffix (name path))) SUPPORTED_EXTENSIONS = false ->
  exists a, analyze_file path run raw = Ok a
            /\ errors a = [ErrUnsupportedType (suffix (name path))].
Proof.
  intros Hext. unfold analyze_file. rewrite Hext. simpl.
  eexists. split; reflexivity.
Qed.

(** C2 (failing input).  The claim: [analyze_file] never raises, whatever
    scalar values the mapping holds.  The code: only the backend call is
    guarded; with a numeric [Software] value the [' '.join] of
    [_check_editing_software] raises [TypeError], which leaves
    [analyze_file]. *)
Theorem analyze_file_raises_on_numeric_software :
  analyze_file path_img_1234 (backend_ok [("EXIF:Software", VInt 2)]) false
  = Raise TypeError.
Proof. reflexivity. Qed.

(** Other unguarded steps: [.upper()] on a numeric file type, [int] of an
    infinite count. *)
Example analyze_file_raises_on_numeric_file_type :
  analyze_file path_img_1234 (backend_ok [("File:FileType", VInt 5)]) false
  = Raise AttributeError.
Proof. reflexivity. Qed.

Example analyze_file_raises_on_infinite_count :
  analyze_file path_img_1234
    (backend_ok [("MakerNotes:ShutterCount", VFloat (S754_infinity false))]) false
  = Raise OverflowError.
Proof. reflexivity. Qed.

(** *** What a returned record holds *)

Lemma first_editor_some (editors : list string) (all_software editor : string) :
  first_editor editors all_software = Some editor ->
  In editor editors /\ PyStr.contains editor all_software = true.
Proof.
  induction editors as [| e editors IH]; simpl; [discriminate |].
  destruct (PyStr.contains e all_software) eqn:E.
  - intros H. injection H as <-. auto.
  - intros H. destruct (IH H). auto.
Qed.

Lemma first_editor_none (editors : list string) (all_software : string) :
  first_editor editors all_software = None ->
  forall editor, In editor editors -> PyStr.contains editor all_software = false.
Proof.
  induction editors as [| e editors IH]; simpl; intros H editor Hin; [contradiction |].
  destruct (PyStr.contains e all_software) eqn:E; [discriminate |].
  destruct Hin as [<- | Hin]; auto.
Qed.

Lemma lower_app (a b : string) : PyStr.lower (a ++ b) = PyStr.lower a ++ PyStr.lower b.
Proof.
  induction a as [| c a IH]; [reflexivity |].
  cbn [String.append PyStr.lower]. rewrite IH. reflexivity.
Qed.

(** The text that [' '.join(filter(None, [software, processing])).lower()]
    builds is the searched text. *)
Lemma join_space_searched_text (soft processing : value) (joined : string) :
  join_space (filter PyVal.truthy [soft; processing]) = Ok joined ->
  PyStr.lower joined = searched_text soft processing.
Proof.
  assert (Hfield : forall v,
             (PyVal.truthy v = false /\ field_text v = "")
             \/ (PyVal.truthy v = true
                 /\ ((exists c s, v = VStr (String c s))
                     \/ forall rest, join_space (v :: rest) = Raise TypeError))).
  { intros v. destruct v as [| b | n | f | s]; cbn [field_text].
    - left. split; reflexivity.
    - destruct b; [right | left]; split; try reflexivity. right. reflexivity.
    - destruct (PyVal.truthy (VInt n)); [right | left]; split; try reflexivity.
      right. reflexivity.
    - destruct (PyVal.truthy (VFloat f)); [right | left]; split; try reflexivity.
      right. reflexivity.
    - destruct s as [| c s]; [left | right]; split; try reflexivity.
      left. exists c, s. reflexivity. }
  cbn [filter]. unfold searched_text.
  destruct (Hfield soft) as [[Ts Fs] | [Ts [[c [s ->]] | Js]]];
    destruct (Hfield processing) as [[Tp Fp] | [Tp [[d [t ->]] | Jp]]];
    rewrite Ts, Tp; rewrite ?Fs, ?Fp; cbn [field_text];
    try (rewrite Js; discriminate); try (rewrite Jp; discriminate).
  - intros H. injection H as <-. reflexivity.
  - intros H. injection H as <-. reflexivity.
  - intros H. injection H as <-. reflexivity.
  - change (join_space [VStr (String c s); VStr (String d t)])
      with (Ok (String c s ++ " " ++ String d t)).
    intros H. injection H as <-.
    cbn [PyStr.lower String.append]. rewrite lower_app. reflexivity.
  - change (join_space [VStr (String c s); processing])
      with (let* t := join_space [processing] in Ok (String c s ++ " " ++ t)).
    rewrite Jp. discriminate.
Qed.

Lemma check_editing_software_spec (soft processing : value) (edited : bool)
  (warning : option note) :
  _check_editing_software soft processing = Ok (edited, warning) ->
  (edited = true <-> warning <> None)
  /\ (edited = true <-> editor_found soft processing).
Proof.
  unfold _check_editing_software, editor_found.
  destruct (join_space (filter PyVal.truthy [soft; processing])) as [joined | e] eqn:J;
    cbn [bind]; [| discriminate].
  rewrite (join_space_searched_text soft processing joined J).
  destruct (first_editor KNOWN_EDITORS (searched_text soft processing)) as [editor |] eqn:F;
    intros H; injection H as <- <-.
  - apply first_editor_some in F. destruct F as [Hin Hc].
    repeat split; try discriminate; intros _.
    exists editor. auto.
  - repeat split; try discriminate.
    + intros H. contradiction H. reflexivity.
    + intros [editor [Hin Hc]].
      rewrite (first_editor_none _ _ F editor Hin) in Hc. discriminate.
Qed.

(** The steps behind a record returned after a successful backend call. *)
Lemma analyze_exif_inv (path : path_facts) (ftype : string) (size : Z) (exif : exif_dict)
  (raw : bool) (a : FileAnalysis) :
  analyze_exif path ftype size exif raw = Ok a ->
  exists edited warning pre_notes post_notes,
    derive_file_number (name path) exif = Ok (file_number_hint a)
    /\ _check_editing_software (software a) (processing_software a) = Ok (edited, warning)
    /\ not_out_of_camera a = edited
    /\ editing_detected_warning a = warning
    /\ exif_integrity_notes a
       = (pre_notes
          ++ match edited, warning with
             | true, Some w => [w]
             | _, _ => []
             end
          ++ post_notes)%list.
Proof.
  unfold analyze_exif.
  destruct (check_file_type _ _ _) as [[[mismatch terrs] tnotes] | e]; cbn [bind]; [| discriminate].
  destruct (_find_shutter_count exif) as [[shutter source] | e]; cbn [bind]; [| discriminate].
  destruct (derive_file_number (name path) exif) as [hint | e]; cbn [bind]; [| discriminate].
  destruct (_check_editing_software _ _) as [[edited warning] | e] eqn:Hed; cbn [bind];
    [| discriminate].
  intros H. injection H as <-.
  cbn [file_number_hint software processing_software not_out_of_camera
       editing_detected_warning exif_integrity_notes].
  exists edited, warning.
  eexists (tnotes ++ _)%list, _.
  split; [reflexivity |]. split; [exact Hed |]. split; [reflexivity |].
  split; [reflexivity |].
  apply app_assoc.
Qed.

Lemma analyze_file_inv (path : path_facts) (run : process_outcome) (raw : bool)
  (a : FileAnalysis) :
  analyze_file path run raw = Ok a ->
  (exists errs,
      a = new_analysis (name path) (absolute path)
            (PyStr.lstrip "." (PyStr.lower (suffix (name path))))
            (match st_size path with Some n => n | None => 0 end) errs)
  \/ (exists exif,
         mem_str (PyStr.lower (suffix (name path))) SUPPORTED_EXTENSIONS = true
         /\ _run_exiftool run = Ok exif
         /\ analyze_exif path (PyStr.lstrip "." (PyStr.lower (suffix (name path))))
              (match st_size path with Some n => n | None => 0 end) exif raw = Ok a).
Proof.
  unfold analyze_file.
  destruct (mem_str _ SUPPORTED_EXTENSIONS) eqn:Hext; simpl.
  - destruct (_run_exiftool run) as [exif | e] eqn:Hrun.
    + intros H. right. exists exif. auto.
    + intros H. injection H as <-. left. eexists. reflexivity.
  - intros H. injection H as <-. left. eexists. reflexivity.
Qed.

(** C10 (amended).  In every record that [analyze_file] returns,
    [not_out_of_camera] is true exactly when [editing_detected_warning] is
    set, that is exactly when a known editor name occurs in the text made of
    the [software] and [processing_software] fields in lower case, the two
    separated by one space when both are non-empty; and when the flag is
    true the warning is one of the record's integrity notes. *)
Theorem editing_flag_iff_warning (path : path_facts) (run : process_outcome) (raw : bool)
  (a : FileAnalysis) :
  analyze_file path run raw = Ok a ->
  (not_out_of_camera a = true <-> editing_detected_warning a <> None)
  /\ (not_out_of_camera a = true <-> editor_found (software a) (processing_software a))
  /\ (not_out_of_camera a = true ->
      exists w, editing_detected_warning a = Some w /\ In w (exif_integrity_notes a)).
Proof.
  intros H. apply analyze_file_inv in H.
  destruct H as [[errs ->] | [exif [_ [_ H]]]].
  - cbn [new_analysis not_out_of_camera editing_detected_warning software
         processing_software].
    repeat split; try discriminate.
    + intros Hn. contradiction Hn. reflexivity.
    + intros [editor [Hin Hc]].
      cbn [KNOWN_EDITORS In] in Hin.
      repeat (destruct Hin as [<- | Hin]; [discriminate Hc |]).
      contradiction.
  - apply analyze_exif_inv in H.
    destruct H as [edited [warning [pre [post [_ [Hed [Hflag [Hwarn Hnotes]]]]]]]].
    destruct (check_editing_software_spec _ _ _ _ Hed) as [Hiff Hfound].
    rewrite Hflag, Hwarn. repeat split; try (apply Hiff); try (apply Hfound).
    intros ->.
    destruct warning as [w |]; [| exfalso; apply (proj1 Hiff); reflexivity].
    exists w. split; [reflexivity |].
    rewrite Hnotes. apply in_or_app. right. left. reflexivity.
Qed.

Lemma editing_flag_iff_warning_witness :
  analyze_file path_img_1234 (backend_ok exif_camera_raw) false = Ok analysis_camera_raw
  /\ software analysis_camera_raw = VStr "Camera"
  /\ processing_software analysis_camera_raw = VStr "RAW 9"
  /\ searched_text (software analysis_camera_raw) (processing_software analysis_camera_raw)
     = "camera raw 9"
  /\ not_out_of_camera analysis_camera_raw = true
  /\ (not_out_of_camera analysis_camera_raw = true
      <-> editing_detected_warning analysis_camera_raw <> None)
  /\ (not_out_of_camera analysis_camera_raw = true
      <-> editor_found (software analysis_camera_raw)
            (processing_software analysis_camera_raw))
  /\ (not_out_of_camera analysis_camera_raw = true ->
      exists w, editing_detected_warning analysis_camera_raw = Some w
                /\ In w (exif_integrity_notes analysis_camera_raw)).
Proof.
  assert (E : analyze_file path_img_1234 (backend_ok exif_camera_raw) false
              = Ok analysis_camera_raw) by (vm_compute; reflexivity).
  split; [exact E |].
  split; [reflexivity |]. split; [reflexivity |]. split; [reflexivity |].
  split; [reflexivity |].
  destruct (editing_flag_iff_warning path_img_1234 (backend_ok exif_camera_raw) false
              analysis_camera_raw E) as [H1 [H2 H3]].
  split; [exact H1 |]. split; [exact H2 | exact H3].
Defined.

(** One field alone: the first editor name of the list that occurs in it
    is the one the warning names. *)
Example editing_single_field :
  analyze_file path_img_1234 (backend_ok exif_lightroom) false = Ok analysis_lightroom
  /\ searched_text (software analysis_lightroom) (processing_software analysis_lightroom)
     = "adobe photoshop lightroom 6.0"
  /\ not_out_of_camera analysis_lightroom = true
  /\ editing_detected_warning analysis_lightroom = Some (NoteEditorDetected "lightroom").
Proof. split; [vm_compute; reflexivity |]. repeat split. Qed.

(** The statement of C10 fails on the text that is searched.  The
    specification has it as the concatenation of the two fields; the code
    joins them with a space.  With ["Light"] and ["room"] the concatenation
    spells ["lightroom"] and the flag is false; with ["Camera"] and
    ["RAW 9"] the concatenation ["cameraraw 9"] holds no editor name and the
    flag is true, for ["camera raw"]. *)
Lemma editing_flag_not_from_concatenation :
  (analyze_file path_img_1234 (backend_ok exif_light_room) false = Ok analysis_light_room
   /\ spec_concatenation (software analysis_light_room)
        (processing_software analysis_light_room) = "lightroom"
   /\ spec_editor_found (software analysis_light_room)
        (processing_software analysis_light_room)
   /\ not_out_of_camera analysis_light_room = false
   /\ editing_detected_warning analysis_light_room = None)
  /\ (analyze_file path_img_1234 (backend_ok exif_camera_raw) false = Ok analysis_camera_raw
      /\ spec_concatenation (software analysis_camera_raw)
           (processing_software analysis_camera_raw) = "cameraraw 9"
      /\ ~ spec_editor_found (software analysis_camera_raw)
             (processing_software analysis_camera_raw)
      /\ not_out_of_camera analysis_camera_raw = true
      /\ editing_detected_warning analysis_camera_raw
         = Some (NoteEditorDetected "camera raw")).
Proof.
  split.
  - split; [vm_compute; reflexivity |]. split; [reflexivity |].
    split; [| split; reflexivity].
    exists "lightroom". split; [left; reflexivity | reflexivity].
  - split; [vm_compute; reflexivity |]. split; [reflexivity |].
    split; [| split; reflexivity].
    intros [editor [Hin Hc]].
    cbn [KNOWN_EDITORS In] in Hin.
    repeat (destruct Hin as [<- | Hin]; [vm_compute in Hc; discriminate Hc |]).
    contradiction.
Qed.

(** *** The file-number hint of a record *)

Lemma analyze_file_supported (path : path_facts) (run : process_outcome) (raw : bool)
  (exif : exif_dict) (a : FileAnalysis) :
  mem_str (PyStr.lower (suffix (name path))) SUPPORTED_EXTENSIONS = true ->
  _run_exiftool run = Ok exif ->
  analyze_file path run raw = Ok a ->
  derive_file_number (name path) exif = Ok (file_number_hint a).
Proof.
  intros Hext Hrun. unfold analyze_file. rewrite Hext, Hrun. cbn [negb].
  intros H. apply analyze_exif_inv in H.
  destruct H as [edited [warning [pre [post [H _]]]]]. exact H.
Qed.

(** C9 (as amended).  For every analyzed file with a supported extension
    whose metadata the backend delivered: when the value that the tag
    resolver finds for [FileNumber], [Canon:FileNumber], [FileIndex] (in this
    order) is a number other than zero, the record's file-number hint is that
    value coerced to integer, whatever the filename gives; otherwise the hint
    is the one derived from the filename. *)
Theorem file_number_hint_from_counter (path : path_facts) (run : process_outcome)
  (raw : bool) (exif : exif_dict) (a : FileAnalysis) :
  mem_str (PyStr.lower (suffix (name path))) SUPPORTED_EXTENSIONS = true ->
  _run_exiftool run = Ok exif ->
  analyze_file path run raw = Ok a ->
  let counter := _get_tag_value exif FILE_NUMBER_TAGS in
  (PyVal.is_number counter = true -> PyVal.truthy counter = true ->
   exists n, PyVal.int_of_number counter = Ok n /\ file_number_hint a = Some n)
  /\ (PyVal.truthy counter && PyVal.is_number counter = false ->
      file_number_hint a = _extract_file_number (name path)).
Proof.
  intros Hext Hrun Ha counter.
  pose proof (analyze_file_supported path run raw exif a Hext Hrun Ha) as H.
  unfold derive_file_number in H. fold counter in H.
  split.
  - intros Hnum Htrue. rewrite Hnum, Htrue in H. cbn [andb] in H.
    destruct (PyVal.int_of_number counter) as [n | e]; cbn [bind] in H; [| discriminate].
    exists n. split; [reflexivity |]. injection H as <-. reflexivity.
  - intros Hguard. rewrite Hguard in H. injection H as <-. reflexivity.
Qed.

Lemma file_number_hint_from_counter_witness :
  _extract_file_number (name path_img_1234) = Some 1234
  /\ _get_tag_value exif_file_index FILE_NUMBER_TAGS = VInt 5678
  /\ exists n, PyVal.int_of_number (VInt 5678) = Ok n
               /\ file_number_hint analysis_file_index = Some n.
Proof.
  split; [reflexivity |]. split; [reflexivity |].
  apply (proj1 (file_number_hint_from_counter path_img_1234 (backend_ok exif_file_index)
                  false exif_file_index analysis_file_index
                  eq_refl eq_refl eq_refl));
    reflexivity.
Defined.

(** The statement of C9 fails on a zero counter and on a counter hidden
    behind an earlier candidate: the metadata holds a numeric file-counter
    field, and the hint is still the filename's 1234. *)
Lemma file_number_counter_not_used :
  (exists a,
      analyze_file path_img_1234 (backend_ok [("Canon:FileNumber", VInt 0)]) false = Ok a
      /\ _get_tag_value [("Canon:FileNumber", VInt 0)] FILE_NUMBER_TAGS = VInt 0
      /\ PyVal.is_number (VInt 0) = true
      /\ PyVal.int_of_number (VInt 0) = Ok 0
      /\ file_number_hint a = Some 1234)
  /\ (exists a,
         analyze_file path_img_1234
           (backend_ok [("Canon:FileNumber", VStr "100-1234"); ("Canon:FileIndex", VInt 42)])
           false = Ok a
         /\ dict_get [("Canon:FileNumber", VStr "100-1234"); ("Canon:FileIndex", VInt 42)]
                     "Canon:FileIndex" = Some (VInt 42)
         /\ PyVal.is_number (VInt 42) = true
         /\ PyVal.int_of_number (VInt 42) = Ok 42
         /\ file_number_hint a = Some 1234).
Proof.
  split; eexists; (split; [vm_compute; reflexivity |]); repeat split; reflexivity.
Qed.

(** ** The comparator *)

Lemma strptime_raises_value_error (s : string) (e : exn) :
  Strptime.strptime s = Raise e -> e = ValueError.
Proof.
  unfold Strptime.strptime.
  destruct (Strptime.match_format s) as [[dt [| c r]] |].
  - destruct (Strptime.valid dt); [discriminate |]. intros H. injection H as <-. reflexivity.
  - intros H. injection H as <-. reflexivity.
  - intros H. injection H as <-. reflexivity.
Qed.

Lemma parse_timestamp_text (s : string) (e : exn) :
  parse_timestamp (VStr s) = Raise e -> e = ValueError.
Proof.
  unfold parse_timestamp. cbn [strip_timestamp bind]. apply strptime_raises_value_error.
Qed.

(** With text timestamps, the time check does not raise. *)
Lemma check_time_returns (a1 a2 : FileAnalysis) :
  text_or_absent (datetime_original a1) ->
  text_or_absent (datetime_original a2) ->
  exists time_diff time_seq_valid time_reasons,
    check_time a1 a2 = Ok (time_diff, time_seq_valid, time_reasons).
Proof.
  unfold check_time.
  destruct (datetime_original a1) as [| b1 | n1 | f1 | s1]; cbn [text_or_absent];
    intros T1; try contradiction;
  destruct (datetime_original a2) as [| b2 | n2 | f2 | s2]; cbn [text_or_absent];
    intros T2; try contradiction.
  - cbn [PyVal.truthy andb]. repeat eexists.
  - cbn [PyVal.truthy andb]. repeat eexists.
  - rewrite andb_false_r. repeat eexists.
  - destruct (PyVal.truthy (VStr s1) && PyVal.truthy (VStr s2)); [| repeat eexists].
    destruct (parse_timestamp (VStr s1)) as [dt1 | e1] eqn:P1; cbn [bind].
    + destruct (parse_timestamp (VStr s2)) as [dt2 | e2] eqn:P2; cbn [bind].
      * destruct (0 <=? Strptime.total_seconds_between dt1 dt2); repeat eexists.
      * apply parse_timestamp_text in P2. subst e2. repeat eexists.
    + apply parse_timestamp_text in P1. subst e1. repeat eexists.
Qed.

Lemma compare_files_of_analyses (path1 path2 : path_facts) (run1 run2 : process_outcome)
  (a1 a2 : FileAnalysis) :
  analyze_file path1 run1 false = Ok a1 ->
  analyze_file path2 run2 false = Ok a2 ->
  compare_files path1 run1 path2 run2 = compare_analyses a1 a2.
Proof.
  intros H1 H2. unfold compare_files. rewrite H1, H2. reflexivity.
Qed.

(** A verdict forced to [SUSPICIOUS] goes through the final resolution. *)
Lemma resolve_verdict_suspicious (same_model : bool)
  (same_serial time_seq_valid file_seq_valid : option bool) :
  resolve_verdict SUSPICIOUS same_model same_serial time_seq_valid file_seq_valid
  = (SUSPICIOUS, []).
Proof. reflexivity. Qed.

(** The serial check never takes [SUSPICIOUS] back. *)
Lemma check_serial_keeps_suspicious (a1 a2 : FileAnalysis) :
  snd (fst (check_serial a1 a2 SUSPICIOUS)) = SUSPICIOUS.
Proof.
  unfold check_serial.
  destruct (PyVal.truthy (serial_number a1) && PyVal.truthy (serial_number a2));
    [destruct (PyVal.eq (serial_number a1) (serial_number a2)) |]; reflexivity.
Qed.

Lemma check_model_mismatch (a1 a2 : FileAnalysis) :
  PyVal.truthy (camera_model a1) = true ->
  PyVal.truthy (camera_model a2) = true ->
  PyVal.eq (camera_model a1) (camera_model a2) = false ->
  check_model a1 a2
  = (false, SUSPICIOUS, [DifferentModels (camera_model a1) (camera_model a2)]).
Proof.
  intros T1 T2 Hne. unfold check_model. rewrite Hne, T1, T2.
  rewrite andb_false_r. reflexivity.
Qed.

Lemma compare_analyses_model_mismatch (a1 a2 : FileAnalysis) :
  text_or_absent (datetime_original a1) ->
  text_or_absent (datetime_original a2) ->
  PyVal.truthy (camera_model a1) = true ->
  PyVal.truthy (camera_model a2) = true ->
  PyVal.eq (camera_model a1) (camera_model a2) = false ->
  exists r,
    compare_analyses a1 a2 = Ok r
    /\ verdict r = SUSPICIOUS
    /\ same_camera_model r = false
    /\ In (DifferentModels (camera_model a1) (camera_model a2)) (reasons r).
Proof.
  intros D1 D2 T1 T2 Hne.
  destruct (check_time_returns a1 a2 D1 D2) as [td [tsv [tr Htime]]].
  unfold compare_analyses.
  rewrite (check_model_mismatch a1 a2 T1 T2 Hne).
  pose proof (check_serial_keeps_suspicious a1 a2) as Hs.
  destruct (check_serial a1 a2 SUSPICIOUS) as [[same_serial verdict2] serial_reasons].
  cbn [fst snd] in Hs. subst verdict2.
  destruct (check_firmware a1 a2) as [same_fw firmware_reasons].
  rewrite Htime. cbn [bind].
  destruct (check_file_number a1 a2) as [file_seq_valid number_reasons].
  rewrite resolve_verdict_suspicious.
  eexists. split; [reflexivity |]. cbn [verdict same_camera_model reasons].
  split; [reflexivity |]. split; [reflexivity |].
  left. reflexivity.
Qed.

(** C3 (as amended).  For every pair of files whose analyses both report a
    non-empty camera model (one that Python takes as true: neither absent,
    nor empty, nor zero), whose models differ, and whose original timestamps
    are text or absent, [compare_files] returns the verdict [SUSPICIOUS]
    whatever the serial numbers, timestamps, file numbers and editing flags
    are; the evidence holds the model-mismatch entry. *)
Theorem model_mismatch_forces_suspicious (path1 path2 : path_facts)
  (run1 run2 : process_outcome) (a1 a2 : FileAnalysis) :
  analyze_file path1 run1 false = Ok a1 ->
  analyze_file path2 run2 false = Ok a2 ->
  text_or_absent (datetime_original a1) ->
  text_or_absent (datetime_original a2) ->
  PyVal.truthy (camera_model a1) = true ->
  PyVal.truthy (camera_model a2) = true ->
  PyVal.eq (camera_model a1) (camera_model a2) = false ->
  exists r,
    compare_files path1 run1 path2 run2 = Ok r
    /\ verdict r = SUSPICIOUS
    /\ same_camera_model r = false
    /\ In (DifferentModels (camera_model a1) (camera_model a2)) (reasons r).
Proof.
  intros H1 H2 D1 D2 T1 T2 Hne.
  rewrite (compare_files_of_analyses _ _ _ _ a1 a2 H1 H2).
  apply compare_analyses_model_mismatch; assumption.
Qed.

(** Same serial number, later capture time, next file number: every other
    signal is favourable, and the verdict is [SUSPICIOUS]. *)
Lemma model_mismatch_forces_suspicious_witness :
  PyVal.eq (serial_number analysis_200d_first) (serial_number analysis_250d_second) = true
  /\ exists r,
       compare_shots shot_200d_first shot_250d_second = Ok r
       /\ verdict r = SUSPICIOUS
       /\ same_camera_model r = false
       /\ In (DifferentModels (VStr "Canon EOS 200D") (VStr "Canon EOS 250D")) (reasons r).
Proof.
  split; [reflexivity |].
  apply (model_mismatch_forces_suspicious
           path_img_1234 path_img_1235
           (backend_ok shot_200d_first) (backend_ok shot_250d_second)
           analysis_200d_first analysis_250d_second);
    first [reflexivity | exact I].
Defined.

(** The statement of C3 fails on a model that is present and empty: no
    model-mismatch evidence, verdict [INCONCLUSIVE].  It also fails on a
    numeric timestamp, where no verdict is returned at all. *)
Lemma model_mismatch_not_suspicious :
  (exists a1 a2 r,
      analyze_file path_img_1234
        (backend_ok (shot (VStr "Canon") (VStr "") (VStr "032021001234")
                          (VStr "2024:01:15 14:30:00"))) false = Ok a1
      /\ analyze_file path_img_1235 (backend_ok shot_250d_second) false = Ok a2
      /\ camera_model a1 = VStr ""
      /\ camera_model a2 = VStr "Canon EOS 250D"
      /\ PyVal.eq (camera_model a1) (camera_model a2) = false
      /\ compare_shots (shot (VStr "Canon") (VStr "") (VStr "032021001234")
                             (VStr "2024:01:15 14:30:00"))
                       shot_250d_second = Ok r
      /\ verdict r = INCONCLUSIVE
      /\ reasons r = [SameSerial (VStr "032021001234"); TimeOrderOk 300;
                      FileNumberIncreases 1234 1235])
  /\ compare_shots (shot (VStr "Canon") (VStr "Canon EOS 200D") (VStr "032021001234")
                         (VInt 2024))
                   (shot (VStr "Canon") (VStr "Canon EOS 250D") (VStr "032021001234")
                         (VInt 2024))
     = Raise AttributeError.
Proof.
  split.
  - do 3 eexists.
    split; [vm_compute; reflexivity |].
    split; [vm_compute; reflexivity |].
    repeat split; vm_compute; reflexivity.
  - vm_compute. reflexivity.
Qed.

(** *** The serial check *)

Lemma check_serial_mismatch (a1 a2 : FileAnalysis) (verdict0 : VerificationResult) :
  PyVal.truthy (serial_number a1) = true ->
  PyVal.truthy (serial_number a2) = true ->
  PyVal.eq (serial_number a1) (serial_number a2) = false ->
  check_serial a1 a2 verdict0
  = (Some false, SUSPICIOUS, [DifferentSerials (serial_number a1) (serial_number a2)]).
Proof.
  intros T1 T2 Hne. unfold check_serial. rewrite T1, T2, Hne. reflexivity.
Qed.

Lemma check_serial_missing (a1 a2 : FileAnalysis) (verdict0 : VerificationResult) :
  PyVal.truthy (serial_number a1) && PyVal.truthy (serial_number a2) = false ->
  check_serial a1 a2 verdict0 = (None, verdict0, [SerialNotFound]).
Proof.
  intros H. unfold check_serial. rewrite H. reflexivity.
Qed.

Lemma check_serial_equal (a1 a2 : FileAnalysis) (verdict0 : VerificationResult) :
  PyVal.truthy (serial_number a1) = true ->
  PyVal.truthy (serial_number a2) = true ->
  PyVal.eq (serial_number a1) (serial_number a2) = true ->
  check_serial a1 a2 verdict0 = (Some true, verdict0, [SameSerial (serial_number a1)]).
Proof.
  intros T1 T2 Heq. unfold check_serial. rewrite T1, T2, Heq. reflexivity.
Qed.

(** With a serial number missing, the comparison is the one of the two
    records without serial numbers. *)
Lemma compare_analyses_without_serial (a1 a2 : FileAnalysis) :
  PyVal.truthy (serial_number a1) && PyVal.truthy (serial_number a2) = false ->
  compare_analyses (without_serial a1) (without_serial a2) = compare_analyses a1 a2.
Proof.
  intros H. unfold compare_analyses.
  destruct (check_model a1 a2) as [[same_model verdict1] model_reasons] eqn:M.
  change (check_model (without_serial a1) (without_serial a2)) with (check_model a1 a2).
  rewrite M.
  rewrite (check_serial_missing a1 a2 verdict1 H).
  rewrite (check_serial_missing (without_serial a1) (without_serial a2) verdict1)
    by reflexivity.
  reflexivity.
Qed.

Lemma compare_analyses_serial_mismatch (a1 a2 : FileAnalysis) :
  text_or_absent (datetime_original a1) ->
  text_or_absent (datetime_original a2) ->
  PyVal.truthy (serial_number a1) = true ->
  PyVal.truthy (serial_number a2) = true ->
  PyVal.eq (serial_number a1) (serial_number a2) = false ->
  exists r,
    compare_analyses a1 a2 = Ok r
    /\ verdict r = SUSPICIOUS
    /\ same_serial_number r = Some false
    /\ In (DifferentSerials (serial_number a1) (serial_number a2)) (reasons r).
Proof.
  intros D1 D2 T1 T2 Hne.
  destruct (check_time_returns a1 a2 D1 D2) as [td [tsv [tr Htime]]].
  unfold compare_analyses.
  destruct (check_model a1 a2) as [[same_model verdict1] model_reasons].
  rewrite (check_serial_mismatch a1 a2 verdict1 T1 T2 Hne).
  destruct (check_firmware a1 a2) as [same_fw firmware_reasons].
  rewrite Htime. cbn [bind].
  destruct (check_file_number a1 a2) as [file_seq_valid number_reasons].
  rewrite resolve_verdict_suspicious.
  eexists. split; [reflexivity |]. cbn [verdict same_serial_number reasons].
  split; [reflexivity |]. split; [reflexivity |].
  apply in_or_app. right. left. reflexivity.
Qed.

Lemma compare_analyses_serial_missing (a1 a2 : FileAnalysis) :
  text_or_absent (datetime_original a1) ->
  text_or_absent (datetime_original a2) ->
  PyVal.truthy (serial_number a1) && PyVal.truthy (serial_number a2) = false ->
  exists r,
    compare_analyses a1 a2 = Ok r
    /\ same_serial_number r = None
    /\ In SerialNotFound (reasons r).
Proof.
  intros D1 D2 H.
  destruct (check_time_returns a1 a2 D1 D2) as [td [tsv [tr Htime]]].
  unfold compare_analyses.
  destruct (check_model a1 a2) as [[same_model verdict1] model_reasons].
  rewrite (check_serial_missing a1 a2 verdict1 H).
  destruct (check_firmware a1 a2) as [same_fw firmware_reasons].
  rewrite Htime. cbn [bind].
  destruct (check_file_number a1 a2) as [file_seq_valid number_reasons].
  destruct (resolve_verdict verdict1 same_model None tsv file_seq_valid) as [final caveat].
  eexists. split; [reflexivity |]. cbn [same_serial_number reasons].
  split; [reflexivity |].
  apply in_or_app. right. left. reflexivity.
Qed.

(** C4 (as amended).  For every pair of files whose original timestamps are
    text or absent: when both analyses report a non-empty serial number (one
    that Python takes as true: neither absent, nor empty, nor zero) and the
    serial numbers differ, [compare_files] returns the verdict [SUSPICIOUS],
    the same-serial sub-verdict is false and the evidence holds the
    serial-mismatch entry; when a serial number is missing (absent, empty or
    zero) the sub-verdict stays unset, the neutral note is in the evidence,
    the check hands on the verdict it received, and the verdict returned is
    the one of the same two records without serial numbers. *)
Theorem serial_check_verdict (path1 path2 : path_facts) (run1 run2 : process_outcome)
  (a1 a2 : FileAnalysis) :
  analyze_file path1 run1 false = Ok a1 ->
  analyze_file path2 run2 false = Ok a2 ->
  text_or_absent (datetime_original a1) ->
  text_or_absent (datetime_original a2) ->
  (PyVal.truthy (serial_number a1) = true ->
   PyVal.truthy (serial_number a2) = true ->
   PyVal.eq (serial_number a1) (serial_number a2) = false ->
   exists r,
     compare_files path1 run1 path2 run2 = Ok r
     /\ verdict r = SUSPICIOUS
     /\ same_serial_number r = Some false
     /\ In (DifferentSerials (serial_number a1) (serial_number a2)) (reasons r))
  /\ (PyVal.truthy (serial_number a1) && PyVal.truthy (serial_number a2) = false ->
      exists r,
        compare_files path1 run1 path2 run2 = Ok r
        /\ same_serial_number r = None
        /\ In SerialNotFound (reasons r)
        /\ (forall verdict0,
               check_serial a1 a2 verdict0 = (None, verdict0, [SerialNotFound]))
        /\ exists r0,
             compare_analyses (without_serial a1) (without_serial a2) = Ok r0
             /\ verdict r = verdict r0).
Proof.
  intros H1 H2 D1 D2.
  rewrite (compare_files_of_analyses _ _ _ _ a1 a2 H1 H2).
  split.
  - intros T1 T2 Hne. apply compare_analyses_serial_mismatch; assumption.
  - intros Hmiss.
    destruct (compare_analyses_serial_missing a1 a2 D1 D2 Hmiss) as [r [Hr [Hs Hin]]].
    exists r. repeat split; try assumption.
    + intros verdict0. apply check_serial_missing. exact Hmiss.
    + exists r. split; [| reflexivity].
      rewrite compare_analyses_without_serial by exact Hmiss. exact Hr.
Qed.

Lemma serial_check_verdict_witness :
  (exists r,
      compare_shots shot_200d_first shot_200d_other_body = Ok r
      /\ verdict r = SUSPICIOUS
      /\ same_serial_number r = Some false
      /\ In (DifferentSerials (VStr "032021001234") (VStr "032021009999")) (reasons r))
  /\ (exists r,
         compare_shots shot_200d_first shot_200d_no_serial = Ok r
         /\ same_serial_number r = None
         /\ In SerialNotFound (reasons r)
         /\ (forall verdict0,
                check_serial analysis_200d_first analysis_200d_no_serial verdict0
                = (None, verdict0, [SerialNotFound]))
         /\ exists r0,
              compare_analyses (without_serial analysis_200d_first)
                               (without_serial analysis_200d_no_serial) = Ok r0
              /\ verdict r = verdict r0).
Proof.
  split.
  - apply (proj1 (serial_check_verdict
                    path_img_1234 path_img_1235
                    (backend_ok shot_200d_first) (backend_ok shot_200d_other_body)
                    analysis_200d_first analysis_200d_other_body
                    eq_refl eq_refl I I));
      reflexivity.
  - apply (proj2 (serial_check_verdict
                    path_img_1234 path_img_1235
                    (backend_ok shot_200d_first) (backend_ok shot_200d_no_serial)
                    analysis_200d_first analysis_200d_no_serial
                    eq_refl eq_refl I I));
      reflexivity.
Defined.

(** The statement of C4 fails on a serial number that is present and zero:
    make and model are equal, both files carry a serial number, the two
    differ, and the verdict is [LIKELY_SAME_CAMERA] with the neutral note in
    place of the mismatch entry.  It also fails on a numeric timestamp, where
    no verdict is returned at all. *)
Lemma serial_mismatch_not_suspicious :
  (exists a1 a2 r,
      analyze_file path_img_1234
        (backend_ok (shot (VStr "Canon") (VStr "Canon EOS 200D") (VInt 0)
                          (VStr "2024:01:15 14:30:00"))) false = Ok a1
      /\ analyze_file path_img_1235
           (backend_ok (shot (VStr "Canon") (VStr "Canon EOS 200D") (VInt 12345)
                             (VStr "2024:01:15 14:35:00"))) false = Ok a2
      /\ PyVal.eq (camera_make a1) (camera_make a2) = true
      /\ PyVal.eq (camera_model a1) (camera_model a2) = true
      /\ serial_number a1 = VInt 0
      /\ serial_number a2 = VInt 12345
      /\ PyVal.eq (serial_number a1) (serial_number a2) = false
      /\ compare_shots (shot (VStr "Canon") (VStr "Canon EOS 200D") (VInt 0)
                             (VStr "2024:01:15 14:30:00"))
                       (shot (VStr "Canon") (VStr "Canon EOS 200D") (VInt 12345)
                             (VStr "2024:01:15 14:35:00")) = Ok r
      /\ verdict r = LIKELY_SAME_CAMERA
      /\ same_serial_number r = None
      /\ reasons r = [SameModel (VStr "Canon") (VStr "Canon EOS 200D"); SerialNotFound;
                      TimeOrderOk 300; FileNumberIncreases 1234 1235; NoSerialCaveat])
  /\ compare_shots (shot (VStr "Canon") (VStr "Canon EOS 200D") (VStr "032021001234")
                         (VInt 2024))
                   (shot (VStr "Canon") (VStr "Canon EOS 200D") (VStr "032021009999")
                         (VInt 2024))
     = Raise AttributeError.
Proof.
  split.
  - do 3 eexists.
    split; [vm_compute; reflexivity |].
    split; [vm_compute; reflexivity |].
    repeat split; vm_compute; reflexivity.
  - vm_compute. reflexivity.
Qed.

(** *** Equal make, model and serial number *)

Lemma check_model_same (a1 a2 : FileAnalysis) :
  PyVal.eq (camera_make a1) (camera_make a2) = true ->
  PyVal.is_not_none (camera_make a1) = true ->
  PyVal.eq (camera_model a1) (camera_model a2) = true ->
  check_model a1 a2 = (true, INCONCLUSIVE, [SameModel (camera_make a1) (camera_model a1)]).
Proof.
  intros Hmake Hpresent Hmodel. unfold check_model.
  rewrite Hmake, Hpresent, Hmodel. reflexivity.
Qed.

Lemma compare_analyses_same_identity (a1 a2 : FileAnalysis) :
  text_or_absent (datetime_original a1) ->
  text_or_absent (datetime_original a2) ->
  PyVal.eq (camera_make a1) (camera_make a2) = true ->
  PyVal.is_not_none (camera_make a1) = true ->
  PyVal.eq (camera_model a1) (camera_model a2) = true ->
  PyVal.truthy (serial_number a1) = true ->
  PyVal.truthy (serial_number a2) = true ->
  PyVal.eq (serial_number a1) (serial_number a2) = true ->
  exists r,
    compare_analyses a1 a2 = Ok r
    /\ verdict r = LIKELY_SAME_CAMERA
    /\ same_camera_model r = true
    /\ same_serial_number r = Some true.
Proof.
  intros D1 D2 Hmake Hpresent Hmodel T1 T2 Hserial.
  destruct (check_time_returns a1 a2 D1 D2) as [td [tsv [tr Htime]]].
  unfold compare_analyses.
  rewrite (check_model_same a1 a2 Hmake Hpresent Hmodel).
  rewrite (check_serial_equal a1 a2 INCONCLUSIVE T1 T2 Hserial).
  destruct (check_firmware a1 a2) as [same_fw firmware_reasons].
  rewrite Htime. cbn [bind].
  destruct (check_file_number a1 a2) as [file_seq_valid number_reasons].
  eexists. split; [reflexivity |]. repeat split; reflexivity.
Qed.

(** C5 (as amended).  For every pair of files whose analyses have equal
    camera make (not absent on the first file), equal camera model, and both
    report an equal, non-empty serial number (one that Python takes as true:
    neither absent, nor empty, nor zero), and whose original timestamps are
    text or absent, [compare_files] returns the verdict [LIKELY_SAME_CAMERA],
    whatever firmware, timestamps, file-number hints and editing flags are. *)
Theorem same_identity_likely_same_camera (path1 path2 : path_facts)
  (run1 run2 : process_outcome) (a1 a2 : FileAnalysis) :
  analyze_file path1 run1 false = Ok a1 ->
  analyze_file path2 run2 false = Ok a2 ->
  text_or_absent (datetime_original a1) ->
  text_or_absent (datetime_original a2) ->
  PyVal.eq (camera_make a1) (camera_make a2) = true ->
  PyVal.is_not_none (camera_make a1) = true ->
  PyVal.eq (camera_model a1) (camera_model a2) = true ->
  PyVal.truthy (serial_number a1) = true ->
  PyVal.truthy (serial_number a2) = true ->
  PyVal.eq (serial_number a1) (serial_number a2) = true ->
  exists r,
    compare_files path1 run1 path2 run2 = Ok r
    /\ verdict r = LIKELY_SAME_CAMERA
    /\ same_camera_model r = true
    /\ same_serial_number r = Some true.
Proof.
  intros H1 H2 D1 D2 Hmake Hpresent Hmodel T1 T2 Hserial.
  rewrite (compare_files_of_analyses _ _ _ _ a1 a2 H1 H2).
  apply compare_analyses_same_identity; assumption.
Qed.

Lemma same_identity_likely_same_camera_witness :
  not_out_of_camera analysis_200d_edited_earlier = true
  /\ exists r,
       compare_shots shot_200d_first shot_200d_edited_earlier = Ok r
       /\ verdict r = LIKELY_SAME_CAMERA
       /\ same_camera_model r = true
       /\ same_serial_number r = Some true.
Proof.
  split; [reflexivity |].
  apply (same_identity_likely_same_camera
           path_img_1234 path_img_1235
           (backend_ok shot_200d_first) (backend_ok shot_200d_edited_earlier)
           analysis_200d_first analysis_200d_edited_earlier
           eq_refl eq_refl I I);
    reflexivity.
Defined.

(** The statement of C5 fails on a serial number that is present and zero on
    both files: the verdict is [INCONCLUSIVE].  It also fails on a numeric
    timestamp, where no verdict is returned at all. *)
Lemma same_identity_not_likely :
  (exists a1 a2 r,
      analyze_file path_img_1234
        (backend_ok (shot (VStr "Canon") (VStr "Canon EOS 200D") (VInt 0)
                          (VStr "2024:01:15 14:35:00"))) false = Ok a1
      /\ analyze_file path_img_1235
           (backend_ok (shot (VStr "Canon") (VStr "Canon EOS 200D") (VInt 0)
                             (VStr "2024:01:15 14:30:00"))) false = Ok a2
      /\ PyVal.eq (camera_make a1) (camera_make a2) = true
      /\ camera_make a1 = VStr "Canon"
      /\ PyVal.eq (camera_model a1) (camera_model a2) = true
      /\ serial_number a1 = VInt 0
      /\ serial_number a2 = VInt 0
      /\ PyVal.eq (serial_number a1) (serial_number a2) = true
      /\ compare_shots (shot (VStr "Canon") (VStr "Canon EOS 200D") (VInt 0)
                             (VStr "2024:01:15 14:35:00"))
                       (shot (VStr "Canon") (VStr "Canon EOS 200D") (VInt 0)
                             (VStr "2024:01:15 14:30:00")) = Ok r
      /\ verdict r = INCONCLUSIVE)
  /\ compare_shots (shot (VStr "Canon") (VStr "Canon EOS 200D") (VStr "032021001234")
                         (VInt 2024))
                   (shot (VStr "Canon") (VStr "Canon EOS 200D") (VStr "032021001234")
                         (VInt 2024))
     = Raise AttributeError.
Proof.
  split.
  - do 3 eexists.
    split; [vm_compute; reflexivity |].
    split; [vm_compute; reflexivity |].
    repeat split; vm_compute; reflexivity.
  - vm_compute. reflexivity.
Qed.

(** *** The time-sequence check *)

Example time_sequence_forward :
  exists r,
    compare_shots shot_200d_first shot_200d_second = Ok r
    /\ time_difference_seconds r = Some 300
    /\ time_sequence_valid r = Some true.
Proof. eexists. split; [vm_compute; reflexivity |]. split; reflexivity. Qed.

Example time_sequence_backward :
  exists r,
    compare_files path_img_1235 (backend_ok shot_200d_second)
                  path_img_1234 (backend_ok shot_200d_first) = Ok r
    /\ time_difference_seconds r = Some (-300)
    /\ time_sequence_valid r = Some false.
Proof. eexists. split; [vm_compute; reflexivity |]. split; reflexivity. Qed.

(** What is cut: the text from the first dot on, then from the first plus
    sign on. *)
Lemma split_head_stops (sep : ascii) (base rest : string) :
  PyStr.split_head sep (base ++ String sep rest) = PyStr.split_head sep base.
Proof.
  induction base as [| c base IH]; simpl.
  - rewrite Ascii.eqb_refl. reflexivity.
  - destruct (Ascii.eqb c sep); [reflexivity |]. rewrite IH. reflexivity.
Qed.

Lemma contains_char_cons (sep c : ascii) (base : string) :
  PyStr.contains (String sep EmptyString) (String c base)
  = Ascii.eqb sep c || PyStr.contains (String sep EmptyString) base.
Proof.
  cbn [PyStr.contains String.prefix].
  destruct (ascii_dec sep c) as [-> | Hne].
  - rewrite Ascii.eqb_refl. destruct base; reflexivity.
  - destruct (Ascii.eqb_spec sep c); [contradiction | reflexivity].
Qed.

Lemma split_head_untouched (sep : ascii) (base : string) :
  PyStr.contains (String sep EmptyString) base = false ->
  PyStr.split_head sep base = base.
Proof.
  induction base as [| c base IH]; [reflexivity |].
  rewrite contains_char_cons. intros H.
  apply orb_false_iff in H. destruct H as [Hc Hrest].
  cbn [PyStr.split_head]. rewrite Ascii.eqb_sym, Hc, (IH Hrest). reflexivity.
Qed.

Lemma split_head_app (sep : ascii) (base rest : string) :
  PyStr.contains (String sep EmptyString) base = false ->
  PyStr.split_head sep (base ++ rest) = base ++ PyStr.split_head sep rest.
Proof.
  induction base as [| c base IH]; [reflexivity |].
  rewrite contains_char_cons. intros H.
  apply orb_false_iff in H. destruct H as [Hc Hrest].
  cbn [PyStr.split_head String.append]. rewrite Ascii.eqb_sym, Hc, (IH Hrest). reflexivity.
Qed.

(** A fraction or a positive zone offset after the seconds is removed. *)
Lemma strip_timestamp_suffix (base rest : string) :
  PyStr.contains "." base = false ->
  PyStr.contains "+" base = false ->
  strip_timestamp (VStr (base ++ String "." rest)) = Ok base
  /\ strip_timestamp (VStr (base ++ String "+" rest)) = Ok base.
Proof.
  intros Hdot Hplus. unfold strip_timestamp. split.
  - rewrite split_head_stops.
    rewrite (split_head_untouched "." base Hdot).
    rewrite (split_head_untouched "+" base Hplus). reflexivity.
  - rewrite (split_head_app "." base _ Hdot).
    assert (Hzone : PyStr.split_head "." (String "+" rest)
                    = String "+" (PyStr.split_head "." rest)) by reflexivity.
    rewrite Hzone, split_head_stops.
    rewrite (split_head_untouched "+" base Hplus). reflexivity.
Qed.

(** Two timestamps that parse: the signed difference, second file minus
    first, and its sign. *)
Lemma check_time_parsed (a1 a2 : FileAnalysis) (dt1 dt2 : Strptime.datetime) :
  PyVal.truthy (datetime_original a1) = true ->
  PyVal.truthy (datetime_original a2) = true ->
  parse_timestamp (datetime_original a1) = Ok dt1 ->
  parse_timestamp (datetime_original a2) = Ok dt2 ->
  let delta := Strptime.seconds_of dt2 - Strptime.seconds_of dt1 in
  check_time a1 a2
  = Ok (Some delta, Some (0 <=? delta),
        [if 0 <=? delta then TimeOrderOk (Z.abs delta) else TimeOrderReversed (Z.abs delta)]).
Proof.
  intros T1 T2 P1 P2 delta. unfold check_time.
  rewrite T1, T2, P1, P2. cbn [andb bind].
  unfold Strptime.total_seconds_between. fold delta.
  destruct (0 <=? delta); reflexivity.
Qed.

(** A timestamp that does not parse: the neutral note, nothing asserted. *)
Lemma check_time_unparseable (a1 a2 : FileAnalysis) :
  PyVal.truthy (datetime_original a1) = true ->
  PyVal.truthy (datetime_original a2) = true ->
  parse_timestamp (datetime_original a1) = Raise ValueError
  \/ (returns (parse_timestamp (datetime_original a1))
      /\ parse_timestamp (datetime_original a2) = Raise ValueError) ->
  check_time a1 a2 = Ok (None, None, [DateUnparseable]).
Proof.
  intros T1 T2 H. unfold check_time. rewrite T1, T2. cbn [andb].
  destruct H as [P1 | [[dt1 P1] P2]]; rewrite P1; cbn [bind]; [reflexivity |].
  rewrite P2. reflexivity.
Qed.

Example time_sequence_positive_offset :
  exists r,
    compare_shots
      (shot (VStr "Canon") (VStr "Canon EOS 200D") (VInt 77)
            (VStr "2024:01:15 14:30:00+03:00"))
      (shot (VStr "Canon") (VStr "Canon EOS 200D") (VInt 77)
            (VStr "2024:01:15 14:35:00.25+03:00")) = Ok r
    /\ time_difference_seconds r = Some 300
    /\ time_sequence_valid r = Some true.
Proof. eexists. split; [vm_compute; reflexivity |]. split; reflexivity. Qed.

(** C7 (failing input).  The claim: a timezone suffix after the seconds is
    stripped before parsing and the signed difference is computed.  The code
    cuts at the first dot and at the first plus sign only: the suffix
    [-05:00] stays, [strptime] raises [ValueError], and the comparison
    reports an unparseable date with no difference and no sequence verdict,
    where the claim gives 300 seconds and a valid sequence. *)
Theorem negative_zone_offset_not_stripped :
  strip_timestamp (VStr "2024:01:15 14:30:00-05:00") = Ok "2024:01:15 14:30:00-05:00"
  /\ parse_timestamp (VStr "2024:01:15 14:30:00-05:00") = Raise ValueError
  /\ exists r,
       compare_shots
         (shot (VStr "Canon") (VStr "Canon EOS 200D") (VInt 77)
               (VStr "2024:01:15 14:30:00-05:00"))
         (shot (VStr "Canon") (VStr "Canon EOS 200D") (VInt 77)
               (VStr "2024:01:15 14:35:00-05:00")) = Ok r
       /\ time_difference_seconds r = None
       /\ time_sequence_valid r = None
       /\ In DateUnparseable (reasons r).
Proof.
  split; [reflexivity |]. split; [reflexivity |].
  eexists. split; [vm_compute; reflexivity |].
  split; [reflexivity |]. split; [reflexivity |].
  right. right. left. reflexivity.
Qed.

(** ** More on the shutter-count heuristic *)

Lemma int_of_digits_from_nonneg (s : string) (acc : Z) :
  0 <= acc -> PyStr.all_digits s = true -> 0 <= PyStr.int_of_digits_from acc s.
Proof.
  revert acc. induction s as [| c s IH]; intros acc Hacc Hd;
    cbn [PyStr.all_digits PyStr.int_of_digits_from] in *; [assumption |].
  apply andb_true_iff in Hd. destruct Hd as [Hc Hs].
  apply IH; [| assumption].
  unfold PyStr.is_digit in Hc. apply andb_true_iff in Hc. destruct Hc as [Hlo _].
  apply Nat.leb_le in Hlo. unfold PyStr.digit_val. lia.
Qed.

Lemma int_of_digits_nonneg (s : string) :
  PyStr.all_digits s = true -> 0 <= PyStr.int_of_digits s.
Proof. apply int_of_digits_from_nonneg. lia. Qed.

Lemma isdigit_all_digits (s : string) :
  PyStr.isdigit s = true -> PyStr.all_digits s = true.
Proof. destruct s; [discriminate | exact (fun H => H)]. Qed.

(** What [int] makes of an accepted value is never negative. *)
Lemma accept_count_nonneg (v : value) (n : Z) :
  accept_count v = Some (Ok n) -> 0 <= n.
Proof.
  unfold accept_count.
  destruct (PyVal.is_number v && PyVal.gt_zero v) eqn:G.
  - apply andb_true_iff in G. destruct G as [_ G]. intros H. injection H as H.
    destruct v as [| [|] | k | [s | s | | s m e] | t]; simpl in G, H;
      try discriminate; injection H as <-;
      first [ lia
            | apply Z.ltb_lt in G; lia
            | destruct s; [discriminate |];
              unfold PyVal.float_trunc, PyVal.cond_opp; apply Z.shiftl_nonneg; lia ].
  - destruct v as [| b | k | f | s]; try discriminate.
    destruct (PyStr.isdigit s) eqn:D; [| discriminate].
    intros H. injection H as <-.
    apply int_of_digits_nonneg, isdigit_all_digits, D.
Qed.

Lemma scan_items_some (tag_pattern : string) (items : exif_dict)
  (r : pyresult (Z * string)) :
  scan_items tag_pattern items = Some r ->
  exists key v c,
    In (key, v) items
    /\ shutter_key_match tag_pattern key = true
    /\ accept_count v = Some c
    /\ r = (let* n := c in Ok (n, key)).
Proof.
  induction items as [| [k w] items IH]; simpl; [discriminate |].
  destruct (shutter_key_match tag_pattern k) eqn:M.
  - destruct (accept_count w) as [c |] eqn:A.
    + intros H. injection H as <-. exists k, w, c. auto.
    + intros H. destruct (IH H) as [key [v [c [Hin Hrest]]]].
      exists key, v, c. auto.
  - intros H. destruct (IH H) as [key [v [c [Hin Hrest]]]].
    exists key, v, c. auto.
Qed.

Lemma scan_items_none (tag_pattern : string) (items : exif_dict) :
  scan_items tag_pattern items = None <->
  (forall key v, In (key, v) items -> shutter_key_match tag_pattern key = true ->
                 accept_count v = None).
Proof.
  induction items as [| [k w] items IH]; simpl.
  - split; [intros _ key v [] | reflexivity].
  - destruct (shutter_key_match tag_pattern k) eqn:M.
    + destruct (accept_count w) as [c |] eqn:A.
      * split; [discriminate |]. intros H.
        rewrite (H k w) in A by auto. discriminate.
      * rewrite IH. split.
        -- intros H key v [E | Hin] Hm; [injection E as <- <-; exact A | eauto].
        -- intros H key v Hin. apply H. auto.
    + rewrite IH. split.
      * intros H key v [E | Hin] Hm; [injection E as <- <-; congruence | eauto].
      * intros H key v Hin. apply H. auto.
Qed.

Lemma scan_tags_some (tags : list string) (exif : exif_dict) (n : Z) (key : string) :
  scan_tags tags exif = Ok (Some n, key) ->
  exists tag v,
    In tag tags /\ In (key, v) exif
    /\ shutter_key_match tag key = true
    /\ accept_count v = Some (Ok n).
Proof.
  induction tags as [| t tags IH]; simpl; [discriminate |].
  destruct (scan_items t exif) as [r |] eqn:S.
  - apply scan_items_some in S. destruct S as [k [v [c [Hin [Hm [Ha ->]]]]]].
    destruct c as [m | e]; cbn [bind]; [| discriminate].
    intros H. injection H as <- <-. exists t, v. auto.
  - intros H. destruct (IH H) as [tag [v [Hin Hrest]]]. exists tag, v. auto.
Qed.

Lemma scan_tags_none (tags : list string) (exif : exif_dict) (source : string) :
  scan_tags tags exif = Ok (None, source) <->
  source = "none"
  /\ (forall tag key v, In tag tags -> In (key, v) exif ->
                        shutter_key_match tag key = true -> accept_count v = None).
Proof.
  induction tags as [| t tags IH]; simpl.
  - split.
    + intros H. injection H as <-. split; [reflexivity | intros tag key v []].
    + intros [-> _]. reflexivity.
  - destruct (scan_items t exif) as [r |] eqn:S.
    + split.
      * destruct r as [[m k] | e]; cbn [bind]; discriminate.
      * intros [_ H]. apply scan_items_some in S.
        destruct S as [k [v [c [Hin [Hm [Ha _]]]]]].
        rewrite (H t k v) in Ha by auto. discriminate.
    + rewrite IH. rewrite scan_items_none in S. split.
      * intros [-> H]. split; [reflexivity |].
        intros tag key v [<- | Hin]; eauto.
      * intros [-> H]. split; [reflexivity |]. intros tag key v Hin. apply H. auto.
Qed.



(** X2.  [_find_shutter_count] answers [(None, "none")] exactly when no key
    that matches a known tag carries a value that passes the value test; the
    source of an absent count is always ["none"]. *)
Theorem find_shutter_count_absent_iff (exif : exif_dict) (source : string) :
  _find_shutter_count exif = Ok (None, source) <->
  source = "none"
  /\ (forall tag key v, In tag SHUTTER_COUNT_TAGS -> In (key, v) exif ->
                        shutter_key_match tag key = true -> accept_count v = None).
Proof. apply scan_tags_none. Qed.

(** ** More on the file-number hint of a filename *)

Lemma span_digits_app (d rest : string) :
  PyStr.all_digits d = true -> no_leading_digit rest ->
  PyStr.span_digits (d ++ rest) = (d, rest).
Proof.
  induction d as [| c d IH]; intros Hd Hrest.
  - destruct rest as [| c r]; [reflexivity |].
    cbn [String.append PyStr.span_digits]. cbn [no_leading_digit] in Hrest.
    rewrite Hrest. reflexivity.
  - cbn [PyStr.all_digits] in Hd. apply andb_true_iff in Hd. destruct Hd as [Hc Hd].
    cbn [String.append PyStr.span_digits]. rewrite Hc, (IH Hd Hrest). reflexivity.
Qed.

Lemma span_digits_split (s : string) :
  s = fst (PyStr.span_digits s) ++ snd (PyStr.span_digits s)
  /\ PyStr.all_digits (fst (PyStr.span_digits s)) = true.
Proof.
  induction s as [| c s [IH1 IH2]]; [split; reflexivity |].
  cbn [PyStr.span_digits].
  destruct (PyStr.is_digit c) eqn:Hc.
  - destruct (PyStr.span_digits s) as [d r]. cbn [fst snd] in *. split.
    + cbn [String.append]. rewrite <- IH1. reflexivity.
    + cbn [PyStr.all_digits]. rewrite Hc, IH2. reflexivity.
  - split; reflexivity.
Qed.

Lemma digits_plus_app (d rest : string) :
  PyStr.isdigit d = true -> no_leading_digit rest ->
  digits_plus (d ++ rest) = Some d.
Proof.
  intros Hd Hrest. unfold digits_plus.
  rewrite (span_digits_app d rest (isdigit_all_digits d Hd) Hrest).
  destruct d; [discriminate | reflexivity].
Qed.

Lemma underscore_digits_digit (c : ascii) (s : string) :
  PyStr.is_digit c = true -> underscore_digits (String c s) = digits_plus (String c s).
Proof.
  destruct c as [[|] [|] [|] [|] [|] [|] [|] [|]]; intros H;
    first [discriminate H | reflexivity].
Qed.

Lemma underscore_digits_app (sep d rest : string) :
  sep = "" \/ sep = "_" ->
  PyStr.isdigit d = true -> no_leading_digit rest ->
  underscore_digits (sep ++ d ++ rest) = Some d.
Proof.
  intros [-> | ->] Hd Hrest.
  - cbn [String.append].
    destruct d as [| c d]; [discriminate |].
    assert (Hc : PyStr.is_digit c = true).
    { cbn [PyStr.isdigit PyStr.all_digits] in Hd. apply andb_true_iff in Hd. tauto. }
    cbn [String.append]. rewrite (underscore_digits_digit c _ Hc).
    apply (digits_plus_app (String c d) rest Hd Hrest).
  - cbn [String.append underscore_digits].
    rewrite (digits_plus_app d rest Hd Hrest). reflexivity.
Qed.

Lemma lower_length (a : string) : String.length (PyStr.lower a) = String.length a.
Proof.
  induction a as [| c a IH]; [reflexivity |]. cbn [PyStr.lower String.length].
  rewrite IH. reflexivity.
Qed.

Lemma drop_app_length (a b : string) : PyStr.drop (String.length a) (a ++ b) = b.
Proof.
  induction a as [| c a IH]; [destruct b; reflexivity |]. exact IH.
Qed.

Lemma prefix_empty (s : string) : String.prefix "" s = true.
Proof. destruct s; reflexivity. Qed.

Lemma re_search_head (at_head : string -> option string) (s d : string) :
  at_head s = Some d -> re_search at_head s = Some d.
Proof. intros H. destruct s; cbn [re_search]; rewrite H; reflexivity. Qed.

Lemma match_prefixed_app (p q tail d : string) :
  In p NAME_PREFIXES ->
  PyStr.lower q = PyStr.lower p ->
  underscore_digits tail = Some d ->
  match_prefixed NAME_PREFIXES (q ++ tail) = Some d.
Proof.
  intros Hp Hq Htail.
  assert (Hlen : String.length q = String.length p).
  { rewrite <- (lower_length q), Hq. apply lower_length. }
  unfold NAME_PREFIXES in *. cbn [match_prefixed].
  unfold PyStr.startswith_ci. rewrite lower_app, Hq.
  cbn [In] in Hp.
  destruct Hp as [<- | [<- | [<- | [<- | []]]]];
    cbn [PyStr.lower PyStr.lower_char nat_of_ascii] in *;
    simpl String.prefix; rewrite ?prefix_empty;
    cbn [String.length] in Hlen |- *;
    rewrite <- Hlen, drop_app_length, Htail; reflexivity.
Qed.

(** X3.  A name that begins with [IMG], [DSC], [_MG] or [_DSC], in any letter
    case, then an optional underscore, then a run of digits (no longer than
    [int] converts), gives the value of that run, whatever follows the
    run. *)
Theorem extract_file_number_prefixed (p q sep d rest : string) :
  In p NAME_PREFIXES ->
  PyStr.lower q = PyStr.lower p ->
  sep = "" \/ sep = "_" ->
  PyStr.isdigit d = true ->
  (String.length d <= INT_MAX_STR_DIGITS)%nat ->
  no_leading_digit rest ->
  _extract_file_number (q ++ sep ++ d ++ rest) = Some (PyStr.int_of_digits d).
Proof.
  intros Hp Hq Hsep Hd _ Hrest.
  unfold _extract_file_number, file_number_patterns. cbn [first_pattern].
  rewrite (re_search_head _ _ d); [reflexivity |].
  apply (match_prefixed_app p q _ d Hp Hq).
  apply underscore_digits_app; assumption.
Qed.

Lemma extract_file_number_prefixed_witness :
  _extract_file_number ("_mg" ++ "_" ++ "0815" ++ ".cr2") = Some 815.
Proof.
  apply (extract_file_number_prefixed "_MG" "_mg" "_" "0815" ".cr2").
  - right. right. left. reflexivity.
  - reflexivity.
  - right. reflexivity.
  - reflexivity.
  - unfold INT_MAX_STR_DIGITS. cbn [String.length]. lia.
  - reflexivity.
Defined.
Lemma digits_plus_some (t d : string) :
  digits_plus t = Some d ->
  PyStr.isdigit d = true /\ exists post, t = d ++ post.
Proof.
  unfold digits_plus. destruct (span_digits_split t) as [Hsplit Hall].
  destruct (PyStr.span_digits t) as [[| c ds] r]; [discriminate |].
  cbn [fst snd] in *. intros H. injection H as <-.
  split; [exact Hall | exists r; exact Hsplit].
Qed.

Lemma underscore_digits_some (t d : string) :
  underscore_digits t = Some d ->
  PyStr.isdigit d = true /\ exists pre post, t = pre ++ d ++ post.
Proof.
  assert (Hplain : digits_plus t = Some d ->
                   PyStr.isdigit d = true /\ exists pre post, t = pre ++ d ++ post).
  { intros H. destruct (digits_plus_some t d H) as [Hd [post ->]].
    split; [exact Hd | exists "", post; reflexivity]. }
  unfold underscore_digits.
  destruct t as [| c t']; [exact Hplain |].
  destruct (Ascii.eqb_spec c "_") as [-> | Hne].
  - destruct (digits_plus t') as [d' |] eqn:D; [| exact Hplain].
    intros H. injection H as <-.
    destruct (digits_plus_some t' d' D) as [Hd [post ->]].
    split; [exact Hd | exists "_", post; reflexivity].
  - destruct c as [[|] [|] [|] [|] [|] [|] [|] [|]];
      first [exact Hplain | contradiction Hne; reflexivity].
Qed.

Lemma drop_split (n : nat) (s : string) : exists pre, s = pre ++ PyStr.drop n s.
Proof.
  revert s. induction n as [| n IH]; intros s; [exists ""; reflexivity |].
  destruct s as [| c s]; [exists ""; reflexivity |].
  destruct (IH s) as [pre Hpre]. exists (String c pre).
  cbn [PyStr.drop String.append]. rewrite <- Hpre. reflexivity.
Qed.

Lemma append_assoc (a b c : string) : (a ++ b) ++ c = a ++ b ++ c.
Proof. induction a as [| x a IH]; [reflexivity |]. cbn [String.append]. rewrite IH. reflexivity. Qed.

Lemma match_prefixed_some (alts : list string) (s d : string) :
  match_prefixed alts s = Some d ->
  PyStr.isdigit d = true /\ exists pre post, s = pre ++ d ++ post.
Proof.
  induction alts as [| alt alts IH]; cbn [match_prefixed]; [discriminate |].
  destruct (PyStr.startswith_ci alt s); [| exact IH].
  destruct (underscore_digits (PyStr.drop (String.length alt) s)) as [d' |] eqn:U;
    [| exact IH].
  intros H. injection H as <-.
  destruct (underscore_digits_some _ _ U) as [Hd [pre [post Hsplit]]].
  destruct (drop_split (String.length alt) s) as [pre0 Hpre0].
  split; [exact Hd |]. exists (pre0 ++ pre), post.
  rewrite append_assoc, <- Hsplit. exact Hpre0.
Qed.

Lemma match_bare_some (s d : string) :
  match_bare s = Some d ->
  PyStr.isdigit d = true /\ exists pre post, s = pre ++ d ++ post.
Proof.
  unfold match_bare. destruct (span_digits_split s) as [Hsplit Hall].
  destruct (PyStr.span_digits s) as [ds r]. cbn [fst snd] in *.
  destruct (4 <=? String.length ds)%nat eqn:L; [| discriminate].
  destruct r as [| c r']; [discriminate |].
  destruct (Ascii.eqb_spec c ".") as [-> | Hne].
  - destruct (existsb _ NUMBER_EXTENSIONS); [| discriminate].
    intros H. injection H as <-. split.
    + destruct ds; [discriminate L | exact Hall].
    + exists "", (String "." r'). exact Hsplit.
  - destruct c as [[|] [|] [|] [|] [|] [|] [|] [|]];
      first [discriminate | contradiction Hne; reflexivity].
Qed.

Lemma re_search_some (at_head : string -> option string) (s d : string) :
  (forall t, at_head t = Some d ->
             PyStr.isdigit d = true /\ exists pre post, t = pre ++ d ++ post) ->
  re_search at_head s = Some d ->
  PyStr.isdigit d = true /\ exists pre post, s = pre ++ d ++ post.
Proof.
  intros Hhead. induction s as [| c s IH]; cbn [re_search].
  - destruct (at_head "") eqn:E; [| discriminate].
    intros H. injection H as ->. apply Hhead. exact E.
  - destruct (at_head (String c s)) eqn:E.
    + intros H. injection H as ->. apply Hhead. exact E.
    + intros H. destruct (IH H) as [Hd [pre [post ->]]].
      split; [exact Hd | exists (String c pre), post; reflexivity].
Qed.

(** X4.  The hint that [_extract_file_number] derives is never negative and
    is never invented: it is the decimal value of a non-empty run of digits
    that occurs in the filename. *)
Theorem extract_file_number_from_name (filename : string) (n : Z) :
  _extract_file_number filename = Some n ->
  0 <= n
  /\ exists before d after,
       filename = before ++ d ++ after
       /\ PyStr.isdigit d = true
       /\ n = PyStr.int_of_digits d.
Proof.
  unfold _extract_file_number, file_number_patterns. cbn [first_pattern].
  assert (Hfound : forall d,
             PyStr.isdigit d = true /\ (exists pre post, filename = pre ++ d ++ post) ->
             0 <= PyStr.int_of_digits d
             /\ exists before d' after,
                  filename = before ++ d' ++ after
                  /\ PyStr.isdigit d' = true
                  /\ PyStr.int_of_digits d = PyStr.int_of_digits d').
  { intros d [Hd [pre [post Hsplit]]]. split.
    - apply int_of_digits_nonneg, isdigit_all_digits, Hd.
    - exists pre, d, post. auto. }
  destruct (re_search (match_prefixed NAME_PREFIXES) filename) as [d |] eqn:S1.
  - intros H. injection H as <-. apply Hfound.
    apply (re_search_some _ _ _ (fun t => match_prefixed_some NAME_PREFIXES t d) S1).
  - destruct (re_search match_bare filename) as [d |] eqn:S2; [| discriminate].
    intros H. injection H as <-. apply Hfound.
    apply (re_search_some _ _ _ (fun t => match_bare_some t d) S2).
Qed.

Lemma extract_file_number_from_name_witness :
  0 <= 42
  /\ exists before d after,
       "holiday_DSC0042_edit.jpg" = before ++ d ++ after
       /\ PyStr.isdigit d = true
       /\ 42 = PyStr.int_of_digits d.
Proof.
  apply (extract_file_number_from_name "holiday_DSC0042_edit.jpg" 42). reflexivity.
Defined.
(** ** More on the editing-software detector *)

Lemma lower_empty (s : string) : PyStr.lower s = "" -> s = "".
Proof. destruct s; [reflexivity | discriminate]. Qed.

Lemma truthy_same_up_to_case (v w : value) :
  same_up_to_case v w -> PyVal.truthy v = PyVal.truthy w.
Proof.
  destruct v as [| b | n | f | s], w as [| b' | n' | f' | t]; cbn [same_up_to_case];
    intros H; try discriminate H; try (injection H as <-); try reflexivity.
  cbn [PyVal.truthy]. f_equal.
  destruct s, t; try reflexivity; discriminate H.
Qed.

(** The text in which the editors are looked up. *)
Lemma joined_lower_same_up_to_case (v v' w w' : value) :
  same_up_to_case v v' -> same_up_to_case w w' ->
  (let* joined := join_space (filter PyVal.truthy [v; w]) in Ok (PyStr.lower joined))
  = (let* joined := join_space (filter PyVal.truthy [v'; w']) in Ok (PyStr.lower joined)).
Proof.
  intros Hv Hw. cbn [filter].
  rewrite <- (truthy_same_up_to_case v v' Hv), <- (truthy_same_up_to_case w w' Hw).
  destruct v as [| | | | s], v' as [| | | | s']; cbn [same_up_to_case] in Hv;
    try discriminate Hv; try (injection Hv as <-);
    destruct w as [| | | | t], w' as [| | | | t']; cbn [same_up_to_case] in Hw;
      try discriminate Hw; try (injection Hw as <-);
      repeat match goal with
             | |- context [if ?b then _ else _] => destruct b
             end;
      cbn [join_space bind]; rewrite ?lower_app; cbn [PyStr.lower];
      rewrite ?Hv, ?Hw; reflexivity.
Qed.

(** X5.  The detector ignores letter case: two pairs of software fields that
    differ in case only get the same flag and the same warning (or the same
    exception). *)
Theorem check_editing_software_ignores_case (soft soft' processing processing' : value) :
  same_up_to_case soft soft' ->
  same_up_to_case processing processing' ->
  _check_editing_software soft processing = _check_editing_software soft' processing'.
Proof.
  intros Hs Hp. unfold _check_editing_software.
  pose proof (joined_lower_same_up_to_case soft soft' processing processing' Hs Hp) as H.
  destruct (join_space (filter PyVal.truthy [soft; processing])) as [j | e];
    destruct (join_space (filter PyVal.truthy [soft'; processing'])) as [j' | e'];
    cbn [bind] in *; try discriminate H.
  - injection H as ->. reflexivity.
  - injection H as ->. reflexivity.
Qed.

Lemma check_editing_software_ignores_case_witness :
  _check_editing_software (VStr "ADOBE PHOTOSHOP CC") VNone
  = _check_editing_software (VStr "Adobe Photoshop CC") VNone.
Proof.
  apply (check_editing_software_ignores_case
           (VStr "ADOBE PHOTOSHOP CC") (VStr "Adobe Photoshop CC") VNone VNone);
    reflexivity.
Defined.

Lemma join_space_filter (soft processing : value) :
  (text_or_falsy soft && text_or_falsy processing = true ->
   exists joined, join_space (filter PyVal.truthy [soft; processing]) = Ok joined)
  /\ (text_or_falsy soft && text_or_falsy processing = false ->
      join_space (filter PyVal.truthy [soft; processing]) = Raise TypeError).
Proof.
  assert (Hcase : forall v,
             (PyVal.truthy v = false /\ text_or_falsy v = true)
             \/ (PyVal.truthy v = true /\ text_or_falsy v = true /\ exists s, v = VStr s)
             \/ (PyVal.truthy v = true /\ text_or_falsy v = false
                 /\ forall rest, join_space (v :: rest) = Raise TypeError)).
  { intros v. destruct v as [| b | n | f | s]; cbn [text_or_falsy].
    - left. split; reflexivity.
    - destruct b; [right; right | left]; repeat split.
    - destruct (PyVal.truthy (VInt n)) eqn:T; [right; right | left]; repeat split.
    - destruct (PyVal.truthy (VFloat f)) eqn:T; [right; right | left]; repeat split.
    - destruct (PyVal.truthy (VStr s)) eqn:T; [right; left | left]; repeat split.
      exists s. reflexivity. }
  cbn [filter].
  destruct (Hcase soft) as [[Ts Fs] | [[Ts [Fs [s ->]]] | [Ts [Fs Js]]]];
    destruct (Hcase processing) as [[Tp Fp] | [[Tp [Fp [t ->]]] | [Tp [Fp Jp]]]];
    rewrite Ts, Tp, Fs, Fp; cbn [andb]; split; intros H; try discriminate H;
    try (eexists; reflexivity); try apply Js; try apply Jp.
  change (join_space [VStr s; processing])
    with (let* t := join_space [processing] in Ok (s ++ " " ++ t)).
  rewrite Jp. reflexivity.
Qed.
(** X6.  [_check_editing_software] returns a result exactly when each of the
    two fields is a string or a value Python takes as false (absent, zero,
    empty); with any other value it raises [TypeError]. *)
Theorem check_editing_software_outcome (soft processing : value) :
  (text_or_falsy soft && text_or_falsy processing = true ->
   exists edited warning, _check_editing_software soft processing = Ok (edited, warning))
  /\ (text_or_falsy soft && text_or_falsy processing = false ->
      _check_editing_software soft processing = Raise TypeError).
Proof.
  destruct (join_space_filter soft processing) as [Hok Hbad].
  unfold _check_editing_software. split; intros H.
  - destruct (Hok H) as [joined ->]. cbn [bind].
    destruct (first_editor KNOWN_EDITORS (PyStr.lower joined)); eexists; eexists; reflexivity.
  - rewrite (Hbad H). reflexivity.
Qed.

Lemma check_editing_software_outcome_witness :
  (exists edited warning,
      _check_editing_software (VStr "Digital Photo Professional") (VInt 0)
      = Ok (edited, warning))
  /\ _check_editing_software (VStr "Digital Photo Professional") (VInt 3) = Raise TypeError.
Proof.
  split.
  - apply (proj1 (check_editing_software_outcome (VStr "Digital Photo Professional")
                    (VInt 0))).
    reflexivity.
  - apply (proj2 (check_editing_software_outcome (VStr "Digital Photo Professional")
                    (VInt 3))).
    reflexivity.
Defined.
(** ** More on the file analyzer *)




Section TextMapping.

Variable exif : exif_dict.
Hypothesis exif_text : forall key v, In (key, v) exif -> text_or_absent v.










End TextMapping.




(** *** The fields of a returned record *)

Lemma check_file_type_shape (ftype : string) (real mime : value) (mismatch : bool)
  (terrs : list error_entry) (tnotes : list note) :
  check_file_type ftype real mime = Ok (mismatch, terrs, tnotes) ->
  (mismatch = false /\ terrs = [] /\ tnotes = [])
  \/ (mismatch = true
      /\ terrs = [ErrTypeMismatch (PyStr.lower ftype) real]
      /\ tnotes = [NoteTypeMismatch (PyStr.lower ftype) real mime]
      /\ exists s expected,
           real = VStr s /\ s <> ""
           /\ table_get expected_types (PyStr.lower ftype) = Some expected
           /\ mem_str (PyStr.upper s) expected = false).
Proof.
  unfold check_file_type.
  destruct (table_get expected_types (PyStr.lower ftype)) as [expected |];
    [| intros H; injection H as <- <- <-; left; auto].
  destruct (PyVal.truthy real) eqn:T; [| intros H; injection H as <- <- <-; left; auto].
  destruct real as [| b | n | f | s]; cbn [py_upper bind]; try discriminate.
  destruct (mem_str (PyStr.upper s) expected) eqn:M; cbn [negb];
    intros H; injection H as <- <- <-; [left; auto |].
  right. repeat split. exists s, expected. repeat split; try assumption.
  intros ->. discriminate T.
Qed.

Lemma check_file_type_match (ftype s : string) (mime : value) (expected : list string)
  (mismatch : bool) (terrs : list error_entry) (tnotes : list note) :
  check_file_type ftype (VStr s) mime = Ok (mismatch, terrs, tnotes) ->
  s <> "" ->
  table_get expected_types (PyStr.lower ftype) = Some expected ->
  mem_str (PyStr.upper s) expected = false ->
  mismatch = true.
Proof.
  unfold check_file_type. intros H Hs Ht Hm. rewrite Ht in H.
  cbn [PyVal.truthy] in H.
  destruct (String.eqb_spec s "") as [-> | _]; [contradiction Hs; reflexivity |].
  cbn [negb py_upper bind] in H. rewrite Hm in H. cbn [negb] in H.
  injection H as <- _ _. reflexivity.
Qed.

Lemma check_editing_software_warning (soft processing : value) (edited : bool)
  (warning : option note) :
  _check_editing_software soft processing = Ok (edited, warning) ->
  (edited = false /\ warning = None)
  \/ (edited = true /\ exists editor, warning = Some (NoteEditorDetected editor)).
Proof.
  unfold _check_editing_software.
  destruct (join_space _) as [joined | e]; cbn [bind]; [| discriminate].
  destruct (first_editor KNOWN_EDITORS (PyStr.lower joined)) as [editor |];
    intros H; injection H as <- <-; [right | left]; eauto.
Qed.

(** The fields that the steps of [analyze_exif] fill. *)
Lemma analyze_exif_fields (path : path_facts) (ftype : string) (size : Z)
  (exif : exif_dict) (raw : bool) (a : FileAnalysis) :
  analyze_exif path ftype size exif raw = Ok a ->
  exists mismatch terrs tnotes edited warning resize_notes xmp_notes,
    check_file_type ftype (real_file_type a) (mime_type a) = Ok (mismatch, terrs, tnotes)
    /\ _find_shutter_count exif = Ok (shutter_count a, shutter_count_source a)
    /\ _check_editing_software (software a) (processing_software a) = Ok (edited, warning)
    /\ file_type a = ftype
    /\ file_type_mismatch a = mismatch
    /\ errors a = terrs
    /\ shutter_count_present a
       = match shutter_count a with Some _ => true | None => false end
    /\ exif_integrity_notes a
       = (tnotes
          ++ (if negb (shutter_count_present a) then [NoteShutterCountAbsent] else [])
          ++ match edited, warning with
             | true, Some w => [w]
             | _, _ => []
             end
          ++ resize_notes ++ xmp_notes)%list
    /\ (forall n, In n resize_notes -> n = NoteResized)
    /\ (forall n, In n xmp_notes -> exists tool, n = NoteXmpCreatorTool tool)
    /\ raw_exif a = (if raw then Some exif else None)
    /\ analyze_exif path ftype size exif false = Ok (without_raw_exif a).
Proof.
  unfold analyze_exif.
  destruct (check_file_type _ _ _) as [[[mismatch terrs] tnotes] | e] eqn:Hft;
    cbn [bind]; [| discriminate].
  destruct (_find_shutter_count exif) as [[shutter source] | e]; cbn [bind]; [| discriminate].
  destruct (derive_file_number (name path) exif) as [hint | e]; cbn [bind]; [| discriminate].
  destruct (_check_editing_software _ _) as [[edited warning] | e] eqn:Hed; cbn [bind];
    [| discriminate].
  intros H. injection H as <-.
  cbn [real_file_type mime_type software processing_software file_type file_type_mismatch
       errors shutter_count shutter_count_source shutter_count_present
       exif_integrity_notes raw_exif].
  exists mismatch, terrs, tnotes, edited, warning.
  eexists. eexists.
  split; [exact Hft |]. split; [reflexivity |]. split; [exact Hed |].
  split; [reflexivity |]. split; [reflexivity |]. split; [reflexivity |].
  split; [reflexivity |]. split; [reflexivity |].
  split.
  { unfold check_resize. intros n.
    repeat match goal with
           | |- context [if ?b then _ else _] => destruct b
           end; cbn [In]; intros Hin; try contradiction;
      destruct Hin as [<- | []]; reflexivity. }
  split.
  { intros n. destruct (PyVal.truthy _); cbn [In]; intros Hin; try contradiction.
    destruct Hin as [<- | []]. eexists. reflexivity. }
  split; reflexivity.
Qed.
Lemma lower_char_idem (c : ascii) : PyStr.lower_char (PyStr.lower_char c) = PyStr.lower_char c.
Proof. destruct c as [[|] [|] [|] [|] [|] [|] [|] [|]]; reflexivity. Qed.

Lemma lower_idem (s : string) : PyStr.lower (PyStr.lower s) = PyStr.lower s.
Proof.
  induction s as [| c s IH]; [reflexivity |].
  cbn [PyStr.lower]. rewrite lower_char_idem, IH. reflexivity.
Qed.

Lemma lstrip_lower (c : ascii) (s : string) :
  PyStr.lower s = s -> PyStr.lower (PyStr.lstrip c s) = PyStr.lstrip c s.
Proof.
  induction s as [| x s IH]; [reflexivity |].
  intros H. cbn [PyStr.lstrip].
  destruct (Ascii.eqb x c); [| exact H].
  apply IH. cbn [PyStr.lower] in H. injection H as _ H. exact H.
Qed.

Lemma file_type_lower (sfx : string) :
  PyStr.lower (PyStr.lstrip "." (PyStr.lower sfx)) = PyStr.lstrip "." (PyStr.lower sfx).
Proof. apply lstrip_lower, lower_idem. Qed.

(** How a record comes about: the short circuit on the extension, the
    captured backend failure, or the full analysis. *)
Lemma analyze_file_cases (path : path_facts) (run : process_outcome) (raw : bool)
  (a : FileAnalysis) :
  analyze_file path run raw = Ok a ->
  let ftype := PyStr.lstrip "." (PyStr.lower (suffix (name path))) in
  let size := match st_size path with Some n => n | None => 0 end in
  (mem_str (PyStr.lower (suffix (name path))) SUPPORTED_EXTENSIONS = false
   /\ a = new_analysis (name path) (absolute path) ftype size
             [ErrUnsupportedType (suffix (name path))])
  \/ (mem_str (PyStr.lower (suffix (name path))) SUPPORTED_EXTENSIONS = true
      /\ exists e,
           _run_exiftool run = Raise e
           /\ a = new_analysis (name path) (absolute path) ftype size [ErrExifRead e])
  \/ (mem_str (PyStr.lower (suffix (name path))) SUPPORTED_EXTENSIONS = true
      /\ exists exif,
           _run_exiftool run = Ok exif
           /\ analyze_exif path ftype size exif raw = Ok a).
Proof.
  unfold analyze_file.
  destruct (mem_str _ SUPPORTED_EXTENSIONS) eqn:Hext; cbn [negb].
  - destruct (_run_exiftool run) as [exif | e] eqn:Hrun.
    + intros H. right. right. split; [reflexivity |]. exists exif. auto.
    + intros H. injection H as <-. right. left. split; [reflexivity |]. exists e. auto.
  - intros H. injection H as <-. left. auto.
Qed.

(** X8.  In every record that [analyze_file] returns: the presence flag is
    true exactly when a count is set; an absent count has the source
    ["none"]; a count that is set is not negative and its source is a key of
    the mapping the backend delivered; the cautionary note about the missing
    count is in the integrity notes only when the count is absent, and always
    then once the backend has delivered a mapping for a supported file. *)
Theorem shutter_count_record (path : path_facts) (run : process_outcome) (raw : bool)
  (a : FileAnalysis) :
  analyze_file path run raw = Ok a ->
  (shutter_count_present a = true <-> shutter_count a <> None)
  /\ (shutter_count a = None -> shutter_count_source a = "none")
  /\ (forall n, shutter_count a = Some n ->
                0 <= n
                /\ exists exif v,
                     _run_exiftool run = Ok exif /\ In (shutter_count_source a, v) exif)
  /\ (In NoteShutterCountAbsent (exif_integrity_notes a) -> shutter_count a = None)
  /\ (forall exif,
         mem_str (PyStr.lower (suffix (name path))) SUPPORTED_EXTENSIONS = true ->
         _run_exiftool run = Ok exif ->
         shutter_count a = None ->
         In NoteShutterCountAbsent (exif_integrity_notes a)).
Proof.
  intros H. apply analyze_file_cases in H. cbv zeta in H.
  destruct H as [[Hext ->] | [[Hext [e [Hrun ->]]] | [Hext [exif [Hrun H]]]]].
  - cbn [new_analysis shutter_count_present shutter_count shutter_count_source
         exif_integrity_notes].
    split; [split; [discriminate | intros Hn; contradiction Hn; reflexivity] |].
    split; [reflexivity |]. split; [discriminate |]. split; [reflexivity |].
    intros exif Hext'. rewrite Hext in Hext'. discriminate.
  - cbn [new_analysis shutter_count_present shutter_count shutter_count_source
         exif_integrity_notes].
    split; [split; [discriminate | intros Hn; contradiction Hn; reflexivity] |].
    split; [reflexivity |]. split; [discriminate |]. split; [reflexivity |].
    intros exif _ Hrun'. rewrite Hrun in Hrun'. discriminate.
  - apply analyze_exif_fields in H.
    destruct H as [mismatch [terrs [tnotes [edited [warning [rn [xn H]]]]]]].
    destruct H as [Hft [Hfind [Hed [_ [_ [_ [Hpresent [Hnotes [Hrn [Hxn _]]]]]]]]]].
    rewrite Hnotes, Hpresent.
    destruct (shutter_count a) as [n |] eqn:Hcount.
    + split; [split; [discriminate | reflexivity] |].
      split; [discriminate |].
      split.
      { intros n' Hn'. injection Hn' as <-.
        unfold _find_shutter_count in Hfind. apply scan_tags_some in Hfind.
        destruct Hfind as [tag [v [_ [Hin [_ Ha]]]]].
        split; [exact (accept_count_nonneg v n Ha) |].
        exists exif, v. auto. }
      split; [| discriminate].
      cbn [negb]. intros Hin. exfalso.
      apply in_app_or in Hin. destruct Hin as [Hin | Hin].
      { apply check_file_type_shape in Hft.
        destruct Hft as [[_ [_ ->]] | [_ [_ [-> _]]]]; [contradiction |].
        destruct Hin as [E | []]. discriminate E. }
      cbn [app] in Hin.
      apply in_app_or in Hin. destruct Hin as [Hin | Hin].
      { apply check_editing_software_warning in Hed.
        destruct Hed as [[-> ->] | [-> [editor ->]]]; [contradiction |].
        destruct Hin as [E | []]. discriminate E. }
      apply in_app_or in Hin. destruct Hin as [Hin | Hin].
      { apply Hrn in Hin. discriminate Hin. }
      { apply Hxn in Hin. destruct Hin as [tool E]. discriminate E. }
    + split; [split; [discriminate | intros Hn; contradiction Hn; reflexivity] |].
      split.
      { intros _. unfold _find_shutter_count in Hfind.
        apply scan_tags_none in Hfind. tauto. }
      split; [discriminate |]. split; [reflexivity |].
      intros _ _ _ _. apply in_or_app. right. left. reflexivity.
Qed.
Lemma shutter_count_record_witness :
  shutter_count analysis_nikon_counted = Some 48213
  /\ (shutter_count_present analysis_nikon_counted = true
      <-> shutter_count analysis_nikon_counted <> None)
  /\ (forall n, shutter_count analysis_nikon_counted = Some n ->
                0 <= n
                /\ exists exif v,
                     _run_exiftool (backend_ok exif_nikon_counted) = Ok exif
                     /\ In (shutter_count_source analysis_nikon_counted, v) exif).
Proof.
  split; [reflexivity |].
  pose proof (shutter_count_record path_dsc_0007 (backend_ok exif_nikon_counted) false
                analysis_nikon_counted eq_refl) as [H1 [_ [H3 _]]].
  split; assumption.
Defined.

(** X9.  In every record that [analyze_file] returns: the declared type is
    in lower case; [errors] holds one entry at most; the mismatch flag is
    true exactly when [errors] is the mismatch entry, that is exactly when
    the detected type is a non-empty string whose upper-case form is not
    among the types expected for the declared one; and the mismatch is then
    among the integrity notes too. *)
Theorem file_type_mismatch_record (path : path_facts) (run : process_outcome) (raw : bool)
  (a : FileAnalysis) :
  analyze_file path run raw = Ok a ->
  PyStr.lower (file_type a) = file_type a
  /\ (List.length (errors a) <= 1)%nat
  /\ (file_type_mismatch a = true
      <-> errors a = [ErrTypeMismatch (file_type a) (real_file_type a)])
  /\ (file_type_mismatch a = true
      <-> exists s expected,
            real_file_type a = VStr s /\ s <> ""
            /\ table_get expected_types (file_type a) = Some expected
            /\ mem_str (PyStr.upper s) expected = false)
  /\ (file_type_mismatch a = true ->
      In (NoteTypeMismatch (file_type a) (real_file_type a) (mime_type a))
         (exif_integrity_notes a)).
Proof.
  intros H. apply analyze_file_cases in H. cbv zeta in H.
  assert (Hearly : forall errs e,
             errs = [e] ->
             (forall ext real, e <> ErrTypeMismatch ext real) ->
             let a0 := new_analysis (name path) (absolute path)
                         (PyStr.lstrip "." (PyStr.lower (suffix (name path))))
                         (match st_size path with Some n => n | None => 0 end) errs in
             PyStr.lower (file_type a0) = file_type a0
             /\ (List.length (errors a0) <= 1)%nat
             /\ (file_type_mismatch a0 = true
                 <-> errors a0 = [ErrTypeMismatch (file_type a0) (real_file_type a0)])
             /\ (file_type_mismatch a0 = true
                 <-> exists s expected,
                       real_file_type a0 = VStr s /\ s <> ""
                       /\ table_get expected_types (file_type a0) = Some expected
                       /\ mem_str (PyStr.upper s) expected = false)
             /\ (file_type_mismatch a0 = true ->
                 In (NoteTypeMismatch (file_type a0) (real_file_type a0) (mime_type a0))
                    (exif_integrity_notes a0))).
  { intros errs e -> Hne.
    cbn [new_analysis file_type errors file_type_mismatch real_file_type mime_type
         exif_integrity_notes List.length].
    split; [apply file_type_lower |]. split; [lia |].
    split; [split; [discriminate | intros E; injection E as E; contradiction (Hne _ _ E)] |].
    split; [| discriminate].
    split; [discriminate |]. intros [s [expected [E _]]]. discriminate E. }
  destruct H as [[Hext ->] | [[Hext [e [Hrun ->]]] | [Hext [exif [Hrun H]]]]].
  - apply (Hearly _ _ eq_refl). intros ext real. discriminate.
  - apply (Hearly _ _ eq_refl). intros ext real. discriminate.
  - clear Hearly. apply analyze_exif_fields in H.
    destruct H as [mismatch [terrs [tnotes [edited [warning [rn [xn H]]]]]]].
    destruct H as [Hft [_ [_ [Hftype [Hmis [Herrs [_ [Hnotes _]]]]]]]].
    assert (Hlow : PyStr.lower (file_type a) = file_type a).
    { rewrite Hftype. apply file_type_lower. }
    rewrite <- Hftype in Hft. rewrite Hlow in *.
    pose proof (check_file_type_shape _ _ _ _ _ _ Hft) as Hshape. rewrite Hlow in Hshape.
    rewrite Hmis, Herrs, Hnotes.
    split; [reflexivity |].
    destruct Hshape as [[-> [-> ->]] | [-> [-> [-> Hwhy]]]].
    + split; [cbn [List.length]; lia |].
      split; [split; discriminate |].
      split; [| discriminate].
      split; [discriminate |].
      intros [s [expected [Hreal [Hs [Ht Hm]]]]]. rewrite Hreal in Hft.
      apply (check_file_type_match _ _ _ expected _ _ _ Hft Hs); [| exact Hm].
      rewrite Hlow. exact Ht.
    + split; [cbn [List.length]; lia |].
      split; [split; reflexivity |].
      split; [split; [intros _; exact Hwhy | reflexivity] |].
      intros _. left. reflexivity.
Qed.

Lemma file_type_mismatch_record_witness :
  file_type_mismatch analysis_renamed_jpeg = true
  /\ (file_type_mismatch analysis_renamed_jpeg = true
      <-> errors analysis_renamed_jpeg = [ErrTypeMismatch "cr2" (VStr "JPEG")])
  /\ (file_type_mismatch analysis_renamed_jpeg = true ->
      In (NoteTypeMismatch "cr2" (VStr "JPEG") (VStr "image/jpeg"))
         (exif_integrity_notes analysis_renamed_jpeg)).
Proof.
  split; [reflexivity |].
  pose proof (file_type_mismatch_record path_img_1234 (backend_ok exif_renamed_jpeg) false
                analysis_renamed_jpeg eq_refl) as [_ [_ [H3 [_ H5]]]].
  split; assumption.
Defined.

(** X10.  The [include_raw_exif] flag changes nothing but the [raw_exif]
    field: the record returned without the flag is the record returned with
    it, less the raw metadata; and when [raw_exif] is set, the flag was given
    and the field is the mapping that the backend delivered. *)
Theorem include_raw_exif_only (path : path_facts) (run : process_outcome) (raw : bool)
  (a : FileAnalysis) :
  analyze_file path run raw = Ok a ->
  analyze_file path run false = Ok (without_raw_exif a)
  /\ (raw_exif a = None
      \/ (raw = true /\ exists exif, _run_exiftool run = Ok exif /\ raw_exif a = Some exif)).
Proof.
  intros H. pose proof (analyze_file_cases path run raw a H) as Hc. cbv zeta in Hc.
  unfold analyze_file.
  destruct Hc as [[Hext ->] | [[Hext [e [Hrun ->]]] | [Hext [exif [Hrun Hc]]]]].
  - rewrite Hext. split; [reflexivity | left; reflexivity].
  - rewrite Hext, Hrun. split; [reflexivity | left; reflexivity].
  - rewrite Hext, Hrun. cbn [negb].
    apply analyze_exif_fields in Hc.
    destruct Hc as [mismatch [terrs [tnotes [edited [warning [rn [xn Hc]]]]]]].
    destruct Hc as [_ [_ [_ [_ [_ [_ [_ [_ [_ [_ [Hraw Hfalse]]]]]]]]]]].
    split; [exact Hfalse |].
    rewrite Hraw. destruct raw; [right | left; reflexivity].
    split; [reflexivity |]. exists exif. auto.
Qed.


Lemma include_raw_exif_only_witness :
  raw_exif analysis_renamed_jpeg_raw = Some exif_renamed_jpeg
  /\ analyze_file path_img_1234 (backend_ok exif_renamed_jpeg) false
     = Ok (without_raw_exif analysis_renamed_jpeg_raw).
Proof.
  split; [reflexivity |].
  apply (include_raw_exif_only path_img_1234 (backend_ok exif_renamed_jpeg) true
           analysis_renamed_jpeg_raw).
  reflexivity.
Defined.

(** ** More on the comparator *)

(** The three sub-verdicts as the checks compute them from the two records. *)
Lemma compare_analyses_subverdicts (a1 a2 : FileAnalysis) (r : ComparisonResult) :
  compare_analyses a1 a2 = Ok r ->
  same_camera_model r = fst (fst (check_model a1 a2))
  /\ same_serial_number r = fst (fst (check_serial a1 a2 INCONCLUSIVE))
  /\ same_firmware r = fst (check_firmware a1 a2)
  /\ (exists time_reasons,
         check_time a1 a2
         = Ok (time_difference_seconds r, time_sequence_valid r, time_reasons))
  /\ file_number_sequence_valid r = fst (check_file_number a1 a2)
  /\ verdict r
     = fst (resolve_verdict
              (snd (fst (check_serial a1 a2 (snd (fst (check_model a1 a2))))))
              (same_camera_model r) (same_serial_number r)
              (time_sequence_valid r) (file_number_sequence_valid r))
  /\ reasons r
     = (snd (check_model a1 a2) ++ snd (check_serial a1 a2 INCONCLUSIVE)
        ++ snd (check_firmware a1 a2)
        ++ match check_time a1 a2 with Ok (_, _, l) => l | Raise _ => [] end
        ++ snd (check_file_number a1 a2) ++ check_editing a1 a2
        ++ snd (resolve_verdict
                  (snd (fst (check_serial a1 a2 (snd (fst (check_model a1 a2))))))
                  (same_camera_model r) (same_serial_number r)
                  (time_sequence_valid r) (file_number_sequence_valid r)))%list.
Proof.
  unfold compare_analyses.
  destruct (check_model a1 a2) as [[same_model verdict1] model_reasons].
  assert (Hs : fst (fst (check_serial a1 a2 verdict1))
               = fst (fst (check_serial a1 a2 INCONCLUSIVE))
               /\ snd (check_serial a1 a2 verdict1) = snd (check_serial a1 a2 INCONCLUSIVE)).
  { unfold check_serial.
    destruct (PyVal.truthy (serial_number a1) && PyVal.truthy (serial_number a2));
      [destruct (PyVal.eq (serial_number a1) (serial_number a2)) |]; split; reflexivity. }
  destruct Hs as [Hs1 Hs2]. rewrite <- Hs1, <- Hs2. cbn [fst snd].
  destruct (check_serial a1 a2 verdict1) as [[same_serial verdict2] serial_reasons].
  destruct (check_firmware a1 a2) as [same_fw firmware_reasons].
  destruct (check_time a1 a2) as [[[time_diff time_seq_valid] time_reasons] | e];
    cbn [bind]; [| discriminate].
  destruct (check_file_number a1 a2) as [file_seq_valid number_reasons].
  destruct (resolve_verdict verdict2 same_model same_serial time_seq_valid file_seq_valid)
    as [final caveat] eqn:R.
  intros H. injection H as <-. cbn [fst snd same_camera_model same_serial_number
    same_firmware time_difference_seconds time_sequence_valid file_number_sequence_valid
    verdict reasons].
  rewrite R. cbn [fst snd]. repeat split. eexists. reflexivity.
Qed.

Lemma check_model_verdict (a1 a2 : FileAnalysis) :
  snd (fst (check_model a1 a2))
  = if negb (fst (fst (check_model a1 a2)))
       && (PyVal.truthy (camera_model a1) && PyVal.truthy (camera_model a2))
    then SUSPICIOUS else INCONCLUSIVE.
Proof.
  unfold check_model.
  destruct (PyVal.eq (camera_make a1) (camera_make a2)
            && PyVal.eq (camera_model a1) (camera_model a2)
            && PyVal.is_not_none (camera_make a1)); cbn [fst snd negb andb];
    [reflexivity |].
  destruct (PyVal.truthy (camera_model a1) && PyVal.truthy (camera_model a2)); reflexivity.
Qed.

Lemma check_serial_verdict (a1 a2 : FileAnalysis) (verdict0 : VerificationResult) :
  snd (fst (check_serial a1 a2 verdict0))
  = match fst (fst (check_serial a1 a2 verdict0)) with
    | Some false => SUSPICIOUS
    | _ => verdict0
    end.
Proof.
  unfold check_serial.
  destruct (PyVal.truthy (serial_number a1) && PyVal.truthy (serial_number a2));
    [destruct (PyVal.eq (serial_number a1) (serial_number a2)) |]; reflexivity.
Qed.

Lemma check_serial_same_whatever (a1 a2 : FileAnalysis) (v w : VerificationResult) :
  fst (fst (check_serial a1 a2 v)) = fst (fst (check_serial a1 a2 w)).
Proof.
  unfold check_serial.
  destruct (PyVal.truthy (serial_number a1) && PyVal.truthy (serial_number a2));
    [destruct (PyVal.eq (serial_number a1) (serial_number a2)) |]; reflexivity.
Qed.

(** The caveat is the only evidence that the checks before the final
    resolution never give. *)
Lemma checks_give_no_caveat (a1 a2 : FileAnalysis) (verdict0 : VerificationResult) :
  ~ In NoSerialCaveat (snd (check_model a1 a2))
  /\ ~ In NoSerialCaveat (snd (check_serial a1 a2 verdict0))
  /\ ~ In NoSerialCaveat (snd (check_firmware a1 a2))
  /\ ~ In NoSerialCaveat (snd (check_file_number a1 a2))
  /\ ~ In NoSerialCaveat (check_editing a1 a2).
Proof.
  assert (Hone : forall r : reason, r <> NoSerialCaveat -> ~ In NoSerialCaveat [r]).
  { intros r Hr [E | []]. contradiction. }
  assert (Hnil : ~ In NoSerialCaveat []) by (intros []).
  repeat split.
  - unfold check_model.
    destruct (_ && _ && _); [apply Hone; discriminate |].
    destruct (_ && _); [apply Hone; discriminate | exact Hnil].
  - unfold check_serial.
    destruct (_ && _); [destruct (PyVal.eq _ _) |]; apply Hone; discriminate.
  - unfold check_firmware.
    destruct (_ && _); [destruct (PyVal.eq _ _); apply Hone; discriminate | exact Hnil].
  - unfold check_file_number.
    destruct (file_number_hint a1) as [n1 |]; [| exact Hnil].
    destruct (file_number_hint a2) as [n2 |]; [| exact Hnil].
    destruct (_ && _); [| exact Hnil].
    destruct (n1 <? n2); [apply Hone; discriminate |].
    destruct (n2 =? n1); apply Hone; discriminate.
  - unfold check_editing. destruct (_ || _); [apply Hone; discriminate | exact Hnil].
Qed.

Lemma check_time_no_caveat (a1 a2 : FileAnalysis) (d : option Z) (v : option bool)
  (l : list reason) :
  check_time a1 a2 = Ok (d, v, l) -> ~ In NoSerialCaveat l.
Proof.
  unfold check_time.
  destruct (_ && _); [| intros H; injection H as _ _ <-; intros []].
  destruct (parse_timestamp (datetime_original a1)) as [dt1 | e1]; cbn [bind].
  - destruct (parse_timestamp (datetime_original a2)) as [dt2 | e2]; cbn [bind].
    + destruct (0 <=? _); intros H; injection H as _ _ <-; intros [E | []]; discriminate E.
    + destruct e2; try discriminate.
      intros H; injection H as _ _ <-; intros [E | []]; discriminate E.
  - destruct e1; try discriminate.
    intros H; injection H as _ _ <-; intros [E | []]; discriminate E.
Qed.

(** The final resolution as a table of the sub-verdicts. *)
Lemma resolve_verdict_table (sm m1 m2 : bool) (ss tv fv : option bool) :
  let verdict1 := if negb sm && (m1 && m2) then SUSPICIOUS else INCONCLUSIVE in
  let verdict2 := match ss with Some false => SUSPICIOUS | _ => verdict1 end in
  let final := fst (resolve_verdict verdict2 sm ss tv fv) in
  let caveat := snd (resolve_verdict verdict2 sm ss tv fv) in
  (final = SUSPICIOUS <-> (sm = false /\ m1 = true /\ m2 = true) \/ ss = Some false)
  /\ (final = LIKELY_SAME_CAMERA <->
        sm = true /\ ss <> Some false
        /\ (ss = Some true \/ (tv = Some true /\ fv = Some true)))
  /\ (In NoSerialCaveat caveat <-> final = LIKELY_SAME_CAMERA /\ ss = None).
Proof.
  unfold resolve_verdict.
  destruct sm, m1, m2, ss as [[|] |], tv as [[|] |], fv as [[|] |];
    cbn [negb andb is_suspicious is_true fst snd In];
    intuition congruence.
Qed.

(** X11.  The verdict of [compare_files], read from the result it returns:
    [SUSPICIOUS] exactly when the models are not the same although both
    files name one, or the serial numbers were compared and differ;
    [LIKELY_SAME_CAMERA] exactly when the models are the same, the serial
    numbers do not differ, and either they are the same or both the time
    and the file-number sequences are valid; and the caveat about the missing
    serial number is among the evidence exactly when the verdict is
    [LIKELY_SAME_CAMERA] with no serial comparison. *)
Theorem verdict_from_subverdicts (path1 path2 : path_facts) (run1 run2 : process_outcome)
  (a1 a2 : FileAnalysis) (r : ComparisonResult) :
  analyze_file path1 run1 false = Ok a1 ->
  analyze_file path2 run2 false = Ok a2 ->
  compare_files path1 run1 path2 run2 = Ok r ->
  (verdict r = SUSPICIOUS <->
     (same_camera_model r = false
      /\ PyVal.truthy (camera_model a1) = true /\ PyVal.truthy (camera_model a2) = true)
     \/ same_serial_number r = Some false)
  /\ (verdict r = LIKELY_SAME_CAMERA <->
        same_camera_model r = true
        /\ same_serial_number r <> Some false
        /\ (same_serial_number r = Some true
            \/ (time_sequence_valid r = Some true
                /\ file_number_sequence_valid r = Some true)))
  /\ (In NoSerialCaveat (reasons r) <->
        verdict r = LIKELY_SAME_CAMERA /\ same_serial_number r = None).
Proof.
  intros H1 H2 H. rewrite (compare_files_of_analyses _ _ _ _ _ _ H1 H2) in H.
  apply compare_analyses_subverdicts in H.
  destruct H as [Hm [Hs [_ [[tr Ht] [Hf [Hv Hr]]]]]].
  destruct (checks_give_no_caveat a1 a2 INCONCLUSIVE) as [N1 [N2 [N3 [N4 N5]]]].
  pose proof (check_time_no_caveat _ _ _ _ _ Ht) as N6.
  rewrite check_serial_verdict, check_model_verdict in Hv, Hr.
  rewrite (check_serial_same_whatever a1 a2 _ INCONCLUSIVE) in Hv, Hr.
  rewrite <- Hs, <- Hm in Hv, Hr.
  pose proof (resolve_verdict_table (same_camera_model r)
                (PyVal.truthy (camera_model a1)) (PyVal.truthy (camera_model a2))
                (same_serial_number r) (time_sequence_valid r)
                (file_number_sequence_valid r)) as T.
  cbv zeta in T. rewrite <- Hv in T. destruct T as [T1 [T2 T3]].
  split; [exact T1 |]. split; [exact T2 |].
  rewrite <- T3, Hr, Ht. rewrite !in_app_iff. tauto.
Qed.

Lemma verdict_from_subverdicts_witness :
  compare_shots shot_200d_first shot_200d_no_serial = Ok comparison_no_serial
  /\ verdict comparison_no_serial = LIKELY_SAME_CAMERA
  /\ (In NoSerialCaveat (reasons comparison_no_serial) <->
        verdict comparison_no_serial = LIKELY_SAME_CAMERA
        /\ same_serial_number comparison_no_serial = None).
Proof.
  assert (E : compare_shots shot_200d_first shot_200d_no_serial = Ok comparison_no_serial)
    by (vm_compute; reflexivity).
  split; [exact E |]. split; [reflexivity |].
  destruct (verdict_from_subverdicts path_img_1234 path_img_1235
              (backend_ok shot_200d_first) (backend_ok shot_200d_no_serial)
              analysis_200d_first analysis_200d_no_serial comparison_no_serial
              eq_refl eq_refl E) as [_ [_ H]].
  exact H.
Defined.

(** X12.  The verdict is drawn from five fields of each record: make,
    model, serial number, original timestamp and file-number hint.  Two
    pairs of records that agree on them get the same verdict and the same
    model, serial and sequence sub-verdicts, whatever their firmware, editing
    flags and other fields are. *)
Theorem verdict_ignores_other_fields (a1 a2 b1 b2 : FileAnalysis) (r : ComparisonResult) :
  same_compared_fields a1 b1 ->
  same_compared_fields a2 b2 ->
  compare_analyses a1 a2 = Ok r ->
  exists r',
    compare_analyses b1 b2 = Ok r'
    /\ verdict r' = verdict r
    /\ same_camera_model r' = same_camera_model r
    /\ same_serial_number r' = same_serial_number r
    /\ time_sequence_valid r' = time_sequence_valid r
    /\ file_number_sequence_valid r' = file_number_sequence_valid r
    /\ time_difference_seconds r' = time_difference_seconds r.
Proof.
  intros [Hk1 [Hm1 [Hs1 [Hd1 Hf1]]]] [Hk2 [Hm2 [Hs2 [Hd2 Hf2]]]].
  assert (Emodel : check_model b1 b2 = check_model a1 a2).
  { unfold check_model. rewrite <- Hk1, <- Hk2, <- Hm1, <- Hm2. reflexivity. }
  assert (Eserial : forall v, check_serial b1 b2 v = check_serial a1 a2 v).
  { intros v. unfold check_serial. rewrite <- Hs1, <- Hs2. reflexivity. }
  assert (Etime : check_time b1 b2 = check_time a1 a2).
  { unfold check_time. rewrite <- Hd1, <- Hd2. reflexivity. }
  assert (Enumber : check_file_number b1 b2 = check_file_number a1 a2).
  { unfold check_file_number. rewrite <- Hf1, <- Hf2. reflexivity. }
  unfold compare_analyses. rewrite Emodel, Etime, Enumber.
  destruct (check_model a1 a2) as [[same_model verdict1] model_reasons].
  rewrite Eserial.
  destruct (check_serial a1 a2 verdict1) as [[same_serial verdict2] serial_reasons].
  destruct (check_firmware a1 a2) as [fw1 fwr1].
  destruct (check_firmware b1 b2) as [fw2 fwr2].
  destruct (check_time a1 a2) as [[[time_diff time_seq_valid] time_reasons] | e];
    cbn [bind]; [| discriminate].
  destruct (check_file_number a1 a2) as [file_seq_valid number_reasons].
  destruct (resolve_verdict verdict2 same_model same_serial time_seq_valid file_seq_valid)
    as [final caveat].
  intros H. injection H as <-. eexists. split; [reflexivity |].
  repeat split.
Qed.

Lemma verdict_ignores_other_fields_witness :
  not_out_of_camera analysis_200d_first_exported = true
  /\ not_out_of_camera analysis_200d_first = false
  /\ exists r',
       compare_analyses analysis_200d_first_exported analysis_200d_no_serial = Ok r'
       /\ verdict r' = verdict comparison_no_serial
       /\ same_camera_model r' = same_camera_model comparison_no_serial
       /\ same_serial_number r' = same_serial_number comparison_no_serial
       /\ time_sequence_valid r' = time_sequence_valid comparison_no_serial
       /\ file_number_sequence_valid r' = file_number_sequence_valid comparison_no_serial
       /\ time_difference_seconds r' = time_difference_seconds comparison_no_serial.
Proof.
  split; [reflexivity |]. split; [reflexivity |].
  apply (verdict_ignores_other_fields analysis_200d_first analysis_200d_no_serial
           analysis_200d_first_exported analysis_200d_no_serial comparison_no_serial).
  - repeat split.
  - repeat split.
  - vm_compute. reflexivity.
Defined.

Lemma eq_text_refl (v : value) : text_or_absent v -> PyVal.eq v v = true.
Proof.
  destruct v as [| | | | s]; cbn [text_or_absent]; try contradiction; intros _;
    [reflexivity | apply String.eqb_refl].
Qed.

Lemma check_time_shape (a1 a2 : FileAnalysis) (d : option Z) (v : option bool)
  (l : list reason) :
  check_time a1 a2 = Ok (d, v, l) ->
  (d = None /\ v = None)
  \/ (exists dt1 dt2,
         parse_timestamp (datetime_original a1) = Ok dt1
         /\ parse_timestamp (datetime_original a2) = Ok dt2
         /\ PyVal.truthy (datetime_original a1) = true
         /\ PyVal.truthy (datetime_original a2) = true
         /\ d = Some (Strptime.total_seconds_between dt1 dt2)
         /\ v = Some (0 <=? Strptime.total_seconds_between dt1 dt2)).
Proof.
  unfold check_time.
  destruct (PyVal.truthy (datetime_original a1)) eqn:T1; cbn [andb];
    [| intros H; injection H as <- <- _; left; auto].
  destruct (PyVal.truthy (datetime_original a2)) eqn:T2;
    [| intros H; injection H as <- <- _; left; auto].
  destruct (parse_timestamp (datetime_original a1)) as [dt1 | e1]; cbn [bind].
  - destruct (parse_timestamp (datetime_original a2)) as [dt2 | e2]; cbn [bind].
    + destruct (0 <=? Strptime.total_seconds_between dt1 dt2) eqn:Z;
        intros H; injection H as <- <- _; right; exists dt1, dt2; rewrite ?Z; auto 10.
    + destruct e2; try discriminate. intros H; injection H as <- <- _; left; auto.
  - destruct e1; try discriminate. intros H; injection H as <- <- _; left; auto.
Qed.

(** X13.  A file compared with itself (make, model and serial number being
    text or absent): the verdict is [LIKELY_SAME_CAMERA] exactly when the
    make is present and the serial number is non-empty, and [SUSPICIOUS]
    exactly when the make is absent although the model is non-empty; the
    file-number sequence is never judged, and a time difference that is set
    is zero. *)
Theorem compare_file_with_itself (path : path_facts) (run : process_outcome)
  (a : FileAnalysis) (r : ComparisonResult) :
  analyze_file path run false = Ok a ->
  text_or_absent (camera_make a) ->
  text_or_absent (camera_model a) ->
  text_or_absent (serial_number a) ->
  compare_files path run path run = Ok r ->
  (verdict r = LIKELY_SAME_CAMERA <->
     camera_make a <> VNone /\ PyVal.truthy (serial_number a) = true)
  /\ (verdict r = SUSPICIOUS <->
        camera_make a = VNone /\ PyVal.truthy (camera_model a) = true)
  /\ file_number_sequence_valid r = None
  /\ (forall d, time_difference_seconds r = Some d -> d = 0).
Proof.
  intros Ha Tk Tm Ts H. rewrite (compare_files_of_analyses _ _ _ _ _ _ Ha Ha) in H.
  apply compare_analyses_subverdicts in H.
  destruct H as [Hm [Hs [_ [[tr Ht] [Hf [Hv _]]]]]].
  rewrite check_serial_verdict, check_model_verdict in Hv.
  rewrite (check_serial_same_whatever a a _ INCONCLUSIVE) in Hv.
  rewrite <- Hs, <- Hm in Hv.
  assert (Hf' : file_number_sequence_valid r = None).
  { rewrite Hf. unfold check_file_number.
    destruct (file_number_hint a) as [n |]; [| reflexivity].
    destruct (hint_truthy (Some n) && hint_truthy (Some n)); [| reflexivity].
    rewrite Z.ltb_irrefl, Z.eqb_refl. reflexivity. }
  assert (Hm' : same_camera_model r = PyVal.is_not_none (camera_make a)).
  { rewrite Hm. unfold check_model.
    rewrite (eq_text_refl _ Tk), (eq_text_refl _ Tm). cbn [andb].
    destruct (PyVal.is_not_none (camera_make a)); [reflexivity |].
    destruct (PyVal.truthy (camera_model a) && PyVal.truthy (camera_model a)); reflexivity. }
  assert (Hs' : same_serial_number r
                = if PyVal.truthy (serial_number a) then Some true else None).
  { rewrite Hs. unfold check_serial. rewrite (eq_text_refl _ Ts).
    destruct (PyVal.truthy (serial_number a)); reflexivity. }
  split; [| split; [| split; [exact Hf' |]]].
  - rewrite Hv, Hf', Hs', Hm'. unfold resolve_verdict.
    destruct (camera_make a) as [| | | | k]; cbn [text_or_absent] in Tk; try contradiction;
      cbn [PyVal.is_not_none];
      destruct (PyVal.truthy (serial_number a)), (PyVal.truthy (camera_model a)),
        (time_sequence_valid r) as [[|] |];
      cbn [negb andb is_suspicious is_true fst]; intuition congruence.
  - rewrite Hv, Hf', Hs', Hm'. unfold resolve_verdict.
    destruct (camera_make a) as [| | | | k]; cbn [text_or_absent] in Tk; try contradiction;
      cbn [PyVal.is_not_none];
      destruct (PyVal.truthy (serial_number a)), (PyVal.truthy (camera_model a)),
        (time_sequence_valid r) as [[|] |];
      cbn [negb andb is_suspicious is_true fst]; intuition congruence.
  - intros d Hd. apply check_time_shape in Ht.
    destruct Ht as [[Hn _] | [dt1 [dt2 [P1 [P2 [_ [_ [Hd' _]]]]]]]]; [congruence |].
    rewrite P1 in P2. injection P2 as <-.
    rewrite Hd' in Hd. injection Hd as <-.
    unfold Strptime.total_seconds_between. lia.
Qed.

Lemma compare_file_with_itself_witness :
  verdict comparison_model_only_itself = SUSPICIOUS
  /\ (verdict comparison_model_only_itself = SUSPICIOUS <->
        camera_make analysis_model_only = VNone
        /\ PyVal.truthy (camera_model analysis_model_only) = true).
Proof.
  split; [reflexivity |].
  destruct (compare_file_with_itself path_img_1234 (backend_ok shot_model_only)
              analysis_model_only comparison_model_only_itself eq_refl I I I)
    as [_ [H _]].
  - vm_compute. reflexivity.
  - exact H.
Defined.

(** X14.  The sequence sub-verdicts of a result: the time sequence is
    judged exactly when a time difference is set, which needs a non-empty
    timestamp on both files, and is valid exactly when the difference is not
    negative; the file-number sequence is valid exactly when both hints are
    set, not zero, and the second is the larger, invalid exactly when the
    second is the smaller, and left open otherwise (a hint of zero counts as
    missing, equal hints decide nothing). *)
Theorem sequence_subverdicts (path1 path2 : path_facts) (run1 run2 : process_outcome)
  (a1 a2 : FileAnalysis) (r : ComparisonResult) :
  analyze_file path1 run1 false = Ok a1 ->
  analyze_file path2 run2 false = Ok a2 ->
  compare_files path1 run1 path2 run2 = Ok r ->
  (forall b, time_sequence_valid r = Some b <->
             exists d, time_difference_seconds r = Some d /\ b = (0 <=? d))
  /\ (time_difference_seconds r <> None ->
      PyVal.truthy (datetime_original a1) = true
      /\ PyVal.truthy (datetime_original a2) = true)
  /\ (forall b, file_number_sequence_valid r = Some b <->
                exists n1 n2,
                  file_number_hint a1 = Some n1 /\ file_number_hint a2 = Some n2
                  /\ n1 <> 0 /\ n2 <> 0 /\ n1 <> n2 /\ b = (n1 <? n2)).
Proof.
  intros H1 H2 H. rewrite (compare_files_of_analyses _ _ _ _ _ _ H1 H2) in H.
  apply compare_analyses_subverdicts in H.
  destruct H as [_ [_ [_ [[tr Ht] [Hf _]]]]].
  apply check_time_shape in Ht.
  split; [| split].
  - intros b.
    destruct Ht as [[-> ->] | [dt1 [dt2 [_ [_ [_ [_ [-> ->]]]]]]]].
    + split; [discriminate | intros [d [E _]]; discriminate E].
    + split.
      * intros E. injection E as <-. eexists. split; reflexivity.
      * intros [d [E ->]]. injection E as <-. reflexivity.
  - intros Hd.
    destruct Ht as [[E _] | [dt1 [dt2 [_ [_ [T1 [T2 _]]]]]]]; [contradiction | auto].
  - intros b. rewrite Hf. unfold check_file_number, hint_truthy.
    destruct (file_number_hint a1) as [n1 |];
      [| cbn [fst]; split; [discriminate | intros [x [y [E _]]]; discriminate E]].
    destruct (file_number_hint a2) as [n2 |];
      [| cbn [fst]; split; [discriminate | intros [x [y [_ [E _]]]]; discriminate E]].
    destruct (Z.eqb_spec n1 0) as [Z1 | Z1]; cbn [negb andb fst].
    { split; [discriminate |].
      intros [x [y [E [_ [Hx _]]]]]. injection E as <-. contradiction. }
    destruct (Z.eqb_spec n2 0) as [Z2 | Z2]; cbn [negb fst].
    { split; [discriminate |].
      intros [x [y [_ [E [_ [Hy _]]]]]]. injection E as <-. contradiction. }
    destruct (Z.ltb_spec n1 n2) as [L | L]; cbn [fst].
    { split.
      - intros E. injection E as <-. exists n1, n2.
        repeat split; try assumption; first [lia | reflexivity].
      - intros [x [y [E1 [E2 [_ [_ [_ ->]]]]]]]. injection E1 as <-. injection E2 as <-.
        f_equal. symmetry. apply Z.ltb_lt, L. }
    destruct (Z.eqb_spec n2 n1) as [Q | Q]; cbn [fst].
    { split; [discriminate |].
      intros [x [y [E1 [E2 [_ [_ [Hne _]]]]]]]. injection E1 as <-. injection E2 as <-.
      contradiction Hne. symmetry. exact Q. }
    split.
    + intros E. injection E as <-. exists n1, n2.
      repeat split; try assumption; first [lia | reflexivity].
    + intros [x [y [E1 [E2 [_ [_ [_ ->]]]]]]]. injection E1 as <-. injection E2 as <-.
      f_equal. symmetry. apply Z.ltb_ge, L.
Qed.

Lemma sequence_subverdicts_witness :
  time_difference_seconds comparison_no_serial = Some 300
  /\ (time_sequence_valid comparison_no_serial = Some true <->
        exists d, time_difference_seconds comparison_no_serial = Some d
                  /\ true = (0 <=? d))
  /\ (file_number_sequence_valid comparison_no_serial = Some true <->
        exists n1 n2,
          file_number_hint analysis_200d_first = Some n1
          /\ file_number_hint analysis_200d_no_serial = Some n2
          /\ n1 <> 0 /\ n2 <> 0 /\ n1 <> n2 /\ true = (n1 <? n2)).
Proof.
  split; [reflexivity |].
  destruct (sequence_subverdicts path_img_1234 path_img_1235
              (backend_ok shot_200d_first) (backend_ok shot_200d_no_serial)
              analysis_200d_first analysis_200d_no_serial comparison_no_serial
              eq_refl eq_refl) as [Ht [_ Hn]].
  - vm_compute. reflexivity.
  - split; [exact (Ht true) | exact (Hn true)].
Defined.

(** ** The directory analyzer *)

Lemma insert_by_key_permutation (x : FileAnalysis) (sorted placed : list FileAnalysis) :
  insert_by_key x sorted = Ok placed -> Permutation (x :: sorted) placed.
Proof.
  revert placed. induction sorted as [| y rest IH]; intros placed; cbn [insert_by_key].
  - intros H. injection H as <-. apply Permutation_refl.
  - destruct (py_lt (sort_key y) (sort_key x)) as [[|] | e]; cbn [bind]; try discriminate.
    + destruct (insert_by_key x rest) as [tail | e]; cbn [bind]; [| discriminate].
      intros H. injection H as <-.
      apply perm_trans with (y :: x :: rest); [apply perm_swap |].
      apply perm_skip, IH. reflexivity.
    + intros H. injection H as <-. apply Permutation_refl.
Qed.

Lemma sorted_by_key_permutation (results sorted : list FileAnalysis) :
  sorted_by_key results = Ok sorted -> Permutation results sorted.
Proof.
  revert sorted. induction results as [| x rest IH]; intros sorted; cbn [sorted_by_key].
  - intros H. injection H as <-. apply perm_nil.
  - destruct (sorted_by_key rest) as [s | e]; cbn [bind]; [| discriminate].
    intros H. apply insert_by_key_permutation in H.
    apply perm_trans with (x :: s); [apply perm_skip, IH; reflexivity | exact H].
Qed.

Lemma analyze_entries_selected (entries : list dir_entry) (raw : bool)
  (results : list FileAnalysis) :
  analyze_entries entries raw = Ok results ->
  Forall2 (fun e a => analyze_file (entry_path e) (entry_run e) raw = Ok a)
          (filter selected entries) results.
Proof.
  revert results. induction entries as [| e rest IH]; intros results;
    cbn [analyze_entries filter].
  - intros H. injection H as <-. constructor.
  - destruct (selected e); [| apply IH].
    destruct (analyze_file (entry_path e) (entry_run e) raw) as [a | x] eqn:Ha;
      cbn [bind]; [| discriminate].
    destruct (analyze_entries rest raw) as [l | x]; cbn [bind]; [| discriminate].
    intros H. injection H as <-. constructor; [exact Ha | apply IH; reflexivity].
Qed.

Lemma analyze_file_extension_accepted (path : path_facts) (run : process_outcome)
  (raw : bool) (a : FileAnalysis) :
  mem_str (PyStr.lower (suffix (name path))) SUPPORTED_EXTENSIONS = true ->
  analyze_file path run raw = Ok a ->
  extension_accepted a.
Proof.
  intros Hext H sfx. apply analyze_file_cases in H. cbv zeta in H.
  destruct H as [[Hno _] | [[_ [e [_ ->]]] | [_ [exif [_ H]]]]].
  - rewrite Hext in Hno. discriminate Hno.
  - cbn [new_analysis errors]. intros [E | []]. discriminate E.
  - apply analyze_exif_fields in H.
    destruct H as [mismatch [terrs [tnotes [edited [warning [rn [xn H]]]]]]].
    destruct H as [Hft [_ [_ [_ [_ [Herrs _]]]]]].
    rewrite Herrs. apply check_file_type_shape in Hft.
    destruct Hft as [[_ [-> _]] | [_ [-> _]]]; intros Hin; cbn [In] in Hin;
      [contradiction |].
    destruct Hin as [E | []]. discriminate E.
Qed.

(** X15.  What [analyze_directory] returns is, up to the order, the list of
    the records of [analyze_file] for the entries that are regular files
    with a supported extension, one record for each and in no case one for
    another entry; and no record of it carries the error of an unsupported
    extension, the test of the loop being the one [analyze_file] makes. *)
Theorem analyze_directory_selects (entries : list dir_entry) (raw : bool)
  (results : list FileAnalysis) :
  analyze_directory entries raw = Ok results ->
  (exists analyses,
      Forall2 (fun e a => analyze_file (entry_path e) (entry_run e) raw = Ok a)
              (filter selected entries) analyses
      /\ Permutation analyses results)
  /\ Forall extension_accepted results.
Proof.
  unfold analyze_directory.
  destruct (analyze_entries entries raw) as [analyses | x] eqn:Ha; cbn [bind];
    [| discriminate].
  intros Hs. apply sorted_by_key_permutation in Hs.
  apply analyze_entries_selected in Ha.
  split; [exists analyses; auto |].
  apply Forall_forall. intros a Hin.
  apply (Permutation_in _ (Permutation_sym Hs)) in Hin.
  assert (Hsel : Forall (fun e => selected e = true) (filter selected entries)).
  { apply Forall_forall. intros e He. apply filter_In in He. apply He. }
  clear Hs. revert Ha Hsel Hin. generalize (filter selected entries) as chosen.
  intros chosen Ha.
  induction Ha as [| e b l l' Hb Hrest IH]; intros Hsel Hin; [contradiction |].
  pose proof (Forall_inv Hsel) as He. pose proof (Forall_inv_tail Hsel) as Hl.
  destruct Hin as [<- | Hin]; [| exact (IH Hl Hin)].
  unfold selected in He. apply andb_prop in He. destruct He as [_ Hext].
  exact (analyze_file_extension_accepted _ _ _ _ Hext Hb).
Qed.

Lemma sort_key_text (a : FileAnalysis) :
  text_or_absent (datetime_original a) -> sort_key a = VStr (timestamp_text a).
Proof.
  unfold sort_key, timestamp_text, py_or.
  destruct (datetime_original a) as [| | | | s]; cbn [text_or_absent]; try contradiction;
    intros _; [reflexivity |].
  destruct s; reflexivity.
Qed.

Lemma ltb_leb (s t : string) : String.ltb s t = true -> String.leb s t = true.
Proof. unfold String.ltb, String.leb. destruct (String.compare s t); auto. Qed.

Lemma not_ltb_leb (s t : string) : String.ltb s t = false -> String.leb t s = true.
Proof.
  unfold String.ltb, String.leb. rewrite (String.compare_antisym t s).
  destruct (String.compare s t); cbn [CompOpp]; auto.
Qed.

Lemma insert_by_key_head (x : FileAnalysis) (sorted placed : list FileAnalysis)
  (y : FileAnalysis) :
  insert_by_key x sorted = Ok placed ->
  not_after y x -> HdRel not_after y sorted -> HdRel not_after y placed.
Proof.
  destruct sorted as [| z rest]; cbn [insert_by_key].
  - intros H. injection H as <-. constructor. assumption.
  - destruct (py_lt (sort_key z) (sort_key x)) as [[|] | e]; cbn [bind]; try discriminate.
    + destruct (insert_by_key x rest) as [tail | e]; cbn [bind]; [| discriminate].
      intros H Hx Hz. injection H as <-. constructor. inversion Hz. assumption.
    + intros H Hx Hz. injection H as <-. constructor. assumption.
Qed.

Lemma insert_by_key_sorted (x : FileAnalysis) (sorted placed : list FileAnalysis) :
  text_or_absent (datetime_original x) ->
  Forall (fun a => text_or_absent (datetime_original a)) sorted ->
  Sorted not_after sorted ->
  insert_by_key x sorted = Ok placed ->
  Sorted not_after placed.
Proof.
  intros Tx. revert placed.
  induction sorted as [| y rest IH]; intros placed Ts Hs; cbn [insert_by_key].
  - intros H. injection H as <-. repeat constructor.
  - pose proof (Forall_inv Ts) as Ty. pose proof (Forall_inv_tail Ts) as Trest.
    rewrite (sort_key_text x Tx), (sort_key_text y Ty). cbn [py_lt bind].
    destruct (String.ltb (timestamp_text y) (timestamp_text x)) eqn:L.
    + destruct (insert_by_key x rest) as [tail | e] eqn:Hi; cbn [bind]; [| discriminate].
      intros H. injection H as <-.
      inversion Hs as [| y' rest' Hrest Hhd]; subst.
      constructor; [apply (IH tail Trest Hrest eq_refl) |].
      apply (insert_by_key_head x rest tail y Hi); [| exact Hhd].
      apply ltb_leb, L.
    + intros H. injection H as <-.
      constructor; [exact Hs |]. constructor. apply not_ltb_leb, L.
Qed.

Lemma insert_by_key_returns (x : FileAnalysis) (sorted : list FileAnalysis) :
  text_or_absent (datetime_original x) ->
  Forall (fun a => text_or_absent (datetime_original a)) sorted ->
  exists placed, insert_by_key x sorted = Ok placed.
Proof.
  intros Tx. induction sorted as [| y rest IH]; intros Ts; cbn [insert_by_key].
  - eexists. reflexivity.
  - pose proof (Forall_inv Ts) as Ty. pose proof (Forall_inv_tail Ts) as Trest.
    rewrite (sort_key_text x Tx), (sort_key_text y Ty). cbn [py_lt bind].
    destruct (String.ltb (timestamp_text y) (timestamp_text x)); [| eexists; reflexivity].
    destruct (IH Trest) as [tail ->]. cbn [bind]. eexists. reflexivity.
Qed.

Lemma sorted_by_key_text (results : list FileAnalysis) :
  Forall (fun a => text_or_absent (datetime_original a)) results ->
  exists sorted,
    sorted_by_key results = Ok sorted
    /\ Forall (fun a => text_or_absent (datetime_original a)) sorted
    /\ Sorted not_after sorted.
Proof.
  induction results as [| x rest IH]; intros Ts; cbn [sorted_by_key].
  - exists []. repeat constructor.
  - pose proof (Forall_inv Ts) as Tx. pose proof (Forall_inv_tail Ts) as Trest.
    destruct (IH Trest) as [s [-> [Tsorted Hs]]]. cbn [bind].
    destruct (insert_by_key_returns x s Tx Tsorted) as [placed Hp].
    exists placed. split; [exact Hp |]. split.
    + apply Forall_forall. intros a Hin.
      apply (Permutation_in _ (Permutation_sym (insert_by_key_permutation _ _ _ Hp))) in Hin.
      destruct Hin as [<- | Hin]; [exact Tx |].
      exact (proj1 (Forall_forall _ _) Tsorted a Hin).
    + exact (insert_by_key_sorted x s placed Tx Tsorted Hs Hp).
Qed.

(** X16.  The list that [analyze_directory] returns is in the order of the
    original timestamps, read as text (the timestamps of the records being
    text or absent): no record comes before one with a smaller timestamp,
    and the records without a timestamp, whose key is the empty text, come
    first. *)
Theorem analyze_directory_sorted (entries : list dir_entry) (raw : bool)
  (results : list FileAnalysis) :
  analyze_directory entries raw = Ok results ->
  Forall (fun a => text_or_absent (datetime_original a)) results ->
  Sorted not_after results.
Proof.
  unfold analyze_directory.
  destruct (analyze_entries entries raw) as [analyses | x]; cbn [bind]; [| discriminate].
  intros Hs Ts.
  assert (Ta : Forall (fun a => text_or_absent (datetime_original a)) analyses).
  { apply Forall_forall. intros a Hin.
    apply (Permutation_in _ (sorted_by_key_permutation _ _ Hs)) in Hin.
    exact (proj1 (Forall_forall _ _) Ts a Hin). }
  destruct (sorted_by_key_text analyses Ta) as [sorted [Hs' [_ Hsorted]]].
  rewrite Hs in Hs'. injection Hs' as <-. exact Hsorted.
Qed.

Lemma analyze_directory_sorted_witness :
  analyze_directory directory_two_shots false
  = Ok [analysis_200d_first; analysis_200d_second]
  /\ Sorted not_after [analysis_200d_first; analysis_200d_second].
Proof.
  assert (E : analyze_directory directory_two_shots false
              = Ok [analysis_200d_first; analysis_200d_second])
    by (vm_compute; reflexivity).
  split; [exact E |].
  apply (analyze_directory_sorted directory_two_shots false _ E).
  repeat constructor.
Defined.

Lemma analyze_directory_selects_witness :
  (exists analyses,
      Forall2 (fun e a => analyze_file (entry_path e) (entry_run e) false = Ok a)
              (filter selected directory_two_shots) analyses
      /\ Permutation analyses [analysis_200d_first; analysis_200d_second])
  /\ Forall extension_accepted [analysis_200d_first; analysis_200d_second].
Proof.
  apply (analyze_directory_selects directory_two_shots false).
  vm_compute. reflexivity.
Defined.

Lemma analyze_entries_raises (pre post : list dir_entry) (e : dir_entry) (raw : bool)
  (x : exn) :
  Forall (fun e' => selected e' = true ->
                    exists a, analyze_file (entry_path e') (entry_run e') raw = Ok a) pre ->
  selected e = true ->
  analyze_file (entry_path e) (entry_run e) raw = Raise x ->
  analyze_entries (pre ++ e :: post) raw = Raise x.
Proof.
  intros Hpre He Hx. induction pre as [| p pre IH]; cbn [app analyze_entries].
  - rewrite He, Hx. reflexivity.
  - pose proof (Forall_inv Hpre) as Hp. pose proof (Forall_inv_tail Hpre) as Hrest.
    rewrite (IH Hrest).
    destruct (selected p) eqn:Sp; [| reflexivity].
    destruct (Hp Sp) as [a ->]. reflexivity.
Qed.

(** X17.  One file is enough to stop the directory: when [analyze_file]
    raises on a regular file with a supported extension, and returns on the
    selected entries before it, [analyze_directory] raises the same exception
    and returns no list, whatever the entries after it are. *)
Theorem analyze_directory_propagates (pre post : list dir_entry) (e : dir_entry)
  (raw : bool) (x : exn) :
  Forall (fun e' => selected e' = true ->
                    exists a, analyze_file (entry_path e') (entry_run e') raw = Ok a) pre ->
  selected e = true ->
  analyze_file (entry_path e) (entry_run e) raw = Raise x ->
  analyze_directory (pre ++ e :: post) raw = Raise x.
Proof.
  intros Hpre He Hx. unfold analyze_directory.
  rewrite (analyze_entries_raises pre post e raw x Hpre He Hx). reflexivity.
Qed.

Lemma analyze_directory_propagates_witness :
  analyze_directory directory_numeric_software false = Raise TypeError.
Proof.
  apply (analyze_directory_propagates directory_two_shots []
           {| entry_path := path_dsc_0007; entry_is_file := true;
              entry_run := backend_ok [("EXIF:Software", VInt 2)] |} false TypeError).
  - unfold directory_two_shots.
    repeat (constructor; [intros _; eexists; vm_compute; reflexivity |]).
    constructor.
  - reflexivity.
  - reflexivity.
Defined.











Lemma append_not_empty (base rest : string) : base <> "" -> base ++ rest <> "".
Proof. destruct base; [intros H; contradiction H; reflexivity | discriminate]. Qed.

Lemma truthy_text (s : string) : s <> "" -> PyVal.truthy (VStr s) = true.
Proof.
  intros H. cbn [PyVal.truthy]. destruct (String.eqb_spec s ""); [contradiction | reflexivity].
Qed.

(** X20.  What follows the seconds of a timestamp after a ['.'] or a ['+']
    is never looked at: a record whose timestamp carries a fraction of a
    second or a positive zone offset is compared, in the time check, as the
    record with the bare timestamp is, on either side. *)
Theorem timestamp_suffix_ignored (a1 a1' a2 : FileAnalysis) (base rest : string)
  (sep : ascii) :
  sep = "."%char \/ sep = "+"%char ->
  base <> "" ->
  PyStr.contains "." base = false ->
  PyStr.contains "+" base = false ->
  datetime_original a1 = VStr base ->
  datetime_original a1' = VStr (base ++ String sep rest) ->
  check_time a1' a2 = check_time a1 a2
  /\ check_time a2 a1' = check_time a2 a1.
Proof.
  intros Hsep Hbase Hdot Hplus H1 H1'.
  destruct (strip_timestamp_suffix base rest Hdot Hplus) as [Sdot Splus].
  assert (Hstrip : parse_timestamp (datetime_original a1')
                   = parse_timestamp (datetime_original a1)).
  { rewrite H1, H1'. unfold parse_timestamp.
    destruct Hsep as [-> | ->]; [rewrite Sdot | rewrite Splus];
      unfold strip_timestamp;
      rewrite (split_head_untouched "." base Hdot), (split_head_untouched "+" base Hplus);
      reflexivity. }
  assert (Htruthy : PyVal.truthy (datetime_original a1')
                    = PyVal.truthy (datetime_original a1)).
  { rewrite H1, H1'.
    rewrite (truthy_text _ Hbase), (truthy_text _ (append_not_empty _ _ Hbase)).
    reflexivity. }
  unfold check_time. rewrite Hstrip, Htruthy. split; reflexivity.
Qed.

Lemma timestamp_suffix_ignored_witness :
  check_time analysis_200d_first analysis_200d_second
  = Ok (Some 300, Some true, [TimeOrderOk 300])
  /\ check_time analysis_200d_first_zoned analysis_200d_second
     = check_time analysis_200d_first analysis_200d_second
  /\ check_time analysis_200d_second analysis_200d_first_zoned
     = check_time analysis_200d_second analysis_200d_first.
Proof.
  split; [vm_compute; reflexivity |].
  apply (timestamp_suffix_ignored analysis_200d_first analysis_200d_first_zoned
           analysis_200d_second "2024:01:15 14:30:00" "03:00" "+"%char).
  - right. reflexivity.
  - discriminate.
  - reflexivity.
  - reflexivity.
  - reflexivity.
  - reflexivity.
Defined.
